(** * wire: OTP login flow, entity access facade and change-feed subscriptions

    A shallow embedding of
      - [src/context/UserAuthContext.tsx]  (OTP login flow),
      - [src/lib/realtime-db.ts]           (entity access facade, subscription manager),
      - the [Products] page                (consumer of product notifications),
      - the [OwnerAuthProvider]            (the owner's login),
      - [src/components/dashboard/ProductsManagement.tsx]  (the product form),
    followed by the properties established about them.

    Conventions.  A JavaScript string is a sequence of UTF-16 code units; the
    embedding covers the code units below 256, carried by [string].  A JavaScript
    [number] that the code only counts with ([attempts], [expiresAt], clock
    readings in milliseconds) is a [Z].  React state is passed explicitly: a
    callback receives the state value captured by its render and returns the
    state update it enqueues. *)

From Stdlib Require Import ZArith String Ascii List Bool Lia QArith.
From stdpp Require Import base option list strings gmap fin_maps.

Local Open Scope string_scope.
Local Open Scope Z_scope.

(* ===================================================================== *)
(** ** JavaScript strings *)
(* ===================================================================== *)

Module JsString.

Definition code (c : ascii) : Z := Z.of_N (N_of_ascii c).

Definition of_code (z : Z) : ascii := ascii_of_N (Z.to_N z).

Definition between (lo hi : Z) (c : ascii) : bool :=
  (lo <=? code c) && (code c <=? hi).

(** WhiteSpace and LineTerminator code units below 256: TAB, LF, VT, FF, CR,
    SP and NBSP.  This is the set removed by [trim] and matched by [\s]. *)
Definition is_space (c : ascii) : bool :=
  between 9 13 c || (code c =? 32) || (code c =? 160).

Fixpoint trimStart (s : list ascii) : list ascii :=
  match s with
  | c :: s' => if is_space c then trimStart s' else s
  | [] => []
  end.

Definition trimEnd (s : list ascii) : list ascii :=
  rev (trimStart (rev s)).

(** [String.prototype.trim] *)
Definition trim (s : string) : string :=
  string_of_list_ascii (trimEnd (trimStart (list_ascii_of_string s))).

(** Code units with an upper-case mapping below 256: A-Z, and the Latin-1
    capitals U+00C0..U+00DE without the multiplication sign U+00D7. *)
Definition lower_char (c : ascii) : ascii :=
  if between 65 90 c || (between 192 222 c && negb (code c =? 215))
  then of_code (code c + 32)
  else c.

(** [String.prototype.toLowerCase] *)
Definition toLowerCase (s : string) : string :=
  string_of_list_ascii (map lower_char (list_ascii_of_string s)).

End JsString.

(* ===================================================================== *)
(** ** Regular expressions, matched by derivatives *)
(* ===================================================================== *)

Module Regex.

Inductive re : Type :=
| Void : re                         (* matches nothing *)
| Eps : re                          (* the empty string *)
| Class : (ascii -> bool) -> re     (* one code unit of a class *)
| Cat : re -> re -> re
| Alt : re -> re -> re
| Star : re -> re.

Fixpoint nullable (r : re) : bool :=
  match r with
  | Void => false
  | Eps => true
  | Class _ => false
  | Cat r1 r2 => nullable r1 && nullable r2
  | Alt r1 r2 => nullable r1 || nullable r2
  | Star _ => true
  end.

Fixpoint deriv (a : ascii) (r : re) : re :=
  match r with
  | Void => Void
  | Eps => Void
  | Class f => if f a then Eps else Void
  | Cat r1 r2 =>
      if nullable r1
      then Alt (Cat (deriv a r1) r2) (deriv a r2)
      else Cat (deriv a r1) r2
  | Alt r1 r2 => Alt (deriv a r1) (deriv a r2)
  | Star r1 => Cat (deriv a r1) (Star r1)
  end.

Fixpoint matches (r : re) (s : list ascii) : bool :=
  match s with
  | [] => nullable r
  | a :: s' => matches (deriv a r) s'
  end.

(** [/^r$/.test(s)]: without the [m] flag the anchors are the two ends of
    the input, so the whole string has to match. *)
Definition test (r : re) (s : string) : bool :=
  matches r (list_ascii_of_string s).

(** [r+] *)
Definition Plus (r : re) : re := Cat r (Star r).

(** [r{n}] *)
Fixpoint Rep (n : nat) (r : re) : re :=
  match n with
  | O => Eps
  | S n' => Cat r (Rep n' r)
  end.

(** [r{n,}] *)
Definition AtLeast (n : nat) (r : re) : re := Cat (Rep n r) (Star r).

Definition Lit (c : ascii) : re := Class (Ascii.eqb c).

(** Character classes of the source's patterns. *)
Definition digit (c : ascii) : bool := JsString.between 48 57 c.       (* [0-9], \d *)
Definition lower (c : ascii) : bool := JsString.between 97 122 c.      (* a-z *)
Definition upper (c : ascii) : bool := JsString.between 65 90 c.       (* A-Z *)
Definition alpha (c : ascii) : bool := lower c || upper c.             (* [a-zA-Z] *)
Definition one_of (cs : string) (c : ascii) : bool :=
  existsb (Ascii.eqb c) (list_ascii_of_string cs).

End Regex.

(* ===================================================================== *)
(** ** The platform's [TextEncoder] and [crypto.subtle.digest("SHA-256")] *)
(* ===================================================================== *)

Module Sha256.

(** [TextEncoder.encode]: UTF-8 of a code unit below 256. *)
Definition utf8 (c : ascii) : list Z :=
  let u := JsString.code c in
  if u <? 128 then [u]
  else [Z.lor 192 (Z.shiftr u 6); Z.lor 128 (Z.land u 63)].

Definition encode (s : string) : list Z :=
  flat_map utf8 (list_ascii_of_string s).

(** 32-bit words are integers in [0, 2^32). *)
Definition wrap (x : Z) : Z := x mod 2 ^ 32.
Definition add32 (x y : Z) : Z := wrap (x + y).
Definition not32 (x : Z) : Z := Z.lxor x (2 ^ 32 - 1).
Definition rotr (n x : Z) : Z := Z.lor (Z.shiftr x n) (wrap (Z.shiftl x (32 - n))).
Definition shr (n x : Z) : Z := Z.shiftr x n.

Definition Ch (x y z : Z) : Z := Z.lxor (Z.land x y) (Z.land (not32 x) z).
Definition Maj (x y z : Z) : Z :=
  Z.lxor (Z.lxor (Z.land x y) (Z.land x z)) (Z.land y z).
Definition bigsigma0 (x : Z) : Z := Z.lxor (Z.lxor (rotr 2 x) (rotr 13 x)) (rotr 22 x).
Definition bigsigma1 (x : Z) : Z := Z.lxor (Z.lxor (rotr 6 x) (rotr 11 x)) (rotr 25 x).
Definition smallsigma0 (x : Z) : Z := Z.lxor (Z.lxor (rotr 7 x) (rotr 18 x)) (shr 3 x).
Definition smallsigma1 (x : Z) : Z := Z.lxor (Z.lxor (rotr 17 x) (rotr 19 x)) (shr 10 x).

(** The round constants and the initial hash value are the first 32 bits of
    the fractional parts of the cube roots, respectively square roots, of
    the first primes; they are computed here from that definition. *)
Definition is_prime (n : nat) : bool :=
  (2 <=? Z.of_nat n) &&
  forallb (fun d => negb (Z.of_nat n mod Z.of_nat d =? 0)) (seq 2 (n - 2)).

Definition primes : list Z :=
  Eval vm_compute in map Z.of_nat (List.filter is_prime (seq 2 310)).

(** Integer cube root, one bit at a time from bit [b - 1] downwards. *)
Fixpoint cbrt_bits (b : nat) (n r : Z) : Z :=
  match b with
  | O => r
  | S b' =>
      let r' := r + 2 ^ Z.of_nat b' in
      cbrt_bits b' n (if r' * r' * r' <=? n then r' else r)
  end.

Definition K : list Z :=
  Eval vm_compute in map (fun p => wrap (cbrt_bits 40 (p * 2 ^ 96) 0)) primes.

Definition H0 : list Z :=
  Eval vm_compute in map (fun p => wrap (Z.sqrt (p * 2 ^ 64))) (firstn 8 primes).

(** Padding: a one bit, zeros up to 56 modulo 64, the bit length on 8 bytes. *)
Fixpoint be_bytes (n : nat) (x : Z) : list Z :=
  match n with
  | O => []
  | S n' => Z.shiftr x (8 * Z.of_nat n') mod 256 :: be_bytes n' x
  end.

Definition pad (msg : list Z) : list Z :=
  let len := Z.of_nat (length msg) in
  msg ++ [128] ++ repeat 0 (Z.to_nat ((55 - len) mod 64)) ++ be_bytes 8 (8 * len).

Definition be_word (bs : list Z) : Z :=
  fold_left (fun acc b => acc * 256 + b) bs 0.

Fixpoint chunks (fuel k : nat) (bs : list Z) : list (list Z) :=
  match fuel, bs with
  | _, [] => []
  | O, _ => []
  | S fuel', _ => firstn k bs :: chunks fuel' k (skipn k bs)
  end.

Definition words_of_block (block : list Z) : list Z :=
  map be_word (chunks 16 4 block).

(** Message schedule: [w] holds W_0 .. W_(t-1); [n] more words are added. *)
Fixpoint schedule (n : nat) (w : list Z) : list Z :=
  match n with
  | O => w
  | S n' =>
      let t := length w in
      let at_ i := nth (t - i) w 0 in
      schedule n'
        (w ++ [add32 (add32 (smallsigma1 (at_ 2%nat)) (at_ 7%nat))
                     (add32 (smallsigma0 (at_ 15%nat)) (at_ 16%nat))])
  end.

Definition round (st : list Z) (kw : Z * Z) : list Z :=
  match st with
  | [a; b; c; d; e; f; g; h] =>
      let t1 := add32 (add32 (add32 h (bigsigma1 e)) (add32 (Ch e f g) (fst kw))) (snd kw) in
      let t2 := add32 (bigsigma0 a) (Maj a b c) in
      [add32 t1 t2; a; b; c; add32 d t1; e; f; g]
  | _ => st
  end.

Definition zip (xs ys : list Z) : list (Z * Z) := combine xs ys.

Definition compress (h : list Z) (block : list Z) : list Z :=
  let w := schedule 48 (words_of_block block) in
  map (fun p => add32 (fst p) (snd p)) (zip h (fold_left round (zip K w) h)).

(** The 32 bytes of the digest. *)
Definition digest (msg : list Z) : list Z :=
  let padded := pad msg in
  flat_map (be_bytes 4)
    (fold_left compress (chunks (length padded) 64 padded) H0).

End Sha256.

(* ===================================================================== *)
(** ** [src/context/UserAuthContext.tsx]: the OTP login flow *)
(* ===================================================================== *)

Module UserAuth.

Import JsString Regex.

Definition USER_AUTH_STORAGE_KEY : string := "wirebazaar-user".

(** [User] of the backend's client library; the flow reads its [id] only. *)
Module SupabaseUser.
Record t : Type := { id : string }.
End SupabaseUser.

Module UserProfile.
Record t : Type := {
  id : string;
  email : option string;
  phone : option string;
  contact : string;
  lastLoginAt : string;
  authUser : option SupabaseUser.t
}.
End UserProfile.

Module PendingVerification.
Record t : Type := {
  contact : string;
  otpHash : string;
  expiresAt : Z;
  attempts : Z
}.
End PendingVerification.

(** A row of the [users] table, as the flow reads and writes it. *)
Module UserRow.
Record t : Type := {
  id : string;
  email : option string;
  phone : option string;
  is_verified : bool;
  last_login_at : string
}.
End UserRow.

(** [byte.toString(16).padStart(2, "0")] *)
Definition hex_digit (n : Z) : ascii :=
  nth (Z.to_nat n) (list_ascii_of_string "0123456789abcdef") "0"%char.

Definition byte_hex (byte : Z) : string :=
  String (hex_digit (byte / 16)) (String (hex_digit (byte mod 16)) "").

Definition bufferToHex (buffer : list Z) : string :=
  String.concat "" (map byte_hex buffer).

Definition hashOtp (otp contact : string) : string :=
  let normalized := trim (toLowerCase contact) ++ "::" ++ otp in
  let data := Sha256.encode normalized in
  let digest := Sha256.digest data in
  bufferToHex digest.

#[global] Arguments hashOtp : simpl never.

Definition TEST_OTP : string := "123456".

Definition generateOtp : string := TEST_OTP.

(** [/^(?:[a-zA-Z0-9_!#$%&'*+/=?`{|}~^.-]+)@(?:[a-zA-Z0-9-]+\.)+[a-zA-Z]{2,}$/u] *)
Definition email_local (c : ascii) : bool :=
  alpha c || digit c || one_of "_!#$%&'*+/=?`{|}~^.-" c.

Definition email_label (c : ascii) : bool :=
  alpha c || digit c || one_of "-" c.

Definition email_re : re :=
  Cat (Plus (Class email_local))
    (Cat (Lit "@")
       (Cat (Plus (Cat (Plus (Class email_label)) (Lit ".")))
          (AtLeast 2 (Class alpha)))).

Definition isValidEmail (value : string) : bool :=
  test email_re (trim value).

(** [/^[6-9]\d{9}$/] on [value.trim().replace(/[\s-]/g, '')] *)
Definition phone_re : re :=
  Cat (Class (between 54 57)) (Rep 9 (Class digit)).

Definition strip_separators (s : string) : string :=
  string_of_list_ascii
    (List.filter (fun c => negb (is_space c || one_of "-" c)) (list_ascii_of_string s)).

Definition isValidPhone (value : string) : bool :=
  test phone_re (strip_separators (trim value)).

(** [/^[0-9]{6}$/] *)
Definition otp_re : re := Rep 6 (Class digit).

(** *** The provider's state and what a callback does to it *)

Record State : Type := {
  user : option UserProfile.t;
  pending : option PendingVerification.t;
  localStorage : gmap string UserProfile.t   (* JSON text, kept as the value it encodes *)
}.

Definition setUser (u : option UserProfile.t) (st : State) : State :=
  {| user := u; pending := pending st; localStorage := localStorage st |}.

(** [setPending] with a value or with an updater function. *)
Definition setPending (f : option PendingVerification.t -> option PendingVerification.t)
    (st : State) : State :=
  {| user := user st; pending := f (pending st); localStorage := localStorage st |}.

Definition setItem (key : string) (v : UserProfile.t) (st : State) : State :=
  {| user := user st; pending := pending st;
     localStorage := <[key := v]> (localStorage st) |}.

Definition removeItem (key : string) (st : State) : State :=
  {| user := user st; pending := pending st;
     localStorage := delete key (localStorage st) |}.

(** The promise an [async] callback returns. *)
Inductive Outcome : Type :=
| Resolved : Outcome
| Rejected : string -> Outcome.   (* [throw new Error(message)] *)

(** Writes sent to the [users] table. *)
Inductive UsersWrite : Type :=
| UsersUpdate (id : string) (row : UserRow.t)
| UsersInsert (row : UserRow.t).

Record Result : Type := {
  outcome : Outcome;
  update : State -> State;          (* the state updates enqueued, in order *)
  writes : list UsersWrite
}.

Definition reject (message : string) : Result :=
  {| outcome := Rejected message; update := fun st => st; writes := [] |}.

Definition reject_after (upd : State -> State) (message : string) : Result :=
  {| outcome := Rejected message; update := upd; writes := [] |}.

(** The backend as the flow sees it: what each awaited call answers. *)
Record SignIn : Type := {
  signin_user : option SupabaseUser.t;
  signin_error : option string
}.

Record InsertReply : Type := {
  insert_data : option UserRow.t;
  insert_error : option string
}.

Record Backend : Type := {
  isSupabaseConfigured : bool;
  getSession : option SupabaseUser.t;              (* [session.user], if a session exists *)
  signInAnonymously : SignIn;
  selectUser : string -> option UserRow.t;         (* [.eq('id', id).maybeSingle()] *)
  insertUser : UserRow.t -> InsertReply            (* [.insert(row).select('*').single()] *)
}.

Record Clock : Type := {
  now : Z;               (* [Date.now()], milliseconds *)
  toISOString : string   (* [new Date().toISOString()] *)
}.

Definition requestOtp (clock : Clock) (contact : string) : Result :=
  let trimmed := trim contact in
  if negb (isValidEmail trimmed) && negb (isValidPhone trimmed) then
    reject "Enter a valid mobile number or email address."
  else
    let otp := generateOtp in
    let otpHash := hashOtp otp trimmed in
    let expiresAt := now clock + 5 * 60 * 1000 in
    {| outcome := Resolved;
       update := setPending (fun _ =>
         Some {| PendingVerification.contact := trimmed;
                 PendingVerification.otpHash := otpHash;
                 PendingVerification.expiresAt := expiresAt;
                 PendingVerification.attempts := 0 |});
       writes := [] |}.

Definition bump (prev : option PendingVerification.t) : option PendingVerification.t :=
  match prev with
  | Some p =>
      Some {| PendingVerification.contact := PendingVerification.contact p;
              PendingVerification.otpHash := PendingVerification.otpHash p;
              PendingVerification.expiresAt := PendingVerification.expiresAt p;
              PendingVerification.attempts := PendingVerification.attempts p + 1 |}
  | None => prev
  end.

(** The part of [verifyOtp] after the digest comparison succeeded. *)
Definition establish (backend : Backend) (clock : Clock) (trimmedContact : string) : Result :=
  if negb (isSupabaseConfigured backend) then
    reject "Database not configured. Please try again later."
  else
    let isEmail := isValidEmail trimmedContact in
    let isPhone := isValidPhone trimmedContact in
    let session :=
      match getSession backend with
      | None =>
          let s := signInAnonymously backend in
          match signin_error s, signin_user s with
          | None, Some u => inl u
          | _, _ => inr "Authentication session could not be established."
          end
      | Some u => inl u
      end in
    match session with
    | inr message => reject message
    | inl authUser =>
        let finish (userId : string) (ws : list UsersWrite) : Result :=
          let profile :=
            {| UserProfile.id := userId;
               UserProfile.email := if isEmail then Some trimmedContact else None;
               UserProfile.phone := if isPhone then Some trimmedContact else None;
               UserProfile.contact := trimmedContact;
               UserProfile.lastLoginAt := toISOString clock;
               UserProfile.authUser := Some authUser |} in
          {| outcome := Resolved;
             update := fun st =>
               setPending (fun _ => None)
                 (setItem USER_AUTH_STORAGE_KEY profile (setUser (Some profile) st));
             writes := ws |} in
        match selectUser backend (SupabaseUser.id authUser) with
        | Some existingUser =>
            let userId := UserRow.id existingUser in
            finish userId
              [UsersUpdate userId
                 {| UserRow.id := userId;
                    UserRow.email :=
                      if isEmail then Some trimmedContact else UserRow.email existingUser;
                    UserRow.phone :=
                      if isPhone then Some trimmedContact else UserRow.phone existingUser;
                    UserRow.is_verified := true;
                    UserRow.last_login_at := toISOString clock |}]
        | None =>
            let row :=
              {| UserRow.id := SupabaseUser.id authUser;
                 UserRow.email := if isEmail then Some trimmedContact else None;
                 UserRow.phone := if isPhone then Some trimmedContact else None;
                 UserRow.is_verified := true;
                 UserRow.last_login_at := toISOString clock |} in
            let reply := insertUser backend row in
            match insert_error reply, insert_data reply with
            | None, Some newUser => finish (UserRow.id newUser) [UsersInsert row]
            | _, _ =>
                {| outcome := Rejected "Failed to create user account. Please try again.";
                   update := fun st => st;
                   writes := [UsersInsert row] |}
            end
        end
    end.

(** [verifyOtp], as created by the render whose [pending] state is [pending]. *)
Definition verifyOtp (backend : Backend) (clock : Clock)
    (pending : option PendingVerification.t) (contact otp : string) : Result :=
  let trimmedContact := trim contact in
  match pending with
  | None => reject "Please request a new OTP for this contact."
  | Some p =>
      if negb (String.eqb (PendingVerification.contact p) trimmedContact) then
        reject "Please request a new OTP for this contact."
      else if now clock >? PendingVerification.expiresAt p then
        reject_after (setPending (fun _ => None))
          "OTP has expired. Please request a new code."
      else if PendingVerification.attempts p >=? 4 then
        reject_after (setPending (fun _ => None))
          "Too many incorrect attempts. Please request a new OTP."
      else if negb (test otp_re (trim otp)) then
        reject "Enter the 6-digit OTP sent to you."
      else
        let candidateHash := hashOtp (trim otp) trimmedContact in
        if negb (String.eqb candidateHash (PendingVerification.otpHash p)) then
          reject_after (setPending bump) "Incorrect OTP. Please try again."
        else
          establish backend clock trimmedContact
  end.

(** [logout]; the sign-out request is fire-and-forget. *)
Definition logout (st : State) : State :=
  removeItem USER_AUTH_STORAGE_KEY (setUser None st).

(** A call made through the callbacks of the current render: the state the
    callback captured is the state its updates are applied to. *)
Definition run (r : Result) (st : State) : State * Outcome :=
  (update r st, outcome r).

Definition callRequestOtp (clock : Clock) (contact : string) (st : State)
    : State * Outcome :=
  run (requestOtp clock contact) st.

Definition callVerifyOtp (backend : Backend) (clock : Clock) (contact otp : string)
    (st : State) : State * Outcome :=
  run (verifyOtp backend clock (pending st) contact otp) st.

(** A [verifyOtp] call made through the callback of an earlier render.  The
    callback is rebuilt only when [pending] changes ([useCallback(.., [pending])]),
    and a caller may still hold, or call again before the next render, the one
    that captured [captured]: the checks are made on [captured], while the
    updates, [setPending((prev) => ..)] among them, apply to the state of the
    moment. *)
Definition callVerifyOtpFrom (captured : option PendingVerification.t)
    (backend : Backend) (clock : Clock) (contact otp : string) (st : State)
    : State * Outcome :=
  run (verifyOtp backend clock captured contact otp) st.

End UserAuth.

(* ===================================================================== *)
(** ** [src/lib/realtime-db.ts]: rows, facade and subscriptions *)
(* ===================================================================== *)

Module RealtimeDb.

(** Values the facade stores and forwards without inspecting them. *)
Definition number : Type := Q.

#[local] Unset Elimination Schemes.
Inductive Json : Type :=
| JNull : Json
| JBool : bool -> Json
| JNumber : number -> Json
| JString : string -> Json
| JArray : list Json -> Json
| JObject : list (string * Json) -> Json.
#[local] Set Elimination Schemes.

(** An object literal: fields in insertion order. *)
Definition Fields : Type := list (string * Json).

(** [{ ...o, k: v }]: an existing key keeps its place and takes the value. *)
Fixpoint put (k : string) (v : Json) (o : Fields) : Fields :=
  match o with
  | [] => [(k, v)]
  | (k', v') :: o' => if String.eqb k' k then (k', v) :: o' else (k', v') :: put k v o'
  end.

(** [{ ...a, ...b }] *)
Definition spread (a b : Fields) : Fields :=
  fold_left (fun acc kv => put (fst kv) (snd kv) acc) b a.

Module Product.
Record t : Type := {
  id : string;
  name : string;
  brand : string;
  category : string;
  color : list string;
  description : option string;
  specifications : Fields;
  base_price : number;
  unit_type : string;
  stock_quantity : number;
  image_url : option string;
  brochure_url : option string;
  is_active : bool;
  created_by : option string;
  created_at : string;
  updated_at : string
}.
End Product.

Module Order.
Record t : Type := {
  id : string;
  user_id : string;
  order_number : string;
  customer_name : string;
  customer_email : string;
  customer_phone : string;
  customer_address : string;
  customer_city : option string;
  customer_state : option string;
  customer_pincode : string;
  items : list Json;
  subtotal : number;
  shipping_cost : number;
  total_amount : number;
  status : string;
  payment_status : string;
  payment_method : option string;
  qr_code_data : option string;
  transaction_id : option string;
  estimated_delivery : option string;
  notes : option string;
  created_at : string;
  updated_at : string
}.
End Order.

Module Inquiry.
Record t : Type := {
  id : string;
  user_id : string;
  user_type : string;
  location : string;
  product_name : option string;
  product_specification : option string;
  quantity : option string;
  contact_name : string;
  contact_email : string;
  contact_phone : string;
  additional_requirements : option string;
  status : string;
  created_at : string;
  updated_at : string
}.
End Inquiry.

Module UserProfile.
Record t : Type := {
  id : string;
  user_id : string;
  full_name : option string;
  email : option string;
  phone_number : option string;
  address : option string;
  city : option string;
  state : option string;
  pincode : option string;
  company_name : option string;
  business_type : option string;
  gst_number : option string;
  profile_completed : bool;
  created_at : string;
  updated_at : string
}.
End UserProfile.

(** *** What the store answers *)

Record PostgrestError : Type := {
  code : string;
  message : string
}.

(** The awaited [{ data, error }] of a query. *)
Record Response (D : Type) : Type := {
  data : option D;
  error : option PostgrestError
}.
Arguments data {D} _.
Arguments error {D} _.

(** The store as the facade sees it: one field per query the facade builds.
    A [userId] given to a list query is its [.eq('user_id', userId)] filter.
    The three single-row reads end in [.maybeSingle()]: a query that matches
    no row is answered with no data and no error. *)
Record Store : Type := {
  selectProducts : Response (list Product.t);
  selectProductById : string -> Response Product.t;
  insertProduct : Fields -> Response Product.t;
  updateProductById : string -> Fields -> Response Product.t;
  deleteProductById : string -> Response unit;
  selectOrders : option string -> Response (list Order.t);
  selectOrderById : string -> Response Order.t;
  insertOrder : Fields -> Response Order.t;
  updateOrderById : string -> Fields -> Response Order.t;
  selectInquiries : option string -> Response (list Inquiry.t);
  insertInquiry : Fields -> Response Inquiry.t;
  updateInquiryById : string -> Fields -> Response Inquiry.t;
  selectUserProfileByUser : string -> Response UserProfile.t;
  upsertUserProfileRow : Fields -> Response UserProfile.t
}.

(** *** How an [async] method completes *)

Inductive Completion (A : Type) : Type :=
| Return : A -> Completion A
| Throw : PostgrestError -> Completion A.
Arguments Return {A} _.
Arguments Throw {A} _.

(** A completed call: its result and the [console.error] lines it wrote. *)
Record Run (A : Type) : Type := {
  completion : Completion A;
  console : list (string * PostgrestError)
}.
Arguments completion {A} _.
Arguments console {A} _.

Definition ret {A : Type} (a : A) : Run A :=
  {| completion := Return a; console := [] |}.

(** [console.error(label, error); return a] *)
Definition log_ret {A : Type} (label : string) (e : PostgrestError) (a : A) : Run A :=
  {| completion := Return a; console := [(label, e)] |}.

(** [console.error(label, error); throw error] *)
Definition log_throw {A : Type} (label : string) (e : PostgrestError) : Run A :=
  {| completion := Throw e; console := [(label, e)] |}.

(** [data || []] *)
Definition or_empty {A : Type} (d : option (list A)) : list A :=
  match d with Some l => l | None => [] end.

(** Truthiness of an optional string argument: [undefined] and [''] are falsy. *)
Definition truthy (s : option string) : bool :=
  match s with
  | Some v => negb (String.eqb v "")
  | None => false
  end.

Definition eq_filter (userId : option string) : option string :=
  if truthy userId then userId else None.

Section Facade.

Variable isSupabaseConfigured : bool.
Variable supabase : Store.

Definition getProducts : Run (list Product.t) :=
  if negb isSupabaseConfigured then ret [] else
  let r := selectProducts supabase in
  match error r with
  | Some e => log_ret "Error fetching products:" e []
  | None => ret (or_empty (data r))
  end.

Definition getProductById (id : string) : Run (option Product.t) :=
  if negb isSupabaseConfigured then ret None else
  let r := selectProductById supabase id in
  match error r with
  | Some e => log_ret "Error fetching product:" e None
  | None => ret (data r)
  end.

Definition createProduct (product : Fields) : Run (option Product.t) :=
  if negb isSupabaseConfigured then ret None else
  let r := insertProduct supabase product in
  match error r with
  | Some e => log_throw "Error creating product:" e
  | None => ret (data r)
  end.

Definition updateProduct (id : string) (updates : Fields) : Run (option Product.t) :=
  if negb isSupabaseConfigured then ret None else
  let r := updateProductById supabase id updates in
  match error r with
  | Some e => log_throw "Error updating product:" e
  | None => ret (data r)
  end.

Definition deleteProduct (id : string) : Run bool :=
  if negb isSupabaseConfigured then ret false else
  let r := deleteProductById supabase id in
  match error r with
  | Some e => log_throw "Error deleting product:" e
  | None => ret true
  end.

Definition getOrders (userId : option string) : Run (list Order.t) :=
  if negb isSupabaseConfigured then ret [] else
  let r := selectOrders supabase (eq_filter userId) in
  match error r with
  | Some e => log_ret "Error fetching orders:" e []
  | None => ret (or_empty (data r))
  end.

Definition getOrderById (id : string) : Run (option Order.t) :=
  if negb isSupabaseConfigured then ret None else
  let r := selectOrderById supabase id in
  match error r with
  | Some e => log_ret "Error fetching order:" e None
  | None => ret (data r)
  end.

Definition createOrder (order : Fields) : Run (option Order.t) :=
  if negb isSupabaseConfigured then ret None else
  let r := insertOrder supabase order in
  match error r with
  | Some e => log_throw "Error creating order:" e
  | None => ret (data r)
  end.

Definition updateOrderStatus (id status : string) (paymentStatus : option string)
    : Run (option Order.t) :=
  if negb isSupabaseConfigured then ret None else
  let updates : Fields := [("status", JString status)] in
  let updates :=
    match paymentStatus with
    | Some p => if truthy paymentStatus then put "payment_status" (JString p) updates
                else updates
    | None => updates
    end in
  let r := updateOrderById supabase id updates in
  match error r with
  | Some e => log_throw "Error updating order status:" e
  | None => ret (data r)
  end.

Definition getInquiries (userId : option string) : Run (list Inquiry.t) :=
  if negb isSupabaseConfigured then ret [] else
  let r := selectInquiries supabase (eq_filter userId) in
  match error r with
  | Some e => log_ret "Error fetching inquiries:" e []
  | None => ret (or_empty (data r))
  end.

Definition createInquiry (inquiry : Fields) : Run (option Inquiry.t) :=
  if negb isSupabaseConfigured then ret None else
  let r := insertInquiry supabase (put "status" (JString "pending") inquiry) in
  match error r with
  | Some e => log_throw "Error creating inquiry:" e
  | None => ret (data r)
  end.

Definition updateInquiryStatus (id status : string) : Run (option Inquiry.t) :=
  if negb isSupabaseConfigured then ret None else
  let r := updateInquiryById supabase id [("status", JString status)] in
  match error r with
  | Some e => log_throw "Error updating inquiry status:" e
  | None => ret (data r)
  end.

Definition getUserProfile (userId : string) : Run (option UserProfile.t) :=
  if negb isSupabaseConfigured then ret None else
  let r := selectUserProfileByUser supabase userId in
  match error r with
  | Some e =>
      if negb (String.eqb (code e) "PGRST116")
      then log_ret "Error fetching user profile:" e None
      else ret (data r)
  | None => ret (data r)
  end.

Definition upsertUserProfile (userId : string) (profile : Fields)
    : Run (option UserProfile.t) :=
  if negb isSupabaseConfigured then ret None else
  let row :=
    put "profile_completed" (JBool true)
      (spread [("user_id", JString userId)] profile) in
  let r := upsertUserProfileRow supabase row in
  match error r with
  | Some e => log_throw "Error upserting user profile:" e
  | None => ret (data r)
  end.

End Facade.

(** *** Change-feed subscriptions *)

Inductive EventType : Type := INSERT | UPDATE | DELETE.

(** The argument of a [SubscriptionCallback<T>]; also the shape of the
    change the backend pushes, whose images may be absent. *)
Record Payload (T : Type) : Type := {
  eventType : EventType;
  new : option T;
  old : option T
}.
Arguments eventType {T} _.
Arguments new {T} _.
Arguments old {T} _.

(** [image || null] *)
Definition or_null {T : Type} (image : option T) : option T :=
  match image with
  | Some v => Some v
  | None => None
  end.

Section Subscriptions.

Variable isSupabaseConfigured : bool.
Variable T : Type.   (* row images *)
Variable C : Type.   (* what the consumers' callbacks act on *)

Definition SubscriptionCallback : Type := Payload T -> C -> C.

(** A channel joined at the backend: its topic, its [postgres_changes]
    filter and the listener given to [.on]. *)
Record Joined : Type := {
  topic : string;
  table : string;
  filter : option string;
  listener : Payload T -> C -> C
}.

(** A [RealtimeChannel] is a handle.  With [channel_subscribe] below every
    [supabase.channel(..)] call yields a new one; [AnyClient] takes the client
    as a parameter instead. *)
Record World : Type := {
  channels : gmap string nat;   (* [this.channels] *)
  joined : gmap nat Joined;     (* channels open at the backend *)
  fresh : nat;                  (* the next handle *)
  view : C                      (* state owned by the consumers *)
}.

(** [supabase.channel(topic).on('postgres_changes', .., listener).subscribe()] *)
Definition channel_subscribe (j : Joined) (w : World) : nat * World :=
  (fresh w,
   {| channels := channels w; joined := <[fresh w := j]> (joined w);
      fresh := S (fresh w); view := view w |}).

(** [channel.unsubscribe()] *)
Definition channel_unsubscribe (channel : nat) (w : World) : World :=
  {| channels := channels w; joined := delete channel (joined w);
     fresh := fresh w; view := view w |}.

(** [this.channels.set(channelName, channel)] *)
Definition channels_set (channelName : string) (channel : nat) (w : World) : World :=
  {| channels := <[channelName := channel]> (channels w); joined := joined w;
     fresh := fresh w; view := view w |}.

(** [this.channels.delete(channelName)] *)
Definition channels_delete (channelName : string) (w : World) : World :=
  {| channels := delete channelName (channels w); joined := joined w;
     fresh := fresh w; view := view w |}.

(** The listener every subscribe method installs around the callback. *)
Definition forward (callback : SubscriptionCallback) (payload : Payload T) : C -> C :=
  callback {| eventType := eventType payload;
              new := or_null (new payload);
              old := or_null (old payload) |}.

(** The body shared by the three subscribe methods once the channel name
    and filter are fixed. *)
Definition subscribe_on (channelName tbl : string) (flt : option string)
    (callback : SubscriptionCallback) (w : World) : World * (World -> World) :=
  let (channel, w1) :=
    channel_subscribe
      {| topic := channelName; table := tbl; filter := flt;
         listener := forward callback |} w in
  (channels_set channelName channel w1,
   fun w' => channels_delete channelName (channel_unsubscribe channel w')).

Definition subscribeToProducts (callback : SubscriptionCallback) (w : World)
    : World * (World -> World) :=
  if negb isSupabaseConfigured then (w, fun w' => w') else
  let channelName := "products_realtime" in
  subscribe_on channelName "products" None callback w.

Definition subscribeToOrders (callback : SubscriptionCallback) (userId : option string)
    (w : World) : World * (World -> World) :=
  if negb isSupabaseConfigured then (w, fun w' => w') else
  let channelName :=
    match eq_filter userId with
    | Some u => "orders_" ++ u
    | None => "orders_all"
    end in
  let flt :=
    match eq_filter userId with
    | Some u => Some ("user_id=eq." ++ u)
    | None => None
    end in
  subscribe_on channelName "orders" flt callback w.

Definition subscribeToInquiries (callback : SubscriptionCallback) (userId : option string)
    (w : World) : World * (World -> World) :=
  if negb isSupabaseConfigured then (w, fun w' => w') else
  let channelName :=
    match eq_filter userId with
    | Some u => "inquiries_" ++ u
    | None => "inquiries_all"
    end in
  let flt :=
    match eq_filter userId with
    | Some u => Some ("user_id=eq." ++ u)
    | None => None
    end in
  subscribe_on channelName "inquiries" flt callback w.

(** [this.channels.forEach((channel) => channel.unsubscribe()); this.channels.clear()] *)
Definition unsubscribeAll (w : World) : World :=
  let w1 :=
    fold_left (fun acc entry => channel_unsubscribe (snd entry) acc)
      (map_to_list (channels w)) w in
  {| channels := ∅; joined := joined w1; fresh := fresh w1; view := view w1 |}.

(** The backend pushes a change on a channel: an open channel runs its
    listener, a closed one drops it. *)
Definition notify (channel : nat) (payload : Payload T) (w : World) : World :=
  match joined w !! channel with
  | Some j =>
      {| channels := channels w; joined := joined w; fresh := fresh w;
         view := listener j payload (view w) |}
  | None => w
  end.

(** *** Histories of a process using the manager *)

Inductive Op : Type :=
| SubscribeToProducts (callback : SubscriptionCallback)
| SubscribeToOrders (callback : SubscriptionCallback) (userId : option string)
| SubscribeToInquiries (callback : SubscriptionCallback) (userId : option string)
| Unsubscribe (k : nat)            (* call the k-th unsubscribe function returned so far *)
| UnsubscribeAll
| Notify (channel : nat) (payload : Payload T).

Record Process : Type := {
  world : World;
  returned : list (World -> World)   (* the unsubscribe functions handed out *)
}.

Definition subscribed (r : World * (World -> World)) (p : Process) : Process :=
  {| world := fst r; returned := returned p ++ [snd r] |}.

Definition step (p : Process) (op : Op) : Process :=
  match op with
  | SubscribeToProducts cb => subscribed (subscribeToProducts cb (world p)) p
  | SubscribeToOrders cb u => subscribed (subscribeToOrders cb u (world p)) p
  | SubscribeToInquiries cb u => subscribed (subscribeToInquiries cb u (world p)) p
  | Unsubscribe k =>
      match returned p !! k with
      | Some unsubscribe => {| world := unsubscribe (world p); returned := returned p |}
      | None => p
      end
  | UnsubscribeAll => {| world := unsubscribeAll (world p); returned := returned p |}
  | Notify ch payload => {| world := notify ch payload (world p); returned := returned p |}
  end.

Definition exec (ops : list Op) (p : Process) : Process := fold_left step ops p.

Definition start (c : C) : Process :=
  {| world := {| channels := ∅; joined := ∅; fresh := 0%nat; view := c |};
     returned := [] |}.

End Subscriptions.

Arguments channels {T C} _.
Arguments joined {T C} _.
Arguments fresh {T C} _.
Arguments view {T C} _.
Arguments world {T C} _.
Arguments returned {T C} _.
Arguments SubscribeToProducts {T C} _.
Arguments SubscribeToOrders {T C} _ _.
Arguments SubscribeToInquiries {T C} _ _.
Arguments Unsubscribe {T C} _.
Arguments UnsubscribeAll {T C}.
Arguments Notify {T C} _ _.
Arguments channel_subscribe {T C} _ _.
Arguments channel_unsubscribe {T C} _ _.
Arguments channels_set {T C} _ _ _.
Arguments channels_delete {T C} _ _.
Arguments forward {T C} _ _ _.
Arguments subscribe_on {T C} _ _ _ _ _.
Arguments subscribeToProducts _ {T C} _ _.
Arguments subscribeToOrders _ {T C} _ _ _.
Arguments subscribeToInquiries _ {T C} _ _ _.
Arguments unsubscribeAll {T C} _.
Arguments notify {T C} _ _ _.
Arguments subscribed {T C} _ _.
Arguments step _ {T C} _ _.
Arguments exec _ {T C} _ _.
Arguments start {T C} _.

(** *** The subscribe methods over any client

    Whether [supabase.channel(name)] opens a new channel or hands back the
    one that name already has is decided by the client library, which is not
    part of the repository; [channel_subscribe] above is a client that opens
    a new channel on every call.  Here the chain
    [supabase.channel(name).on(..).subscribe()] is the parameter
    [client_subscribe], and the methods are the same text over it. *)
Module AnyClient.

Section Methods.

Variable T : Type.
Variable C : Type.
Variable client_subscribe : Joined T C -> World T C -> nat * World T C.
Variable isSupabaseConfigured : bool.

Definition subscribe_on (channelName tbl : string) (flt : option string)
    (callback : SubscriptionCallback T C) (w : World T C)
    : World T C * (World T C -> World T C) :=
  let (channel, w1) :=
    client_subscribe
      {| topic := channelName; table := tbl; filter := flt;
         listener := forward callback |} w in
  (channels_set channelName channel w1,
   fun w' => channels_delete channelName (channel_unsubscribe channel w')).

Definition subscribeToProducts (callback : SubscriptionCallback T C) (w : World T C)
    : World T C * (World T C -> World T C) :=
  if negb isSupabaseConfigured then (w, fun w' => w') else
  let channelName := "products_realtime" in
  subscribe_on channelName "products" None callback w.

Definition subscribeToOrders (callback : SubscriptionCallback T C)
    (userId : option string) (w : World T C)
    : World T C * (World T C -> World T C) :=
  if negb isSupabaseConfigured then (w, fun w' => w') else
  let channelName :=
    match eq_filter userId with
    | Some u => "orders_" ++ u
    | None => "orders_all"
    end in
  let flt :=
    match eq_filter userId with
    | Some u => Some ("user_id=eq." ++ u)
    | None => None
    end in
  subscribe_on channelName "orders" flt callback w.

Definition subscribeToInquiries (callback : SubscriptionCallback T C)
    (userId : option string) (w : World T C)
    : World T C * (World T C -> World T C) :=
  if negb isSupabaseConfigured then (w, fun w' => w') else
  let channelName :=
    match eq_filter userId with
    | Some u => "inquiries_" ++ u
    | None => "inquiries_all"
    end in
  let flt :=
    match eq_filter userId with
    | Some u => Some ("user_id=eq." ++ u)
    | None => None
    end in
  subscribe_on channelName "inquiries" flt callback w.

Definition step (p : Process T C) (op : Op T C) : Process T C :=
  match op with
  | SubscribeToProducts cb => subscribed (subscribeToProducts cb (world p)) p
  | SubscribeToOrders cb u => subscribed (subscribeToOrders cb u (world p)) p
  | SubscribeToInquiries cb u => subscribed (subscribeToInquiries cb u (world p)) p
  | Unsubscribe k =>
      match returned p !! k with
      | Some unsubscribe => {| world := unsubscribe (world p); returned := returned p |}
      | None => p
      end
  | UnsubscribeAll => {| world := unsubscribeAll (world p); returned := returned p |}
  | Notify ch payload => {| world := notify ch payload (world p); returned := returned p |}
  end.

Definition exec (ops : list (Op T C)) (p : Process T C) : Process T C :=
  fold_left step ops p.

End Methods.

Arguments subscribe_on {T C} _ _ _ _ _ _.
Arguments subscribeToProducts {T C} _ _ _ _.
Arguments subscribeToOrders {T C} _ _ _ _ _.
Arguments subscribeToInquiries {T C} _ _ _ _ _.
Arguments step {T C} _ _ _ _.
Arguments exec {T C} _ _ _ _.

End AnyClient.

End RealtimeDb.

(* ===================================================================== *)
(** ** The [Products] page: the list projected from product notifications *)
(* ===================================================================== *)

Module Products.

Import RealtimeDb.

(** The callback the page passes to [db.subscribeToProducts]; [prev] is the
    [products] state its [setProducts] updater receives. *)
Definition onProductChange (payload : Payload Product.t) (prev : list Product.t)
    : list Product.t :=
  match eventType payload, new payload, old payload with
  | INSERT, Some row, _ => row :: prev
  | UPDATE, Some row, _ =>
      map (fun p => if String.eqb (Product.id p) (Product.id row) then row else p) prev
  | DELETE, _, Some gone =>
      List.filter (fun p => negb (String.eqb (Product.id p) (Product.id gone))) prev
  | _, _, _ => prev
  end.

End Products.

(* ===================================================================== *)
(** ** [src/context/UserAuthContext.tsx]: the provider's mount effect *)
(* ===================================================================== *)

Module UserAuthEffect.

Import UserAuth.

(** [a || b] on values that are [null] or strings: [null] and [''] are falsy. *)
Definition or_string (a b : option string) : option string :=
  match a with
  | Some v => if String.eqb v "" then b else a
  | None => b
  end.

(** [userData.email || userData.phone || ''] *)
Definition contact_of (userData : UserRow.t) : string :=
  match or_string (or_string (UserRow.email userData) (UserRow.phone userData)) (Some "") with
  | Some v => v
  | None => ""
  end.

(** [restoreSession], started by the effect when the backend is configured. *)
Definition restoreSession (backend : Backend) (st : State) : State :=
  if negb (isSupabaseConfigured backend) then st else
  match getSession backend with
  | Some sessionUser =>
      match selectUser backend (SupabaseUser.id sessionUser) with
      | Some userData =>
          let profile :=
            {| UserProfile.id := UserRow.id userData;
               UserProfile.email := UserRow.email userData;
               UserProfile.phone := UserRow.phone userData;
               UserProfile.contact := contact_of userData;
               UserProfile.lastLoginAt := UserRow.last_login_at userData;
               UserProfile.authUser := Some sessionUser |} in
          setItem USER_AUTH_STORAGE_KEY profile (setUser (Some profile) st)
      | None => st
      end
  | None => st
  end.

(** The listener given to [supabase.auth.onAuthStateChange]; [session] is
    [session?.user]. *)
Definition onAuthStateChange (session : option SupabaseUser.t) (st : State) : State :=
  match session with
  | None => removeItem USER_AUTH_STORAGE_KEY (setUser None st)
  | Some _ => st
  end.

(** The state of a provider that has just mounted over a local storage. *)
Definition mounted (storage : gmap string UserProfile.t) : State :=
  {| user := None; pending := None; localStorage := storage |}.

End UserAuthEffect.

(* ===================================================================== *)
(** ** The [Products] page: loading and filtering the catalogue *)
(* ===================================================================== *)

Module ProductsPage.

Import RealtimeDb.

(** [s.includes(t)] *)
Fixpoint includes (s t : string) : bool :=
  String.prefix t s ||
  match s with
  | EmptyString => false
  | String _ s' => includes s' t
  end.

(** An expression evaluates to a value or throws a [TypeError]. *)
Inductive Evaluated (A : Type) : Type :=
| Value : A -> Evaluated A
| TypeError : Evaluated A.
Arguments Value {A} _.
Arguments TypeError {A}.

(** [matchesSearch]: the three tests are tried in turn; the third calls
    [toLowerCase] on the description, which throws when it is [null]. *)
Definition matchesSearch (searchQuery : string) (product : Product.t) : Evaluated bool :=
  if includes (JsString.toLowerCase (Product.name product)) (JsString.toLowerCase searchQuery)
  then Value true
  else if includes (JsString.toLowerCase (Product.brand product))
            (JsString.toLowerCase searchQuery)
  then Value true
  else match Product.description product with
       | Some description =>
           Value (includes (JsString.toLowerCase description)
                    (JsString.toLowerCase searchQuery))
       | None => TypeError
       end.

(** The callback of [products.filter]. *)
Definition keeps (searchQuery selectedBrand selectedCategory : string)
    (product : Product.t) : Evaluated bool :=
  if negb (Product.is_active product) then Value false else
  match matchesSearch searchQuery product with
  | TypeError => TypeError
  | Value matches_search =>
      let matchesBrand :=
        String.eqb selectedBrand "all" || String.eqb (Product.brand product) selectedBrand in
      let matchesCategory :=
        String.eqb selectedCategory "all"
        || String.eqb (Product.category product) selectedCategory in
      Value (matches_search && matchesBrand && matchesCategory)
  end.

(** [Array.prototype.filter] with a callback that may throw: the elements
    are tested in order and the first throw ends the call. *)
Fixpoint filter_throwing {A : Type} (f : A -> Evaluated bool) (l : list A)
    : Evaluated (list A) :=
  match l with
  | [] => Value []
  | x :: l' =>
      match f x with
      | TypeError => TypeError
      | Value b =>
          match filter_throwing f l' with
          | TypeError => TypeError
          | Value kept => Value (if b then x :: kept else kept)
          end
      end
  end.

Definition filteredProducts (products : list Product.t)
    (searchQuery selectedBrand selectedCategory : string) : Evaluated (list Product.t) :=
  filter_throwing (keeps searchQuery selectedBrand selectedCategory) products.

(** [loadProducts]: the list becomes whatever [db.getProducts()] returns. *)
Definition loadProducts (isSupabaseConfigured : bool) (supabase : Store)
    (products : list Product.t) : list Product.t :=
  match completion (getProducts isSupabaseConfigured supabase) with
  | Return data => data
  | Throw _ => products
  end.

End ProductsPage.

(* ===================================================================== *)
(** ** The owner's login ([OwnerAuthProvider]) *)
(* ===================================================================== *)

Module OwnerAuth.

Definition OWNER_AUTH_STORAGE_KEY : string := "owner-dashboard-authenticated".
Definition OWNER_EMAIL : string := "owner@cablehq.com".
Definition OWNER_PASSWORD : string := "SecurePass123!".

Record State : Type := {
  isAuthenticated : bool;
  localStorage : gmap string string
}.

(** [localStorage.getItem(key) === "true"] *)
Definition flag_set (storage : gmap string string) : bool :=
  match storage !! OWNER_AUTH_STORAGE_KEY with
  | Some v => String.eqb v "true"
  | None => false
  end.

(** The provider's first state, in a browser, over the storage it finds. *)
Definition initial (storage : gmap string string) : State :=
  {| isAuthenticated := flag_set storage; localStorage := storage |}.

Definition signed_in (st : State) : State :=
  {| isAuthenticated := true;
     localStorage := <[OWNER_AUTH_STORAGE_KEY := "true"]> (localStorage st) |}.

Definition signed_off (st : State) : State :=
  {| isAuthenticated := false;
     localStorage := delete OWNER_AUTH_STORAGE_KEY (localStorage st) |}.

(** [checkSession], run once by the mount effect when the backend is
    configured; [session] tells whether [getSession] finds one. *)
Definition checkSession (isSupabaseConfigured session : bool) (st : State) : State :=
  if negb isSupabaseConfigured then st
  else if flag_set (localStorage st) then
    if negb session then signed_off st else st
  else st.

(** How [supabase.auth.signInAnonymously()] ends. *)
Inductive SignIn : Type :=
| SignedIn : SignIn                (* resolves without error *)
| SignInError : string -> SignIn   (* resolves with [error] set *)
| SignInThrows : SignIn.           (* rejects *)

Inductive Toast : Type :=
| ToastError : string -> Toast
| ToastSuccess : string -> Toast
| ToastInfo : string -> Toast.

Record Login : Type := {
  state : State;
  result : bool;
  toasts : list Toast
}.

Definition login (isSupabaseConfigured : bool) (signIn : SignIn) (email password : string)
    (st : State) : Login :=
  let normalizedEmail := JsString.toLowerCase (JsString.trim email) in
  let normalizedPassword := JsString.trim password in
  if negb (String.eqb normalizedEmail OWNER_EMAIL)
     || negb (String.eqb normalizedPassword OWNER_PASSWORD) then
    {| state := st; result := false; toasts := [ToastError "Invalid credentials"] |}
  else if isSupabaseConfigured then
    match signIn with
    | SignInError _ =>
        {| state := st; result := false;
           toasts := [ToastError "Authentication failed. Please try again."] |}
    | SignedIn =>
        {| state := signed_in st; result := true; toasts := [ToastSuccess "Welcome back!"] |}
    | SignInThrows =>
        {| state := st; result := false;
           toasts := [ToastError "Login failed. Please try again."] |}
    end
  else
    {| state := signed_in st; result := true; toasts := [] |}.

(** [logout]: the state and the flag are cleared before the sign-out request. *)
Definition logout (st : State) : State := signed_off st.

End OwnerAuth.

(* ===================================================================== *)
(** ** [src/components/dashboard/ProductsManagement.tsx] *)
(* ===================================================================== *)

Module ProductsManagement.

Import RealtimeDb.

Record ProductFormState : Type := {
  name : string;
  brand : string;
  category : string;
  color : string;
  description : string;
  base_price : string;
  unit_type : string;
  stock_quantity : string;
  image_url : string;
  specifications : string;
  is_active : bool
}.

(** [s.split(sep)] for a one-character separator. *)
Fixpoint split (sep : ascii) (s : string) : list string :=
  match s with
  | EmptyString => [""]
  | String c s' =>
      if Ascii.eqb c sep then "" :: split sep s'
      else match split sep s' with
           | piece :: pieces => String c piece :: pieces
           | [] => [String c ""]
           end
  end.

(** [a.join(sep)] *)
Definition join (sep : string) (a : list string) : string := String.concat sep a.

(** [Boolean(s)] on a string. *)
Definition nonempty (s : string) : bool := negb (String.eqb s "").

(** [formData.color.split(',').map(c => c.trim()).filter(Boolean)] *)
Definition parseColors (color : string) : list string :=
  List.filter nonempty (map JsString.trim (split ","%char color)).

(** [s || null] *)
Definition or_null_string (s : string) : Json :=
  if nonempty s then JString s else JNull.

(** [o || ''] *)
Definition or_empty_string (o : option string) : string :=
  match o with
  | Some s => s
  | None => ""
  end.

Inductive Toast : Type :=
| ToastError : string -> Toast
| ToastSuccess : string -> Toast
| ToastInfo : string -> Toast.

Record State : Type := {
  products : list Product.t;
  isLoading : bool;
  formData : ProductFormState;
  editingProduct : option Product.t;
  isDialogOpen : bool;
  isSaving : bool;
  toasts : list Toast   (* oldest first *)
}.

Definition toast (t : Toast) (st : State) : State :=
  {| products := products st; isLoading := isLoading st; formData := formData st;
     editingProduct := editingProduct st; isDialogOpen := isDialogOpen st;
     isSaving := isSaving st; toasts := toasts st ++ [t] |}.

Definition setIsSaving (b : bool) (st : State) : State :=
  {| products := products st; isLoading := isLoading st; formData := formData st;
     editingProduct := editingProduct st; isDialogOpen := isDialogOpen st;
     isSaving := b; toasts := toasts st |}.

Definition setIsLoading (b : bool) (st : State) : State :=
  {| products := products st; isLoading := b; formData := formData st;
     editingProduct := editingProduct st; isDialogOpen := isDialogOpen st;
     isSaving := isSaving st; toasts := toasts st |}.

Definition setProducts (l : list Product.t) (st : State) : State :=
  {| products := l; isLoading := isLoading st; formData := formData st;
     editingProduct := editingProduct st; isDialogOpen := isDialogOpen st;
     isSaving := isSaving st; toasts := toasts st |}.

(** [setIsDialogOpen], [setFormData] and [setEditingProduct] together. *)
Definition setDialog (open : bool) (form : ProductFormState) (editing : option Product.t)
    (st : State) : State :=
  {| products := products st; isLoading := isLoading st; formData := form;
     editingProduct := editing; isDialogOpen := open;
     isSaving := isSaving st; toasts := toasts st |}.

Section Component.

(** The platform's parsers and printers, and the lists of
    ['@/lib/products-data']. *)
Variable JSON_parse : string -> option Json.       (* [None]: it throws *)
Variable JSON_stringify : Json -> string.
Variable parseFloat : string -> option number.     (* [None]: NaN *)
Variable parseInt : string -> option Z.            (* [None]: NaN *)
Variable number_toString : number -> string.
Variables brands categories : list string.

Variable isSupabaseConfigured : bool.
Variable supabase : Store.

Definition emptyForm : ProductFormState :=
  {| name := "";
     brand := or_empty_string (head brands);
     category := or_empty_string (head categories);
     color := "";
     description := "";
     base_price := "";
     unit_type := "metres";
     stock_quantity := "0";
     image_url := "";
     specifications := "";
     is_active := true |}.

Definition loadProducts (st : State) : State :=
  let st := setIsLoading true st in
  let st :=
    match completion (getProducts isSupabaseConfigured supabase) with
    | Return data => setProducts data st
    | Throw _ => toast (ToastError "Failed to load products") st
    end in
  setIsLoading false st.

Definition handleAdd (st : State) : State := setDialog true emptyForm None st.

Definition handleEdit (product : Product.t) (st : State) : State :=
  setDialog true
    {| name := Product.name product;
       brand := Product.brand product;
       category := Product.category product;
       color := join ", " (Product.color product);
       description := or_empty_string (Product.description product);
       base_price := number_toString (Product.base_price product);
       unit_type := Product.unit_type product;
       stock_quantity := number_toString (Product.stock_quantity product);
       image_url := or_empty_string (Product.image_url product);
       specifications := JSON_stringify (JObject (Product.specifications product));
       is_active := Product.is_active product |}
    (Some product) st.

(** [handleDelete]; [confirmed] is the answer to [confirm(..)]. *)
Definition handleDelete (confirmed : bool) (product : Product.t) (st : State) : State :=
  if negb confirmed then st else
  match completion (deleteProduct isSupabaseConfigured supabase (Product.id product)) with
  | Return _ => toast (ToastSuccess "Product deleted successfully") st
  | Throw _ => toast (ToastError "Failed to delete product") st
  end.

(** The [productData] object of [handleSubmit], as it is serialised for the
    store: a [NaN] price is sent as [null]. *)
Definition productData (f : ProductFormState) (specs : Json) : Fields :=
  [("name", JString (name f));
   ("brand", JString (brand f));
   ("category", JString (category f));
   ("color", JArray (map JString (parseColors (color f))));
   ("description", or_null_string (description f));
   ("specifications", specs);
   ("base_price", match parseFloat (base_price f) with Some x => JNumber x | None => JNull end);
   ("unit_type", JString (unit_type f));
   ("stock_quantity",
    JNumber (inject_Z match parseInt (stock_quantity f) with Some n => n | None => 0 end));
   ("image_url", or_null_string (image_url f));
   ("brochure_url", JNull);
   ("is_active", JBool (is_active f));
   ("created_by", JNull)].

Definition handleSubmit (st : State) : State :=
  let f := formData st in
  if negb (nonempty (name f)) || negb (nonempty (brand f))
     || negb (nonempty (category f)) || negb (nonempty (base_price f)) then
    toast (ToastError "Please fill in all required fields") st
  else
    let parsed :=
      if nonempty (specifications f) then JSON_parse (specifications f)
      else Some (JObject []) in
    match parsed with
    | None =>
        setIsSaving false (toast (ToastError "Invalid JSON in specifications") st)
    | Some specs =>
        let saved :=
          match editingProduct st with
          | Some editing =>
              (completion (updateProduct isSupabaseConfigured supabase
                             (Product.id editing) (productData f specs)),
               "Product updated successfully")
          | None =>
              (completion (createProduct isSupabaseConfigured supabase
                             (productData f specs)),
               "Product created successfully")
          end in
        match fst saved with
        | Return _ =>
            setIsSaving false
              (setDialog false emptyForm None (toast (ToastSuccess (snd saved)) st))
        | Throw _ =>
            setIsSaving false (toast (ToastError "Failed to save product") st)
        end
    end.

Definition toggleProductStatus (product : Product.t) (st : State) : State :=
  match completion
          (updateProduct isSupabaseConfigured supabase (Product.id product)
             [("is_active", JBool (negb (Product.is_active product)))]) with
  | Return _ =>
      toast (ToastSuccess
               (if Product.is_active product then "Product deactivated"
                else "Product activated")) st
  | Throw _ => toast (ToastError "Failed to update product status") st
  end.

End Component.

End ProductsManagement.

(* ===================================================================== *)
(** ** Vocabulary of the properties, and sample data *)
(* ===================================================================== *)

(** Exactly six decimal digits. *)
Definition six_digits (s : string) : bool :=
  let l := list_ascii_of_string s in
  (length l =? 6)%nat && forallb Regex.digit l.

Module Login.

Import UserAuth.

(** The pending verification [p] with its attempt counter set to [n]. *)
Definition with_attempts (p : PendingVerification.t) (n : Z) : PendingVerification.t :=
  {| PendingVerification.contact := PendingVerification.contact p;
     PendingVerification.otpHash := PendingVerification.otpHash p;
     PendingVerification.expiresAt := PendingVerification.expiresAt p;
     PendingVerification.attempts := n |}.

(** One [verifyOtp] call through the current render, keeping the state. *)
Definition attempt (backend : Backend) (contact : string) (st : State)
    (t : Clock * string) : State :=
  fst (callVerifyOtp backend (fst t) contact (snd t) st).

(** The outcomes of the consecutive calls of which [attempt] keeps the
    states. *)
Fixpoint attempt_outcomes (backend : Backend) (contact : string) (st : State)
    (tries : list (Clock * string)) : list Outcome :=
  match tries with
  | [] => []
  | t :: tries' =>
      snd (callVerifyOtp backend (fst t) contact (snd t) st)
      :: attempt_outcomes backend contact (attempt backend contact st t) tries'
  end.

(** A call in time whose code is six digits with a digest other than the
    stored one. *)
Definition wrong_code (p : PendingVerification.t) (t : Clock * string) : Prop :=
  now (fst t) <= PendingVerification.expiresAt p /\
  six_digits (snd t) = true /\
  hashOtp (snd t) (PendingVerification.contact p) <> PendingVerification.otpHash p.

(** The backend has a session for [u], or signs [u] in anonymously. *)
Definition has_session (backend : Backend) (u : SupabaseUser.t) : Prop :=
  getSession backend = Some u \/
  (getSession backend = None /\
   signin_error (signInAnonymously backend) = None /\
   signin_user (signInAnonymously backend) = Some u).

(** The [users] table has a row for [u], or accepts the insertion of one. *)
Definition can_store_user (backend : Backend) (u : SupabaseUser.t) : Prop :=
  is_Some (selectUser backend (SupabaseUser.id u)) \/
  (selectUser backend (SupabaseUser.id u) = None /\
   forall row, insert_error (insertUser backend row) = None /\
               is_Some (insert_data (insertUser backend row))).

Definition signed_out : State :=
  {| user := None; pending := None; localStorage := ∅ |}.

Definition at_ms (t : Z) : Clock :=
  {| now := t; toISOString := "2025-10-19T15:36:44.000Z" |}.

(** No environment configuration: the degenerate mode. *)
Definition offline : Backend :=
  {| isSupabaseConfigured := false;
     getSession := None;
     signInAnonymously := {| signin_user := None; signin_error := Some "not configured" |};
     selectUser := fun _ => None;
     insertUser := fun _ => {| insert_data := None; insert_error := Some "not configured" |} |}.

(** A configured backend without a session and with an empty [users] table. *)
Definition online : Backend :=
  {| isSupabaseConfigured := true;
     getSession := None;
     signInAnonymously :=
       {| signin_user := Some {| SupabaseUser.id := "anon-1" |}; signin_error := None |};
     selectUser := fun _ => None;
     insertUser := fun row => {| insert_data := Some row; insert_error := None |} |}.

End Login.

Module Feed.

Import RealtimeDb.

(** The store answered the query with the error [e]. *)
Definition fails_with {D : Type} (e : PostgrestError) (r : Response D) : Prop :=
  error r = Some e.

(** The answer of a [.maybeSingle()] query that matched no row. *)
Definition no_row {D : Type} : Response D := {| data := None; error := None |}.

(** A process in the degenerate mode: nothing is open, nothing registered,
    the consumers' state is [c], and every unsubscribe function handed out
    does nothing. *)
Definition inert {T C : Type} (c : C) (p : Process T C) : Prop :=
  view (world p) = c /\
  joined (world p) = ∅ /\
  channels (world p) = ∅ /\
  Forall (fun unsubscribe => forall w, unsubscribe w = w) (returned p).

(** The change notifications for a row: its insertion, and its deletion. *)
Definition inserted (row : Product.t) (old_image : option Product.t) : Payload Product.t :=
  {| eventType := INSERT; new := Some row; old := old_image |}.

Definition deleted (gone : Product.t) (new_image : option Product.t) : Payload Product.t :=
  {| eventType := DELETE; new := new_image; old := Some gone |}.

End Feed.

Module Samples.

Import RealtimeDb.

(** An error with the code that [getUserProfile] keeps out of the log. *)
Definition zero_rows : PostgrestError :=
  {| code := "PGRST116";
     message := "JSON object requested, multiple (or no) rows returned" |}.

Definition transport_error : PostgrestError :=
  {| code := "08006"; message := "connection failure" |}.

Definition failed {D : Type} (e : PostgrestError) : Response D :=
  {| data := None; error := Some e |}.

(** A store that answers every query with the error [e]. *)
Definition failing_store (e : PostgrestError) : Store :=
  {| selectProducts := failed e;
     selectProductById := fun _ => failed e;
     insertProduct := fun _ => failed e;
     updateProductById := fun _ _ => failed e;
     deleteProductById := fun _ => failed e;
     selectOrders := fun _ => failed e;
     selectOrderById := fun _ => failed e;
     insertOrder := fun _ => failed e;
     updateOrderById := fun _ _ => failed e;
     selectInquiries := fun _ => failed e;
     insertInquiry := fun _ => failed e;
     updateInquiryById := fun _ _ => failed e;
     selectUserProfileByUser := fun _ => failed e;
     upsertUserProfileRow := fun _ => failed e |}.

(** A store whose single-row reads match no row; every other query is
    answered with the error [e]. *)
Definition rowless_store (e : PostgrestError) : Store :=
  {| selectProducts := failed e;
     selectProductById := fun _ => Feed.no_row;
     insertProduct := fun _ => failed e;
     updateProductById := fun _ _ => failed e;
     deleteProductById := fun _ => failed e;
     selectOrders := fun _ => failed e;
     selectOrderById := fun _ => Feed.no_row;
     insertOrder := fun _ => failed e;
     updateOrderById := fun _ _ => failed e;
     selectInquiries := fun _ => failed e;
     insertInquiry := fun _ => failed e;
     updateInquiryById := fun _ _ => failed e;
     selectUserProfileByUser := fun _ => Feed.no_row;
     upsertUserProfileRow := fun _ => failed e |}.

Definition wire (id name : string) : Product.t :=
  {| Product.id := id;
     Product.name := name;
     Product.brand := "Polycab";
     Product.category := "House Wires";
     Product.color := ["Red"; "Blue"];
     Product.description := None;
     Product.specifications := [("voltage", JString "1100V")];
     Product.base_price := (57 # 2)%Q;
     Product.unit_type := "metres";
     Product.stock_quantity := (5000 # 1)%Q;
     Product.image_url := None;
     Product.brochure_url := None;
     Product.is_active := true;
     Product.created_by := None;
     Product.created_at := "2025-10-19T15:36:44Z";
     Product.updated_at := "2025-10-19T15:36:44Z" |}.

(** A callback that counts how often it is invoked. *)
Definition counting {T : Type} : Payload T -> nat -> nat := fun _ n => S n.

End Samples.

(** The strings a pattern stands for. *)
Module Grammar.

Import Regex.

Inductive Lang : re -> list ascii -> Prop :=
| LangEps : Lang Eps []
| LangClass (f : ascii -> bool) (a : ascii) : f a = true -> Lang (Class f) [a]
| LangCat (r1 r2 : re) (l1 l2 : list ascii) :
    Lang r1 l1 -> Lang r2 l2 -> Lang (Cat r1 r2) (l1 ++ l2)
| LangAltL (r1 r2 : re) (l : list ascii) : Lang r1 l -> Lang (Alt r1 r2) l
| LangAltR (r1 r2 : re) (l : list ascii) : Lang r2 l -> Lang (Alt r1 r2) l
| LangStarNil (r : re) : Lang (Star r) []
| LangStarApp (r : re) (l1 l2 : list ascii) :
    Lang r l1 -> Lang (Star r) l2 -> Lang (Star r) (l1 ++ l2).

End Grammar.

(** Ten decimal digits, the first of them 6 to 9. *)
Definition phone_shape (l : list ascii) : bool :=
  match l with
  | c :: rest =>
      JsString.between 54 57 c && (length rest =? 9)%nat && forallb Regex.digit rest
  | [] => false
  end.

(** A domain label followed by its dot. *)
Definition dotted (label : list ascii) : list ascii := (label ++ ["."%char])%list.

(** [local@label.label. ... .tld]: a non-empty local part, one or more
    non-empty labels each followed by a dot, and a last part of two or more
    letters. *)
Definition email_shape (l : list ascii) : Prop :=
  exists (local : list ascii) (labels : list (list ascii)) (tld : list ascii),
    l = (local ++ "@"%char :: List.concat (map dotted labels) ++ tld)%list /\
    local <> [] /\ forallb UserAuth.email_local local = true /\
    labels <> [] /\
    Forall (fun label => label <> [] /\ forallb UserAuth.email_label label = true) labels /\
    (2 <= length tld)%nat /\ forallb Regex.alpha tld = true.

(** Histories of a mounted provider. *)
Module Session.

Import UserAuth UserAuthEffect.

(** [VerifyOtp] is a call through the callback of the latest render;
    [VerifyOtpFrom captured] is a call through the callback of an earlier
    render, which holds [captured].  Every value of [captured] is allowed,
    those that a render really held among them. *)
Inductive Action : Type :=
| RequestOtp (clock : Clock) (contact : string)
| VerifyOtp (backend : Backend) (clock : Clock) (contact otp : string)
| Logout
| RestoreSession (backend : Backend)
| AuthStateChange (session : option SupabaseUser.t)
| VerifyOtpFrom (captured : option PendingVerification.t)
    (backend : Backend) (clock : Clock) (contact otp : string).

Definition act (st : State) (a : Action) : State :=
  match a with
  | RequestOtp clock contact => fst (callRequestOtp clock contact st)
  | VerifyOtp backend clock contact otp => fst (callVerifyOtp backend clock contact otp st)
  | Logout => logout st
  | RestoreSession backend => restoreSession backend st
  | AuthStateChange session => onAuthStateChange session st
  | VerifyOtpFrom captured backend clock contact otp =>
      fst (callVerifyOtpFrom captured backend clock contact otp st)
  end.

Definition after (actions : list Action) (st : State) : State :=
  fold_left act actions st.

(** The action goes through the callbacks of the latest render. *)
Definition up_to_date (a : Action) : Prop :=
  match a with
  | VerifyOtpFrom _ _ _ _ _ => False
  | _ => True
  end.

(** The render whose [verifyOtp] callback a call goes through: the latest
    one, or an earlier one, which holds [captured]. *)
Inductive Render : Type :=
| Latest : Render
| Earlier (captured : option PendingVerification.t) : Render.

(** A [verifyOtp] call: the render whose callback is called, the backend and
    clock it meets, and its arguments. *)
Definition Call : Type := (Render * Backend * Clock * (string * string))%type.

Definition through_latest (call : Call) : Prop :=
  fst (fst (fst call)) = Latest.

Definition call_through (r : Render) (backend : Backend) (clock : Clock)
    (contact otp : string) (st : State) : State * Outcome :=
  match r with
  | Latest => callVerifyOtp backend clock contact otp st
  | Earlier captured => callVerifyOtpFrom captured backend clock contact otp st
  end.

(** The outcomes of [verifyOtp] calls made one after the other. *)
Fixpoint outcomes (calls : list Call) (st : State) : list Outcome :=
  match calls with
  | [] => []
  | (render, backend, clock, (contact, otp)) :: calls' =>
      let r := call_through render backend clock contact otp st in
      snd r :: outcomes calls' (fst r)
  end.

(** The state after [verifyOtp] calls made one after the other. *)
Fixpoint after_calls (calls : list Call) (st : State) : State :=
  match calls with
  | [] => st
  | (render, backend, clock, (contact, otp)) :: calls' =>
      after_calls calls' (fst (call_through render backend clock contact otp st))
  end.

Definition is_incorrect (o : Outcome) : bool :=
  match o with
  | Rejected message => String.eqb message "Incorrect OTP. Please try again."
  | Resolved => false
  end.

Definition is_resolved (o : Outcome) : bool :=
  match o with
  | Resolved => true
  | Rejected _ => false
  end.

(** A pending verification as [requestOtp] makes them: a trimmed, valid
    contact, the digest of the generated code, and zero to four attempts. *)
Definition well_formed (p : PendingVerification.t) : Prop :=
  JsString.trim (PendingVerification.contact p) = PendingVerification.contact p /\
  isValidEmail (PendingVerification.contact p)
    || isValidPhone (PendingVerification.contact p) = true /\
  PendingVerification.otpHash p = hashOtp TEST_OTP (PendingVerification.contact p) /\
  0 <= PendingVerification.attempts p <= 4.

(** Every pending verification is well formed. *)
Definition pending_ok (st : State) : Prop :=
  forall p, pending st = Some p -> well_formed p.

(** A pending verification that stems from [requestOtp]: a trimmed, valid
    contact, the digest of the generated code, and a counter that is not
    negative. *)
Definition requested (p : PendingVerification.t) : Prop :=
  JsString.trim (PendingVerification.contact p) = PendingVerification.contact p /\
  isValidEmail (PendingVerification.contact p)
    || isValidPhone (PendingVerification.contact p) = true /\
  PendingVerification.otpHash p = hashOtp TEST_OTP (PendingVerification.contact p) /\
  0 <= PendingVerification.attempts p.

Definition pending_requested (st : State) : Prop :=
  forall p, pending st = Some p -> requested p.

(** A signed-in user is the profile kept in the local storage. *)
Definition user_stored (st : State) : Prop :=
  forall u, user st = Some u -> localStorage st !! USER_AUTH_STORAGE_KEY = Some u.

(** The six ways of a call, in the order the code tries them. *)
Inductive Way (backend : Backend) (clock : Clock)
    (pd : option PendingVerification.t) (contact otp : string) : Result -> Prop :=
| NoMatch :
    (pd = None \/
     exists p, pd = Some p /\ PendingVerification.contact p <> JsString.trim contact) ->
    Way backend clock pd contact otp (reject "Please request a new OTP for this contact.")
| Expired (p : PendingVerification.t) :
    pd = Some p -> PendingVerification.contact p = JsString.trim contact ->
    PendingVerification.expiresAt p < now clock ->
    Way backend clock pd contact otp
      (reject_after (setPending (fun _ => None))
         "OTP has expired. Please request a new code.")
| Exhausted (p : PendingVerification.t) :
    pd = Some p -> PendingVerification.contact p = JsString.trim contact ->
    now clock <= PendingVerification.expiresAt p ->
    4 <= PendingVerification.attempts p ->
    Way backend clock pd contact otp
      (reject_after (setPending (fun _ => None))
         "Too many incorrect attempts. Please request a new OTP.")
| Malformed (p : PendingVerification.t) :
    pd = Some p -> PendingVerification.contact p = JsString.trim contact ->
    now clock <= PendingVerification.expiresAt p ->
    PendingVerification.attempts p < 4 ->
    six_digits (JsString.trim otp) = false ->
    Way backend clock pd contact otp (reject "Enter the 6-digit OTP sent to you.")
| Incorrect (p : PendingVerification.t) :
    pd = Some p -> PendingVerification.contact p = JsString.trim contact ->
    now clock <= PendingVerification.expiresAt p ->
    PendingVerification.attempts p < 4 ->
    six_digits (JsString.trim otp) = true ->
    hashOtp (JsString.trim otp) (JsString.trim contact) <> PendingVerification.otpHash p ->
    Way backend clock pd contact otp
      (reject_after (setPending bump) "Incorrect OTP. Please try again.")
| Matched (p : PendingVerification.t) :
    pd = Some p -> PendingVerification.contact p = JsString.trim contact ->
    now clock <= PendingVerification.expiresAt p ->
    PendingVerification.attempts p < 4 ->
    six_digits (JsString.trim otp) = true ->
    hashOtp (JsString.trim otp) (JsString.trim contact) = PendingVerification.otpHash p ->
    Way backend clock pd contact otp (establish backend clock (JsString.trim contact)).

End Session.

(** A decimal digit or a letter from a to f. *)
Definition is_hex (c : ascii) : bool :=
  Regex.digit c || JsString.between 97 102 c.

(** Reading the facade's results and the rows it sends. *)
Module Facade.

Import RealtimeDb.

(** [o[k]] on an object literal. *)
Fixpoint field (k : string) (o : Fields) : option Json :=
  match o with
  | [] => None
  | (k', v) :: o' => if String.eqb k' k then Some v else field k o'
  end.

(** The call returned; it did not throw. *)
Definition returns {A : Type} (r : Run A) : Prop :=
  exists v, completion r = Return v.

(** The call logged exactly the error it threw, under [label], and nothing
    if it returned. *)
Definition logs_what_it_throws {A : Type} (label : string) (r : Run A) : Prop :=
  match completion r with
  | Throw e => console r = [(label, e)]
  | Return _ => console r = []
  end.

(** What a write makes of the store's answer to the row it sent. *)
Definition written {A : Type} (label : string) (answer : Response A) : Run (option A) :=
  match error answer with
  | Some e => log_throw label e
  | None => ret (data answer)
  end.

End Facade.

(** The registry of channels and the handles it holds. *)
Module Registry.

Import RealtimeDb.

Section Handles.

Context {T C : Type}.

(** The registry key a subscribe call uses. *)
Definition channelName (op : Op T C) : option string :=
  match op with
  | SubscribeToProducts _ => Some "products_realtime"
  | SubscribeToOrders _ userId =>
      Some match eq_filter userId with
           | Some u => "orders_" ++ u
           | None => "orders_all"
           end
  | SubscribeToInquiries _ userId =>
      Some match eq_filter userId with
           | Some u => "inquiries_" ++ u
           | None => "inquiries_all"
           end
  | _ => None
  end.

(** What the unsubscribe function of a subscription does. *)
Definition teardown (channel : nat) (name : string) (w : World T C) : World T C :=
  channels_delete name (channel_unsubscribe channel w).

(** Every registered handle is an open channel of the topic it is registered
    under, and every open channel's handle is below the next fresh one. *)
Definition consistent (w : World T C) : Prop :=
  (forall name ch, channels w !! name = Some ch ->
     exists j, joined w !! ch = Some j /\ topic T C j = name) /\
  (forall ch, is_Some (joined w !! ch) -> (ch < fresh w)%nat).

(** The unsubscribe functions handed out do nothing or tear down a channel
    that, while open, has the topic they unregister. *)
Definition handed_out (w : World T C) (unsubscribe : World T C -> World T C) : Prop :=
  (forall w', unsubscribe w' = w') \/
  exists ch name,
    (forall w', unsubscribe w' = teardown ch name w') /\
    (ch < fresh w)%nat /\
    (forall j, joined w !! ch = Some j -> topic T C j = name).

Definition sound (p : Process T C) : Prop :=
  consistent (world p) /\ Forall (handed_out (world p)) (returned p).

(** Every open channel is the one registered under its topic, and its topic
    is among [used]. *)
Definition all_registered (used : list string) (w : World T C) : Prop :=
  (forall ch j, joined w !! ch = Some j ->
     channels w !! topic T C j = Some ch /\ topic T C j ∈ used) /\
  (forall ch, is_Some (joined w !! ch) -> (ch < fresh w)%nat).

(** Every open channel is the one registered under its topic. *)
Definition registered (w : World T C) : Prop :=
  forall ch j, joined w !! ch = Some j -> channels w !! topic T C j = Some ch.

(** A client that keeps one open channel per topic.  The chain
    [supabase.channel(name).on(..).subscribe()] returns an open channel of
    that topic; when the topic had an open channel, the channel returned was
    open under that topic before.  Every other channel and the registry are
    left as they are. *)
Definition one_channel_per_topic
    (client_subscribe : Joined T C -> World T C -> nat * World T C) : Prop :=
  forall (j : Joined T C) (w : World T C),
    channels (snd (client_subscribe j w)) = channels w /\
    (exists j', joined (snd (client_subscribe j w)) !! fst (client_subscribe j w) = Some j'
                /\ topic T C j' = topic T C j) /\
    (forall ch, ch <> fst (client_subscribe j w) ->
       joined (snd (client_subscribe j w)) !! ch = joined w !! ch) /\
    (forall ch0 j0, joined w !! ch0 = Some j0 -> topic T C j0 = topic T C j ->
       exists j', joined w !! fst (client_subscribe j w) = Some j'
                  /\ topic T C j' = topic T C j).

(** A client of that kind: it hands back the open channel of the topic when
    there is one, as it is, and opens a new channel otherwise. *)
Definition sharing (j : Joined T C) (w : World T C) : nat * World T C :=
  match List.find (fun entry => String.eqb (topic T C (snd entry)) (topic T C j))
          (map_to_list (joined w)) with
  | Some entry => (fst entry, w)
  | None => channel_subscribe j w
  end.

End Handles.

End Registry.

(** The catalogue as the [Products] page shows it. *)
Module Catalogue.

Import RealtimeDb ProductsPage.

Definition ids (products : list Product.t) : list string := map Product.id products.

(** The product is active, the query occurs in its lower-cased name, brand
    or description, and brand and category are the selected ones or "all". *)
Definition shown (searchQuery selectedBrand selectedCategory : string)
    (product : Product.t) : bool :=
  let q := JsString.toLowerCase searchQuery in
  Product.is_active product &&
  (includes (JsString.toLowerCase (Product.name product)) q
   || includes (JsString.toLowerCase (Product.brand product)) q
   || match Product.description product with
      | Some description => includes (JsString.toLowerCase description) q
      | None => false
      end) &&
  (String.eqb selectedBrand "all" || String.eqb (Product.brand product) selectedBrand) &&
  (String.eqb selectedCategory "all"
   || String.eqb (Product.category product) selectedCategory).

(** An active product without description whose name and brand do not
    contain the query. *)
Definition breaks_search (searchQuery : string) (product : Product.t) : bool :=
  let q := JsString.toLowerCase searchQuery in
  Product.is_active product &&
  negb (includes (JsString.toLowerCase (Product.name product)) q) &&
  negb (includes (JsString.toLowerCase (Product.brand product)) q) &&
  match Product.description product with
  | Some _ => false
  | None => true
  end.

End Catalogue.

(** Histories of the owner's login. *)
Module OwnerSession.

Import OwnerAuth.

Section History.

Variable isSupabaseConfigured : bool.

Inductive Action : Type :=
| Login : SignIn -> string -> string -> Action
| Logout : Action
| CheckSession : bool -> Action.

Definition act (st : State) (a : Action) : State :=
  match a with
  | Login signIn email password =>
      state (login isSupabaseConfigured signIn email password st)
  | Logout => logout st
  | CheckSession session => checkSession isSupabaseConfigured session st
  end.

(** The provider's state after [actions], mounted over [storage]. *)
Definition after (storage : gmap string string) (actions : list Action) : State :=
  fold_left act actions (initial storage).

End History.

(** The credentials [login] compares with, after its normalisation. *)
Definition owner_credentials (email password : string) : Prop :=
  JsString.toLowerCase (JsString.trim email) = OWNER_EMAIL
  /\ JsString.trim password = OWNER_PASSWORD.

(** The sign-in request, where one is made, resolves without an error. *)
Definition sign_in_passes (isSupabaseConfigured : bool) (signIn : SignIn) : Prop :=
  isSupabaseConfigured = true -> signIn = SignedIn.

End OwnerSession.

(** The product form of the dashboard. *)
Module Form.

Import ProductsManagement.

Definition comma_free (s : string) : bool :=
  forallb (fun c => negb (Ascii.eqb c ","%char)) (list_ascii_of_string s).

(** A colour that the form's text field can carry: no comma, no white space
    around it, not empty. *)
Definition plain (c : string) : Prop :=
  comma_free c = true /\ JsString.trim c = c /\ c <> "".

(** The four required fields are filled in. *)
Definition complete (f : ProductFormState) : Prop :=
  name f <> "" /\ brand f <> "" /\ category f <> "" /\ base_price f <> "".

(** The dialog's part of the state. *)
Definition dialog (st : State) : ProductFormState * option RealtimeDb.Product.t * bool :=
  (formData st, editingProduct st, isDialogOpen st).

End Form.

(** Splits a conjunction into its parts, leaving the parts as they are. *)
Ltac conjuncts := repeat match goal with |- _ /\ _ => split end.

(** Inversion that cleans up after itself. *)
Ltac invert H := inversion H; subst; clear H.

(* ===================================================================== *)
(** * Properties *)
(* ===================================================================== *)

(** ** The platform model on known values *)

(** SHA-256 of the empty message, of "abc", and of a message that needs a
    second block. *)
Example sha256_empty :
  UserAuth.bufferToHex (Sha256.digest (Sha256.encode ""))
  = "e3b0c44298fc1c149afbf4c8996fb92427ae41e4649b934ca495991b7852b855".
Proof. vm_compute; reflexivity. Qed.

Example sha256_abc :
  UserAuth.bufferToHex (Sha256.digest (Sha256.encode "abc"))
  = "ba7816bf8f01cfea414140de5dae2223b00361a396177a9cb410ff61f20015ad".
Proof. vm_compute; reflexivity. Qed.

Example sha256_two_blocks :
  UserAuth.bufferToHex
    (Sha256.digest
       (Sha256.encode "01234567890123456789012345678901234567890123456789012345"))
  = "83aa034bda83e458a0dc9cbce0d4e354716aa0ff770ed37ac0ed2b292052e4af".
Proof. vm_compute; reflexivity. Qed.

Example round_constants :
  nth 0 Sha256.K 0 = 1116352408 /\ nth 63 Sha256.K 0 = 3329325298 /\
  length Sha256.K = 64%nat /\ nth 0 Sha256.H0 0 = 1779033703.
Proof. conjuncts; reflexivity. Qed.

(** The digest of the generated code for a contact ignores the contact's
    letter case and surrounding white space. *)
Example hashOtp_normalizes :
  UserAuth.hashOtp "123456" "  User@Example.COM "
  = UserAuth.hashOtp "123456" "user@example.com".
Proof. vm_compute; reflexivity. Qed.

Example trim_samples :
  JsString.trim "  a b  " = "a b" /\ JsString.trim "   " = "" /\
  JsString.trim "123456 " = "123456".
Proof. conjuncts; vm_compute; reflexivity. Qed.

Example isValidEmail_samples :
  map UserAuth.isValidEmail
    ["user@example.com"; " user@example.com "; "x.y+z@sub.dom-ain.org";
     "a@b.c"; "a@b"; "@b.co"; "a b@c.de"; "a@b..co"; "a@b.co1"; "a@@b.co"; ""]
  = [true; true; true; false; false; false; false; false; false; false; false].
Proof. vm_compute; reflexivity. Qed.

Example isValidPhone_samples :
  map UserAuth.isValidPhone
    ["9876543210"; "98765 43210"; "987-654-3210"; " 6000000000";
     "5876543210"; "98765432100"; "987654321"; "98765a3210"]
  = [true; true; true; true; false; false; false; false].
Proof. vm_compute; reflexivity. Qed.

(** ** Matching by derivatives: the patterns of the login flow *)

Lemma matches_Void (l : list ascii) : Regex.matches Regex.Void l = false.
Proof. induction l as [|a l IH]; simpl; auto. Qed.

Lemma matches_Cat_Void (r : Regex.re) (l : list ascii) :
  Regex.matches (Regex.Cat Regex.Void r) l = false.
Proof. induction l as [|a l IH]; simpl; auto. Qed.

Lemma matches_Alt (r1 r2 : Regex.re) (l : list ascii) :
  Regex.matches (Regex.Alt r1 r2) l = Regex.matches r1 l || Regex.matches r2 l.
Proof. revert r1 r2; induction l as [|a l IH]; intros r1 r2; simpl; auto. Qed.

Lemma matches_Cat_Eps (r : Regex.re) (l : list ascii) :
  Regex.matches (Regex.Cat Regex.Eps r) l = Regex.matches r l.
Proof.
  destruct l as [|a l]; simpl; [reflexivity|].
  now rewrite matches_Alt, matches_Cat_Void.
Qed.

(** [c{n}] matches exactly the strings of [n] code units of class [c]. *)
Lemma matches_Rep_Class (f : ascii -> bool) (n : nat) (l : list ascii) :
  Regex.matches (Regex.Rep n (Regex.Class f)) l = (length l =? n)%nat && forallb f l.
Proof.
  revert l; induction n as [|n IH]; intros [|a l]; simpl; try reflexivity.
  - apply matches_Void.
  - destruct (f a); simpl.
    + now rewrite matches_Cat_Eps, IH.
    + now rewrite matches_Cat_Void, andb_false_r.
Qed.

Lemma otp_re_six_digits (s : string) :
  Regex.test UserAuth.otp_re s = six_digits s.
Proof. apply matches_Rep_Class. Qed.

Lemma digit_not_space (c : ascii) :
  Regex.digit c = true -> JsString.is_space c = false.
Proof.
  unfold Regex.digit, JsString.is_space, JsString.between.
  intros H; apply andb_true_iff in H as [H1 H2].
  apply Z.leb_le in H1, H2.
  repeat (apply orb_false_iff; split).
  - apply andb_false_iff; right; apply Z.leb_gt; lia.
  - apply Z.eqb_neq; lia.
  - apply Z.eqb_neq; lia.
Qed.

Lemma trimStart_digits (l : list ascii) :
  forallb Regex.digit l = true -> JsString.trimStart l = l.
Proof.
  destruct l as [|a l]; simpl; [reflexivity|].
  intros H; apply andb_true_iff in H as [H _].
  now rewrite (digit_not_space a H).
Qed.

Lemma trimEnd_digits (l : list ascii) :
  forallb Regex.digit l = true -> JsString.trimEnd l = l.
Proof.
  intros H; unfold JsString.trimEnd.
  rewrite trimStart_digits; [apply rev_involutive|].
  apply forallb_forall; intros x Hx; apply in_rev in Hx.
  revert x Hx; now apply forallb_forall.
Qed.

(** Trimming leaves a string of six digits as it is. *)
Lemma trim_six_digits (s : string) : six_digits s = true -> JsString.trim s = s.
Proof.
  unfold six_digits, JsString.trim; intros H.
  apply andb_true_iff in H as [_ H].
  rewrite trimStart_digits, trimEnd_digits by assumption.
  apply string_of_list_ascii_of_string.
Qed.

(** ** [verifyOtp], branch by branch *)

Section VerifyOtpBranches.

Import UserAuth.

Variable backend : Backend.
Variable clock : Clock.
Variable p : PendingVerification.t.
Variables contact otp : string.

Lemma verifyOtp_none :
  verifyOtp backend clock None contact otp
  = reject "Please request a new OTP for this contact.".
Proof. reflexivity. Qed.

Lemma verifyOtp_other_contact :
  PendingVerification.contact p <> JsString.trim contact ->
  verifyOtp backend clock (Some p) contact otp
  = reject "Please request a new OTP for this contact.".
Proof.
  intros H; unfold verifyOtp.
  apply String.eqb_neq in H; now rewrite H.
Qed.

Hypothesis same_contact : PendingVerification.contact p = JsString.trim contact.

Lemma verifyOtp_expired :
  PendingVerification.expiresAt p < now clock ->
  verifyOtp backend clock (Some p) contact otp
  = reject_after (setPending (fun _ => None))
      "OTP has expired. Please request a new code.".
Proof.
  intros H; unfold verifyOtp.
  apply String.eqb_eq in same_contact as ->; cbn [negb].
  rewrite Z.gtb_ltb; apply Z.ltb_lt in H; now rewrite H.
Qed.

Hypothesis in_time : now clock <= PendingVerification.expiresAt p.

Lemma verifyOtp_exhausted :
  4 <= PendingVerification.attempts p ->
  verifyOtp backend clock (Some p) contact otp
  = reject_after (setPending (fun _ => None))
      "Too many incorrect attempts. Please request a new OTP.".
Proof.
  intros H; unfold verifyOtp.
  apply String.eqb_eq in same_contact as ->; cbn [negb].
  rewrite Z.gtb_ltb; apply Z.ltb_ge in in_time as ->.
  rewrite Z.geb_leb; apply Z.leb_le in H; now rewrite H.
Qed.

Hypothesis attempts_left : PendingVerification.attempts p < 4.

Lemma verifyOtp_malformed :
  Regex.test otp_re (JsString.trim otp) = false ->
  verifyOtp backend clock (Some p) contact otp
  = reject "Enter the 6-digit OTP sent to you.".
Proof.
  intros H; unfold verifyOtp.
  apply String.eqb_eq in same_contact as ->; cbn [negb].
  rewrite Z.gtb_ltb; apply Z.ltb_ge in in_time as ->.
  rewrite Z.geb_leb; apply Z.leb_gt in attempts_left as ->.
  now rewrite H.
Qed.

Hypothesis well_formed : Regex.test otp_re (JsString.trim otp) = true.

Lemma verifyOtp_incorrect :
  hashOtp (JsString.trim otp) (JsString.trim contact) <> PendingVerification.otpHash p ->
  verifyOtp backend clock (Some p) contact otp
  = reject_after (setPending bump) "Incorrect OTP. Please try again.".
Proof.
  intros H; unfold verifyOtp.
  apply String.eqb_eq in same_contact as ->; cbn [negb].
  rewrite Z.gtb_ltb; apply Z.ltb_ge in in_time as ->.
  rewrite Z.geb_leb; apply Z.leb_gt in attempts_left as ->.
  rewrite well_formed; cbn [negb].
  apply String.eqb_neq in H; now rewrite H.
Qed.

Lemma verifyOtp_correct :
  hashOtp (JsString.trim otp) (JsString.trim contact) = PendingVerification.otpHash p ->
  verifyOtp backend clock (Some p) contact otp
  = establish backend clock (JsString.trim contact).
Proof.
  intros H; unfold verifyOtp.
  apply String.eqb_eq in same_contact as ->; cbn [negb].
  rewrite Z.gtb_ltb; apply Z.ltb_ge in in_time as ->.
  rewrite Z.geb_leb; apply Z.leb_gt in attempts_left as ->.
  rewrite well_formed; cbn [negb].
  apply String.eqb_eq in H; now rewrite H.
Qed.

End VerifyOtpBranches.

(** ** The OTP login flow *)

Section LoginFlow.

Import UserAuth Login.

Lemma run_reject (message : string) (st : State) :
  run (reject message) st = (st, Rejected message).
Proof. reflexivity. Qed.

Lemma requestOtp_valid (clock : Clock) (contact : string) :
  isValidEmail (JsString.trim contact) || isValidPhone (JsString.trim contact) = true ->
  requestOtp clock contact
  = {| outcome := Resolved;
       update := setPending (fun _ =>
         Some {| PendingVerification.contact := JsString.trim contact;
                 PendingVerification.otpHash := hashOtp TEST_OTP (JsString.trim contact);
                 PendingVerification.expiresAt := now clock + 5 * 60 * 1000;
                 PendingVerification.attempts := 0 |});
       writes := [] |}.
Proof.
  intros H; unfold requestOtp.
  rewrite <- negb_orb, H. reflexivity.
Qed.

(** C6.  [requestOtp] stores an expiry exactly five minutes (300000 ms) after
    the clock reading of the request; and a [verifyOtp] call for the contact
    of a pending verification whose expiry has passed is rejected with the
    expiry error and clears the pending verification. *)
Theorem expiry_is_five_minutes_and_enforced :
  forall (backend : Backend) (clock0 clock : Clock) (contact otp : string) (st : State),
    (isValidEmail (JsString.trim contact) || isValidPhone (JsString.trim contact) = true ->
     exists p,
       callRequestOtp clock0 contact st = (setPending (fun _ => Some p) st, Resolved) /\
       PendingVerification.expiresAt p = now clock0 + 300000 /\
       PendingVerification.contact p = JsString.trim contact /\
       PendingVerification.attempts p = 0) /\
    (forall p,
       pending st = Some p ->
       PendingVerification.contact p = JsString.trim contact ->
       PendingVerification.expiresAt p < now clock ->
       callVerifyOtp backend clock contact otp st
       = (setPending (fun _ => None) st,
          Rejected "OTP has expired. Please request a new code.") /\
       pending (fst (callVerifyOtp backend clock contact otp st)) = None).
Proof.
  intros backend clock0 clock contact otp st; split.
  - intros H. eexists; split; [|split; [|split]].
    + unfold callRequestOtp. rewrite (requestOtp_valid _ _ H). reflexivity.
    + reflexivity.
    + reflexivity.
    + reflexivity.
  - intros p Hp Hc Hexp. unfold callVerifyOtp.
    rewrite Hp, (verifyOtp_expired backend clock p contact otp Hc Hexp).
    split; reflexivity.
Qed.

Lemma expiry_is_five_minutes_and_enforced_witness :
  let st := fst (callRequestOtp (at_ms 0) "user@example.com" signed_out) in
  (exists p,
     callRequestOtp (at_ms 0) "user@example.com" signed_out
     = (setPending (fun _ => Some p) signed_out, Resolved) /\
     PendingVerification.expiresAt p = 300000) /\
  snd (callVerifyOtp offline (at_ms 300001) "user@example.com" "123456" st)
  = Rejected "OTP has expired. Please request a new code." /\
  pending (fst (callVerifyOtp offline (at_ms 300001) "user@example.com" "123456" st)) = None.
Proof.
  intros st.
  destruct (expiry_is_five_minutes_and_enforced offline (at_ms 0) (at_ms 300001)
              "user@example.com" "123456" signed_out) as [Hreq _].
  destruct (expiry_is_five_minutes_and_enforced offline (at_ms 0) (at_ms 300001)
              "user@example.com" "123456" st) as [_ Hver].
  split.
  - destruct Hreq as (p & H1 & H2 & _); [vm_compute; reflexivity|].
    exists p; split; [exact H1 | exact H2].
  - destruct (Hver
      {| PendingVerification.contact := "user@example.com";
         PendingVerification.otpHash := hashOtp TEST_OTP "user@example.com";
         PendingVerification.expiresAt := 300000;
         PendingVerification.attempts := 0 |}) as [H1 H2].
    + vm_compute; reflexivity.
    + vm_compute; reflexivity.
    + vm_compute; reflexivity.
    + split; [rewrite H1; reflexivity | exact H2].
Defined.

(** C7, as the code has it.  For a pending verification on contact [c] and a
    contact [d] whose trimmed form differs from [c], [verifyOtp(d, code)] is
    rejected with the request-a-new-OTP message and the state is unchanged;
    the attempt counter is not incremented. *)
Theorem other_contact_is_rejected_without_effect :
  forall (backend : Backend) (clock : Clock) (st : State) (p : PendingVerification.t)
         (d code : string),
    pending st = Some p ->
    JsString.trim d <> PendingVerification.contact p ->
    callVerifyOtp backend clock d code st
    = (st, Rejected "Please request a new OTP for this contact.").
Proof.
  intros backend clock st p d code Hp Hd. unfold callVerifyOtp.
  rewrite Hp, verifyOtp_other_contact by congruence.
  apply run_reject.
Qed.

Lemma other_contact_is_rejected_without_effect_witness :
  let st := fst (callRequestOtp (at_ms 0) "user@example.com" signed_out) in
  callVerifyOtp online (at_ms 1000) "other@example.com" "123456" st
  = (st, Rejected "Please request a new OTP for this contact.").
Proof.
  intros st.
  apply (other_contact_is_rejected_without_effect online (at_ms 1000) st
           {| PendingVerification.contact := "user@example.com";
              PendingVerification.otpHash := hashOtp TEST_OTP "user@example.com";
              PendingVerification.expiresAt := 300000;
              PendingVerification.attempts := 0 |}
           "other@example.com" "123456").
  - vm_compute; reflexivity.
  - vm_compute; discriminate.
Defined.

(** C7 as stated fails: a contact that differs from the pending one only by
    surrounding white space passes the contact check, so a wrong code sent
    with it is counted. *)
Lemma padded_contact_consumes_attempt :
  let c := "user@example.com" in
  let d := "user@example.com " in
  let st := fst (callRequestOtp (at_ms 0) c signed_out) in
  let r := callVerifyOtp offline (at_ms 1000) d "000000" st in
  d <> c /\
  option_map PendingVerification.contact (pending st) = Some c /\
  option_map PendingVerification.attempts (pending st) = Some 0 /\
  snd r = Rejected "Incorrect OTP. Please try again." /\
  option_map PendingVerification.attempts (pending (fst r)) = Some 1.
Proof.
  cbv zeta. split; [discriminate|].
  conjuncts; vm_compute; reflexivity.
Qed.

(** C10, as the code has it.  For a pending verification with fewer than four
    attempts that has not expired, a [verifyOtp] call with a matching contact
    and a code whose trimmed form is not exactly six digits is rejected with
    the format error and leaves the state, attempt counter included,
    unchanged. *)
Theorem malformed_code_is_not_counted :
  forall (backend : Backend) (clock : Clock) (st : State) (p : PendingVerification.t)
         (contact code : string),
    pending st = Some p ->
    PendingVerification.attempts p < 4 ->
    now clock <= PendingVerification.expiresAt p ->
    JsString.trim contact = PendingVerification.contact p ->
    six_digits (JsString.trim code) = false ->
    callVerifyOtp backend clock contact code st
    = (st, Rejected "Enter the 6-digit OTP sent to you.").
Proof.
  intros backend clock st p contact code Hp Ha Ht Hc Hcode. unfold callVerifyOtp.
  rewrite <- otp_re_six_digits in Hcode.
  rewrite Hp, (verifyOtp_malformed backend clock p contact code (eq_sym Hc) Ht Ha Hcode).
  apply run_reject.
Qed.

Lemma malformed_code_is_not_counted_witness :
  let st := fst (callRequestOtp (at_ms 0) "user@example.com" signed_out) in
  callVerifyOtp online (at_ms 1000) "user@example.com" "12345" st
  = (st, Rejected "Enter the 6-digit OTP sent to you.").
Proof.
  intros st.
  apply (malformed_code_is_not_counted online (at_ms 1000) st
           {| PendingVerification.contact := "user@example.com";
              PendingVerification.otpHash := hashOtp TEST_OTP "user@example.com";
              PendingVerification.expiresAt := 300000;
              PendingVerification.attempts := 0 |}
           "user@example.com" "12345").
  - vm_compute; reflexivity.
  - vm_compute; reflexivity.
  - vm_compute; discriminate.
  - vm_compute; reflexivity.
  - vm_compute; reflexivity.
Defined.

(** C10 as stated fails: a code that is six digits followed by a space is not
    exactly six digits, yet it passes the format check after trimming and, being
    wrong, is counted. *)
Lemma padded_code_is_counted :
  let code := "000000 " in
  let st := fst (callRequestOtp (at_ms 0) "user@example.com" signed_out) in
  let r := callVerifyOtp offline (at_ms 1000) "user@example.com" code st in
  six_digits code = false /\
  option_map PendingVerification.attempts (pending st) = Some 0 /\
  snd r = Rejected "Incorrect OTP. Please try again." /\
  option_map PendingVerification.attempts (pending (fst r)) = Some 1.
Proof.
  cbv zeta. conjuncts; vm_compute; reflexivity.
Qed.

(** *** Counting wrong codes *)

Lemma wrong_code_with_attempts (p : PendingVerification.t) (n : Z) (t : Clock * string) :
  wrong_code p t -> wrong_code (with_attempts p n) t.
Proof. exact (fun H => H). Qed.

Lemma with_attempts_same (p : PendingVerification.t) :
  with_attempts p (PendingVerification.attempts p) = p.
Proof. now destruct p. Qed.

Lemma setPending_same (st : State) (p : PendingVerification.t) :
  pending st = Some p -> setPending (fun _ => Some p) st = st.
Proof. destruct st; simpl; intros ->; reflexivity. Qed.

(** One wrong code: rejected as incorrect, and the counter goes up by one. *)
Lemma wrong_attempt (backend : Backend) (st : State) (p : PendingVerification.t)
    (c : string) (t : Clock * string) :
  pending st = Some p ->
  JsString.trim c = PendingVerification.contact p ->
  PendingVerification.attempts p < 4 ->
  wrong_code p t ->
  callVerifyOtp backend (fst t) c (snd t) st
  = (setPending (fun _ => Some (with_attempts p (PendingVerification.attempts p + 1))) st,
     Rejected "Incorrect OTP. Please try again.").
Proof.
  intros Hp Hc Ha (Ht & Hsix & Hdigest). unfold callVerifyOtp.
  pose proof (trim_six_digits _ Hsix) as Htrim.
  rewrite Hp, (verifyOtp_incorrect backend (fst t) p c (snd t) (eq_sym Hc) Ht Ha).
  - unfold run, reject_after, update, outcome, setPending. now rewrite Hp.
  - now rewrite otp_re_six_digits, Htrim.
  - now rewrite Htrim, Hc.
Qed.

Lemma wrong_attempts_count (backend : Backend) (c : string) (tries : list (Clock * string)) :
  forall (st : State) (p : PendingVerification.t),
    pending st = Some p ->
    JsString.trim c = PendingVerification.contact p ->
    PendingVerification.attempts p + Z.of_nat (length tries) <= 4 ->
    Forall (wrong_code p) tries ->
    fold_left (attempt backend c) tries st
    = setPending
        (fun _ => Some (with_attempts p
                          (PendingVerification.attempts p + Z.of_nat (length tries)))) st.
Proof.
  induction tries as [|t tries IH]; intros st p Hp Hc Hn Hall.
  - simpl. rewrite Z.add_0_r, with_attempts_same. symmetry; now apply setPending_same.
  - apply Forall_cons in Hall as [Ht Hall].
    change (length (t :: tries)) with (S (length tries)) in *.
    cbn [fold_left]. unfold attempt at 2.
    rewrite (wrong_attempt backend st p c t Hp Hc) by (assumption || lia).
    cbn [fst].
    rewrite (IH _ (with_attempts p (PendingVerification.attempts p + 1))).
    + unfold setPending, with_attempts; cbn.
      do 3 f_equal. lia.
    + reflexivity.
    + exact Hc.
    + cbn. lia.
    + eapply Forall_impl; [exact Hall|]. intros a. apply wrong_code_with_attempts.
Qed.

Lemma wrong_attempts_outcomes (backend : Backend) (c : string)
    (tries : list (Clock * string)) :
  forall (st : State) (p : PendingVerification.t),
    pending st = Some p ->
    JsString.trim c = PendingVerification.contact p ->
    PendingVerification.attempts p + Z.of_nat (length tries) <= 4 ->
    Forall (wrong_code p) tries ->
    attempt_outcomes backend c st tries
    = repeat (Rejected "Incorrect OTP. Please try again.") (length tries).
Proof.
  induction tries as [|t tries IH]; intros st p Hp Hc Hn Hall; [reflexivity|].
  apply Forall_cons in Hall as [Ht Hall].
  change (length (t :: tries)) with (S (length tries)) in *.
  cbn [attempt_outcomes repeat]. unfold attempt.
  rewrite (wrong_attempt backend st p c t Hp Hc) by (assumption || lia).
  cbn [fst snd]. f_equal.
  apply (IH _ (with_attempts p (PendingVerification.attempts p + 1))).
  - reflexivity.
  - exact Hc.
  - cbn. lia.
  - eapply Forall_impl; [exact Hall|]. intros a. apply wrong_code_with_attempts.
Qed.

(** C1, as the code has it.  On a fresh pending verification for contact [c],
    four consecutive [verifyOtp(c, code)] calls in time, each with a six-digit
    code whose digest is wrong, are each rejected as incorrect and leave the
    pending verification in place with its counter at 4.  A fifth call,
    whatever its code, is rejected and it is this call that clears the
    pending verification; when it comes in time its error is the
    too-many-attempts one. *)
Theorem four_wrong_codes_then_fifth_call_clears :
  forall (backend : Backend) (st : State) (p : PendingVerification.t) (c : string)
         (tries : list (Clock * string)),
    pending st = Some p ->
    PendingVerification.attempts p = 0 ->
    JsString.trim c = PendingVerification.contact p ->
    length tries = 4%nat ->
    Forall (wrong_code p) tries ->
    let st4 := fold_left (attempt backend c) tries st in
    attempt_outcomes backend c st tries
    = repeat (Rejected "Incorrect OTP. Please try again.") 4 /\
    pending st4 = Some (with_attempts p 4) /\
    forall (clock : Clock) (code : string),
      exists message,
        callVerifyOtp backend clock c code st4
        = (setPending (fun _ => None) st4, Rejected message) /\
        pending (fst (callVerifyOtp backend clock c code st4)) = None /\
        (now clock <= PendingVerification.expiresAt p ->
         message = "Too many incorrect attempts. Please request a new OTP.").
Proof.
  intros backend st p c tries Hp H0 Hc Hlen Hall st4.
  assert (Hst4 : st4 = setPending (fun _ => Some (with_attempts p 4)) st).
  { unfold st4.
    rewrite (wrong_attempts_count backend c tries st p Hp Hc);
      [|rewrite Hlen; lia|exact Hall].
    rewrite H0, Hlen. reflexivity. }
  assert (Hp4 : pending st4 = Some (with_attempts p 4)) by (rewrite Hst4; reflexivity).
  split.
  { rewrite (wrong_attempts_outcomes backend c tries st p Hp Hc);
      [now rewrite Hlen|rewrite Hlen; lia|exact Hall]. }
  split; [exact Hp4|].
  intros clock code. unfold callVerifyOtp. rewrite Hp4.
  destruct (Z.lt_ge_cases (PendingVerification.expiresAt p) (now clock)) as [Hlate | Htime].
  - eexists. rewrite (verifyOtp_expired backend clock (with_attempts p 4) c code (eq_sym Hc) Hlate).
    split; [reflexivity | split; [reflexivity | intros H; cbn in *; lia]].
  - eexists.
    rewrite (verifyOtp_exhausted backend clock (with_attempts p 4) c code (eq_sym Hc) Htime)
      by (cbn; lia).
    split; [reflexivity | split; [reflexivity | reflexivity]].
Qed.

Lemma four_wrong_codes_then_fifth_call_clears_witness :
  let st := fst (callRequestOtp (at_ms 0) "user@example.com" signed_out) in
  let tries := [(at_ms 1000, "000000"); (at_ms 2000, "111111");
                (at_ms 3000, "222222"); (at_ms 4000, "654321")] in
  let st4 := fold_left (attempt online "user@example.com") tries st in
  attempt_outcomes online "user@example.com" st tries
  = repeat (Rejected "Incorrect OTP. Please try again.") 4 /\
  option_map PendingVerification.attempts (pending st4) = Some 4 /\
  callVerifyOtp online (at_ms 5000) "user@example.com" "123456" st4
  = (setPending (fun _ => None) st4,
     Rejected "Too many incorrect attempts. Please request a new OTP.").
Proof.
  intros st tries st4.
  destruct (four_wrong_codes_then_fifth_call_clears online st
              {| PendingVerification.contact := "user@example.com";
                 PendingVerification.otpHash := hashOtp TEST_OTP "user@example.com";
                 PendingVerification.expiresAt := 300000;
                 PendingVerification.attempts := 0 |}
              "user@example.com" tries) as (Ho & H4 & H5).
  - vm_compute; reflexivity.
  - reflexivity.
  - vm_compute; reflexivity.
  - reflexivity.
  - repeat constructor; try (vm_compute; congruence).
  - split; [exact Ho|]. split.
    + fold st4 in H4. rewrite H4. reflexivity.
    + destruct (H5 (at_ms 5000) "123456") as (message & Hcall & _ & Hmsg).
      fold st4 in Hcall. rewrite Hcall, Hmsg; [reflexivity | vm_compute; discriminate].
Defined.

(** C1 as stated fails: after four wrong codes the pending verification is
    still there, with its counter at 4, and the fifth call meets it: its error
    is the too-many-attempts one, not the one given when nothing is pending. *)
Lemma four_wrong_codes_keep_pending :
  let c := "user@example.com" in
  let st := fst (callRequestOtp (at_ms 0) c signed_out) in
  let tries := [(at_ms 1000, "000000"); (at_ms 2000, "000000");
                (at_ms 3000, "000000"); (at_ms 4000, "000000")] in
  let st4 := fold_left (attempt online c) tries st in
  pending st4 <> None /\
  option_map PendingVerification.attempts (pending st4) = Some 4 /\
  snd (callVerifyOtp online (at_ms 5000) c "123456" st4)
  = Rejected "Too many incorrect attempts. Please request a new OTP." /\
  snd (callVerifyOtp online (at_ms 5000) c "123456" st4)
  <> Rejected "Please request a new OTP for this contact.".
Proof.
  cbv zeta. conjuncts; vm_compute; congruence.
Qed.

(** *** Logging in with the generated code *)

(** With a configured backend that yields a session and a [users] row, the
    part after the digest comparison resolves, signs the user in and clears
    the pending verification. *)
Lemma establish_resolves (backend : Backend) (clock : Clock) (c : string)
    (u : SupabaseUser.t) :
  isSupabaseConfigured backend = true ->
  has_session backend u ->
  can_store_user backend u ->
  exists profile ws,
    establish backend clock c
    = {| outcome := Resolved;
         update := fun st =>
           setPending (fun _ => None)
             (setItem USER_AUTH_STORAGE_KEY profile (setUser (Some profile) st));
         writes := ws |} /\
    UserProfile.contact profile = c /\
    UserProfile.authUser profile = Some u.
Proof.
  intros Hcfg Hs Hrow. unfold establish. rewrite Hcfg. cbn [negb].
  assert (Hsession :
    match getSession backend with
    | None =>
        match signin_error (signInAnonymously backend),
              signin_user (signInAnonymously backend) with
        | None, Some v => inl v
        | _, _ => inr "Authentication session could not be established."
        end
    | Some v => inl v
    end = inl u).
  { destruct Hs as [-> | (-> & -> & ->)]; reflexivity. }
  rewrite Hsession.
  destruct Hrow as [[row Hsel] | [Hsel Hins]]; rewrite Hsel.
  - do 2 eexists; split; [reflexivity | split; reflexivity].
  - match goal with
    | |- context [insertUser backend ?r] => destruct (Hins r) as [-> [new ->]]
    end.
    do 2 eexists; split; [reflexivity | split; reflexivity].
Qed.

(** C4, as the code has it.  With a backend that is configured, yields a
    session and has or accepts the user's row: after
    [requestOtp("user@example.com")], a [verifyOtp("user@example.com", "123456")]
    call within the five minutes resolves, signs the user in and clears the
    pending verification; a second call with the same contact and code is
    then rejected because nothing is pending, and changes nothing. *)
Theorem generated_code_logs_in_once :
  forall (backend : Backend) (u : SupabaseUser.t) (clock0 clock1 clock2 : Clock)
         (st : State),
    isSupabaseConfigured backend = true ->
    has_session backend u ->
    can_store_user backend u ->
    now clock1 <= now clock0 + 300000 ->
    let r1 := callRequestOtp clock0 "user@example.com" st in
    let r2 := callVerifyOtp backend clock1 "user@example.com" "123456" (fst r1) in
    let r3 := callVerifyOtp backend clock2 "user@example.com" "123456" (fst r2) in
    snd r1 = Resolved /\
    snd r2 = Resolved /\
    pending (fst r2) = None /\
    is_Some (user (fst r2)) /\
    r3 = (fst r2, Rejected "Please request a new OTP for this contact.").
Proof.
  intros backend u clock0 clock1 clock2 st Hcfg Hs Hrow Htime r1 r2 r3.
  assert (Hvalid : isValidEmail (JsString.trim "user@example.com")
                   || isValidPhone (JsString.trim "user@example.com") = true)
    by (vm_compute; reflexivity).
  assert (Hc : JsString.trim "user@example.com" = "user@example.com")
    by (vm_compute; reflexivity).
  assert (Hotp : JsString.trim "123456" = TEST_OTP) by (vm_compute; reflexivity).
  assert (H1 : r1 = (setPending (fun _ =>
              Some {| PendingVerification.contact := "user@example.com";
                      PendingVerification.otpHash := hashOtp TEST_OTP "user@example.com";
                      PendingVerification.expiresAt := now clock0 + 5 * 60 * 1000;
                      PendingVerification.attempts := 0 |}) st, Resolved)).
  { unfold r1, callRequestOtp. rewrite (requestOtp_valid _ _ Hvalid), Hc. reflexivity. }
  destruct (establish_resolves backend clock1 "user@example.com" u Hcfg Hs Hrow)
    as (profile & ws & Hest & _ & _).
  assert (H2 : r2 = (setPending (fun _ => None)
                       (setItem USER_AUTH_STORAGE_KEY profile
                          (setUser (Some profile) (fst r1))), Resolved)).
  { unfold r2, callVerifyOtp. rewrite H1 at 1. cbn [fst pending setPending].
    rewrite verifyOtp_correct.
    - rewrite Hc, Hest. reflexivity.
    - cbn [PendingVerification.contact]. now rewrite Hc.
    - cbn [PendingVerification.expiresAt]. lia.
    - cbn [PendingVerification.attempts]. lia.
    - rewrite Hotp. vm_compute; reflexivity.
    - cbn [PendingVerification.otpHash]. now rewrite Hotp, Hc. }
  split; [rewrite H1; reflexivity|].
  split; [rewrite H2; reflexivity|].
  split; [rewrite H2; reflexivity|].
  split; [rewrite H2; cbn; eauto|].
  unfold r3, callVerifyOtp. rewrite H2 at 1. cbn [fst pending setPending].
  rewrite verifyOtp_none. apply run_reject.
Qed.

Lemma generated_code_logs_in_once_witness :
  let r1 := callRequestOtp (at_ms 0) "user@example.com" signed_out in
  let r2 := callVerifyOtp online (at_ms 1000) "user@example.com" "123456" (fst r1) in
  let r3 := callVerifyOtp online (at_ms 2000) "user@example.com" "123456" (fst r2) in
  snd r1 = Resolved /\
  snd r2 = Resolved /\
  pending (fst r2) = None /\
  is_Some (user (fst r2)) /\
  r3 = (fst r2, Rejected "Please request a new OTP for this contact.").
Proof.
  apply (generated_code_logs_in_once online {| SupabaseUser.id := "anon-1" |}
           (at_ms 0) (at_ms 1000) (at_ms 2000) signed_out).
  - reflexivity.
  - right. repeat split.
  - right. split; [reflexivity|]. intros row. split; [reflexivity | eexists; reflexivity].
  - vm_compute; discriminate.
Defined.

(** C4 as stated fails: without backend configuration the call with the
    generated code is rejected after the digest comparison, and the pending
    verification stays. *)
Lemma generated_code_rejected_when_unconfigured :
  let r1 := callRequestOtp (at_ms 0) "user@example.com" signed_out in
  let r2 := callVerifyOtp offline (at_ms 1000) "user@example.com" "123456" (fst r1) in
  snd r1 = Resolved /\
  snd r2 = Rejected "Database not configured. Please try again later." /\
  pending (fst r2) = pending (fst r1) /\
  pending (fst r2) <> None.
Proof.
  cbv zeta. conjuncts; vm_compute; congruence.
Qed.

End LoginFlow.

(** ** The entity access facade *)

Section FacadeErrors.

Import RealtimeDb Samples.

Variable supabase : Store.

(** Every single-row read answers an error with [null]; the profile read
    passes the store's [data] through when the error has the code PGRST116. *)
Lemma getById_null_on_error (id : string) (e : PostgrestError) :
  (error (selectProductById supabase id) = Some e ->
   completion (getProductById true supabase id) = Return None) /\
  (error (selectOrderById supabase id) = Some e ->
   completion (getOrderById true supabase id) = Return None) /\
  (error (selectUserProfileByUser supabase id) = Some e ->
   completion (getUserProfile true supabase id)
   = Return (if String.eqb (code e) "PGRST116"
             then data (selectUserProfileByUser supabase id) else None)).
Proof.
  unfold getProductById, getOrderById, getUserProfile; cbn [negb].
  conjuncts; intros ->; [reflexivity | reflexivity |].
  destruct (String.eqb (code e) "PGRST116"); reflexivity.
Qed.

(** The profile read does not log an error with the code PGRST116; it logs
    every other. *)
Lemma getUserProfile_console (userId : string) (e : PostgrestError) :
  error (selectUserProfileByUser supabase userId) = Some e ->
  console (getUserProfile true supabase userId)
  = if String.eqb (code e) "PGRST116" then []
    else [("Error fetching user profile:", e)].
Proof.
  unfold getUserProfile; cbn [negb]. intros ->.
  destruct (String.eqb (code e) "PGRST116"); reflexivity.
Qed.

(** The product and order reads log whatever error they are given. *)
Lemma getById_console (id : string) (e : PostgrestError) :
  (error (selectProductById supabase id) = Some e ->
   console (getProductById true supabase id) = [("Error fetching product:", e)]) /\
  (error (selectOrderById supabase id) = Some e ->
   console (getOrderById true supabase id) = [("Error fetching order:", e)]).
Proof.
  unfold getProductById, getOrderById; cbn [negb].
  split; intros ->; reflexivity.
Qed.

End FacadeErrors.

(** C5.  With the backend configured, each list read ([getProducts],
    [getOrders], [getInquiries]) answers a store error by logging it and
    returning the empty sequence, and each write ([createProduct],
    [updateProduct], [deleteProduct], [createOrder], [updateOrderStatus],
    [createInquiry], [updateInquiryStatus], [upsertUserProfile]) answers a
    store error by throwing that error to its caller. *)
Theorem reads_swallow_errors_writes_throw :
  forall (supabase : RealtimeDb.Store) (e : RealtimeDb.PostgrestError),
    (Feed.fails_with e (RealtimeDb.selectProducts supabase) ->
     RealtimeDb.getProducts true supabase
     = RealtimeDb.log_ret "Error fetching products:" e []) /\
    (forall userId,
       Feed.fails_with e (RealtimeDb.selectOrders supabase (RealtimeDb.eq_filter userId)) ->
       RealtimeDb.getOrders true supabase userId
       = RealtimeDb.log_ret "Error fetching orders:" e []) /\
    (forall userId,
       Feed.fails_with e (RealtimeDb.selectInquiries supabase (RealtimeDb.eq_filter userId)) ->
       RealtimeDb.getInquiries true supabase userId
       = RealtimeDb.log_ret "Error fetching inquiries:" e []) /\
    (forall product,
       Feed.fails_with e (RealtimeDb.insertProduct supabase product) ->
       RealtimeDb.completion (RealtimeDb.createProduct true supabase product)
       = RealtimeDb.Throw e) /\
    (forall id updates,
       Feed.fails_with e (RealtimeDb.updateProductById supabase id updates) ->
       RealtimeDb.completion (RealtimeDb.updateProduct true supabase id updates)
       = RealtimeDb.Throw e) /\
    (forall id,
       Feed.fails_with e (RealtimeDb.deleteProductById supabase id) ->
       RealtimeDb.completion (RealtimeDb.deleteProduct true supabase id)
       = RealtimeDb.Throw e) /\
    (forall order,
       Feed.fails_with e (RealtimeDb.insertOrder supabase order) ->
       RealtimeDb.completion (RealtimeDb.createOrder true supabase order)
       = RealtimeDb.Throw e) /\
    (forall id status paymentStatus,
       (forall updates, Feed.fails_with e (RealtimeDb.updateOrderById supabase id updates)) ->
       RealtimeDb.completion
         (RealtimeDb.updateOrderStatus true supabase id status paymentStatus)
       = RealtimeDb.Throw e) /\
    (forall inquiry,
       (forall row, Feed.fails_with e (RealtimeDb.insertInquiry supabase row)) ->
       RealtimeDb.completion (RealtimeDb.createInquiry true supabase inquiry)
       = RealtimeDb.Throw e) /\
    (forall id status,
       (forall updates, Feed.fails_with e (RealtimeDb.updateInquiryById supabase id updates)) ->
       RealtimeDb.completion (RealtimeDb.updateInquiryStatus true supabase id status)
       = RealtimeDb.Throw e) /\
    (forall userId profile,
       (forall row, Feed.fails_with e (RealtimeDb.upsertUserProfileRow supabase row)) ->
       RealtimeDb.completion (RealtimeDb.upsertUserProfile true supabase userId profile)
       = RealtimeDb.Throw e).
Proof.
  intros supabase e. unfold Feed.fails_with.
  unfold RealtimeDb.getProducts, RealtimeDb.getOrders, RealtimeDb.getInquiries,
    RealtimeDb.createProduct, RealtimeDb.updateProduct, RealtimeDb.deleteProduct,
    RealtimeDb.createOrder, RealtimeDb.updateOrderStatus, RealtimeDb.createInquiry,
    RealtimeDb.updateInquiryStatus, RealtimeDb.upsertUserProfile.
  cbn [negb].
  conjuncts; intros; try (rewrite H; reflexivity).
Qed.

Lemma reads_swallow_errors_writes_throw_witness :
  let e := Samples.transport_error in
  let db := Samples.failing_store e in
  RealtimeDb.getProducts true db = RealtimeDb.log_ret "Error fetching products:" e [] /\
  RealtimeDb.getOrders true db (Some "u1") = RealtimeDb.log_ret "Error fetching orders:" e [] /\
  RealtimeDb.getInquiries true db None = RealtimeDb.log_ret "Error fetching inquiries:" e [] /\
  RealtimeDb.completion (RealtimeDb.createProduct true db []) = RealtimeDb.Throw e /\
  RealtimeDb.completion (RealtimeDb.updateProduct true db "p1" []) = RealtimeDb.Throw e /\
  RealtimeDb.completion (RealtimeDb.deleteProduct true db "p1") = RealtimeDb.Throw e /\
  RealtimeDb.completion (RealtimeDb.createOrder true db []) = RealtimeDb.Throw e /\
  RealtimeDb.completion (RealtimeDb.updateOrderStatus true db "o1" "shipped" None)
  = RealtimeDb.Throw e /\
  RealtimeDb.completion (RealtimeDb.createInquiry true db []) = RealtimeDb.Throw e /\
  RealtimeDb.completion (RealtimeDb.updateInquiryStatus true db "i1" "contacted")
  = RealtimeDb.Throw e /\
  RealtimeDb.completion (RealtimeDb.upsertUserProfile true db "u1" []) = RealtimeDb.Throw e.
Proof.
  intros e db.
  destruct (reads_swallow_errors_writes_throw db e)
    as (H1 & H2 & H3 & H4 & H5 & H6 & H7 & H8 & H9 & H10 & H11).
  conjuncts.
  - apply H1; reflexivity.
  - apply H2; reflexivity.
  - apply H3; reflexivity.
  - apply H4; reflexivity.
  - apply H5; reflexivity.
  - apply H6; reflexivity.
  - apply H7; reflexivity.
  - apply H8; reflexivity.
  - apply H9; reflexivity.
  - apply H10; reflexivity.
  - apply H11; reflexivity.
Defined.

(** C2.  With the backend configured, each single-row read
    ([getProductById], [getOrderById], [getUserProfile]) answers a store
    error by returning [null]: it does not throw.  The zero-rows condition
    reaches these reads, which end in [.maybeSingle()], as an answer without
    data and without error: each read then returns [null] and logs nothing.
    [getUserProfile] moreover keeps an error with the code PGRST116 out of
    the log; every other error is logged by the read it is given to. *)
Theorem getById_reads_return_null_and_do_not_log_zero_rows :
  forall (supabase : RealtimeDb.Store) (id : string),
    (forall e,
       Feed.fails_with e (RealtimeDb.selectProductById supabase id) ->
       RealtimeDb.getProductById true supabase id
       = RealtimeDb.log_ret "Error fetching product:" e None) /\
    (forall e,
       Feed.fails_with e (RealtimeDb.selectOrderById supabase id) ->
       RealtimeDb.getOrderById true supabase id
       = RealtimeDb.log_ret "Error fetching order:" e None) /\
    (forall e,
       Feed.fails_with e (RealtimeDb.selectUserProfileByUser supabase id) ->
       String.eqb (RealtimeDb.code e) "PGRST116" = false ->
       RealtimeDb.getUserProfile true supabase id
       = RealtimeDb.log_ret "Error fetching user profile:" e None) /\
    (forall e,
       Feed.fails_with e (RealtimeDb.selectUserProfileByUser supabase id) ->
       String.eqb (RealtimeDb.code e) "PGRST116" = true ->
       RealtimeDb.data (RealtimeDb.selectUserProfileByUser supabase id) = None ->
       RealtimeDb.getUserProfile true supabase id = RealtimeDb.ret None) /\
    (RealtimeDb.selectProductById supabase id = Feed.no_row ->
     RealtimeDb.getProductById true supabase id = RealtimeDb.ret None) /\
    (RealtimeDb.selectOrderById supabase id = Feed.no_row ->
     RealtimeDb.getOrderById true supabase id = RealtimeDb.ret None) /\
    (RealtimeDb.selectUserProfileByUser supabase id = Feed.no_row ->
     RealtimeDb.getUserProfile true supabase id = RealtimeDb.ret None).
Proof.
  intros supabase id. unfold Feed.fails_with.
  unfold RealtimeDb.getProductById, RealtimeDb.getOrderById, RealtimeDb.getUserProfile.
  cbn [negb].
  conjuncts.
  - intros e ->. reflexivity.
  - intros e ->. reflexivity.
  - intros e -> ->. reflexivity.
  - intros e -> -> ->. reflexivity.
  - intros ->. reflexivity.
  - intros ->. reflexivity.
  - intros ->. reflexivity.
Qed.

Lemma getById_reads_return_null_and_do_not_log_zero_rows_witness :
  let failing := Samples.failing_store Samples.transport_error in
  let rowless := Samples.rowless_store Samples.transport_error in
  RealtimeDb.getProductById true failing "p1"
  = RealtimeDb.log_ret "Error fetching product:" Samples.transport_error None /\
  RealtimeDb.getOrderById true failing "o1"
  = RealtimeDb.log_ret "Error fetching order:" Samples.transport_error None /\
  RealtimeDb.getUserProfile true failing "u1"
  = RealtimeDb.log_ret "Error fetching user profile:" Samples.transport_error None /\
  RealtimeDb.getUserProfile true (Samples.failing_store Samples.zero_rows) "u1"
  = RealtimeDb.ret None /\
  RealtimeDb.getProductById true rowless "p1" = RealtimeDb.ret None /\
  RealtimeDb.getOrderById true rowless "o1" = RealtimeDb.ret None /\
  RealtimeDb.getUserProfile true rowless "u1" = RealtimeDb.ret None.
Proof.
  intros failing rowless.
  destruct (getById_reads_return_null_and_do_not_log_zero_rows failing "p1")
    as (H1 & _).
  destruct (getById_reads_return_null_and_do_not_log_zero_rows failing "o1")
    as (_ & H2 & _).
  destruct (getById_reads_return_null_and_do_not_log_zero_rows failing "u1")
    as (_ & _ & H3 & _).
  destruct (getById_reads_return_null_and_do_not_log_zero_rows
              (Samples.failing_store Samples.zero_rows) "u1")
    as (_ & _ & _ & H4 & _).
  destruct (getById_reads_return_null_and_do_not_log_zero_rows rowless "p1")
    as (_ & _ & _ & _ & H5 & _).
  destruct (getById_reads_return_null_and_do_not_log_zero_rows rowless "o1")
    as (_ & _ & _ & _ & _ & H6 & _).
  destruct (getById_reads_return_null_and_do_not_log_zero_rows rowless "u1")
    as (_ & _ & _ & _ & _ & _ & H7).
  conjuncts.
  - apply (H1 Samples.transport_error); reflexivity.
  - apply (H2 Samples.transport_error); reflexivity.
  - apply (H3 Samples.transport_error); reflexivity.
  - apply (H4 Samples.zero_rows); reflexivity.
  - apply H5; reflexivity.
  - apply H6; reflexivity.
  - apply H7; reflexivity.
Defined.

(** ** The subscription manager *)

Section Manager.

Import RealtimeDb Feed.

Context {T C : Type}.

Implicit Types (w : World T C) (p : Process T C).

(** Closing a list of registry entries closes exactly their channels. *)
Lemma close_entries_joined (entries : list (string * nat)) w (ch : nat) :
  joined (fold_left (fun acc entry => channel_unsubscribe (snd entry) acc) entries w) !! ch
  = if decide (ch ∈ entries.*2) then None else joined w !! ch.
Proof.
  revert w; induction entries as [|[name c] entries IH]; intros w; cbn [fold_left].
  - rewrite decide_False; [reflexivity | apply not_elem_of_nil].
  - rewrite IH. cbn [fmap list_fmap snd channel_unsubscribe joined].
    destruct (decide (ch = c)) as [-> | Hne].
    + rewrite lookup_delete_eq.
      rewrite (decide_True (P := c ∈ c :: entries.*2)) by (apply elem_of_cons; left; reflexivity).
      destruct (decide (c ∈ entries.*2)); reflexivity.
    + rewrite lookup_delete_ne by congruence.
      destruct (decide (ch ∈ entries.*2)) as [Hin | Hout].
      * rewrite decide_True by (apply elem_of_cons; right; exact Hin). reflexivity.
      * rewrite decide_False; [reflexivity|].
        intros [Heq | Hin]%elem_of_cons; [exact (Hne Heq) | exact (Hout Hin)].
Qed.

Lemma close_entries_rest (entries : list (string * nat)) w :
  let w' := fold_left (fun acc entry => channel_unsubscribe (snd entry) acc) entries w in
  channels w' = channels w /\ fresh w' = fresh w /\ view w' = view w.
Proof.
  revert w; induction entries as [|[name c] entries IH]; intros w; cbn [fold_left].
  - auto.
  - destruct (IH (channel_unsubscribe c w)) as (H1 & H2 & H3). auto.
Qed.

(** [unsubscribeAll] empties the registry. *)
Lemma unsubscribeAll_clears w : channels (unsubscribeAll w) = ∅.
Proof. reflexivity. Qed.

(** [unsubscribeAll] closes every channel the registry holds ... *)
Lemma unsubscribeAll_closes_registered w (name : string) (ch : nat) :
  channels w !! name = Some ch -> joined (unsubscribeAll w) !! ch = None.
Proof.
  intros H. unfold unsubscribeAll; cbn [joined].
  rewrite close_entries_joined, decide_True; [reflexivity|].
  apply list_elem_of_fmap. exists (name, ch). split; [reflexivity|].
  now apply elem_of_map_to_list.
Qed.

(** ... and no other: a channel the registry lost track of stays as it is. *)
Lemma unsubscribeAll_skips_unregistered w (ch : nat) :
  (forall name, channels w !! name <> Some ch) ->
  joined (unsubscribeAll w) !! ch = joined w !! ch.
Proof.
  intros H. unfold unsubscribeAll; cbn [joined].
  rewrite close_entries_joined, decide_False; [reflexivity|].
  intros Hin. apply list_elem_of_fmap in Hin as [[name c] [-> Hin]].
  apply elem_of_map_to_list in Hin. exact (H name Hin).
Qed.

(** *** The degenerate mode *)

Lemma unsubscribeAll_nothing_registered w :
  channels w = ∅ -> unsubscribeAll w = w.
Proof.
  destruct w as [chs js fr v]; cbn. intros ->.
  unfold unsubscribeAll; cbn. rewrite map_to_list_empty. reflexivity.
Qed.

Lemma notify_nothing_joined w (ch : nat) (payload : Payload T) :
  joined w = ∅ -> notify ch payload w = w.
Proof. intros H. unfold notify. rewrite H, lookup_empty. reflexivity. Qed.

Lemma step_inert (c : C) p (op : Op T C) : inert c p -> inert c (step false p op).
Proof.
  intros (Hv & Hj & Hc & Hr). destruct op; cbn [step].
  - repeat split; cbn; auto. apply Forall_app; split; auto.
  - repeat split; cbn; auto. apply Forall_app; split; auto.
  - repeat split; cbn; auto. apply Forall_app; split; auto.
  - destruct (returned p !! k) as [unsubscribe|] eqn:Hk; [|repeat split; auto].
    assert (Hid : forall w, unsubscribe w = w).
    { eapply Forall_lookup_1 in Hr; [exact Hr | exact Hk]. }
    unfold inert; cbn [world returned]. rewrite Hid. auto.
  - unfold inert; cbn [world returned].
    rewrite unsubscribeAll_nothing_registered by assumption. auto.
  - unfold inert; cbn [world returned].
    rewrite notify_nothing_joined by assumption. auto.
Qed.

Lemma exec_inert (c : C) (ops : list (Op T C)) p :
  inert c p -> inert c (exec false ops p).
Proof.
  revert p; induction ops as [|op ops IH]; intros p H; cbn; [exact H|].
  apply IH, step_inert, H.
Qed.

Lemma start_inert (c : C) : inert c (start (T := T) c).
Proof. repeat split; constructor. Qed.

(** The configured mode at work: a subscribed callback runs once per pushed
    change, and stops running once its unsubscribe function was called. *)
Example configured_delivery (payload : Payload unit) :
  view (world (exec true
                 [SubscribeToProducts Samples.counting; Notify 0%nat payload;
                  Notify 0%nat payload]
                 (start 0%nat))) = 2%nat.
Proof.
  cbn [exec fold_left step subscribed world fst snd returned].
  unfold notify, subscribeToProducts, subscribe_on; cbn.
  rewrite !lookup_insert_eq. reflexivity.
Qed.

Example unsubscribed_delivery (payload : Payload unit) :
  let p := exec true
             [SubscribeToProducts Samples.counting; Notify 0%nat payload;
              Unsubscribe 0%nat; Notify 0%nat payload]
             (start 0%nat) in
  view (world p) = 1%nat /\ joined (world p) !! 0%nat = None /\
  channels (world p) !! "products_realtime" = None.
Proof.
  cbn [exec fold_left step subscribed world fst snd returned].
  unfold notify, subscribeToProducts, subscribe_on; cbn.
  rewrite !lookup_insert_eq; cbn.
  rewrite !lookup_delete_eq. auto.
Qed.

End Manager.

(** C8.  With the backend unconfigured, each subscribe method leaves the
    manager and the backend as they are and returns a function that maps
    every state to itself; and over any history of subscribe, unsubscribe,
    [unsubscribeAll] and pushed changes, no channel is ever open and the
    consumers' state stays what it was whatever the callbacks do, that is, no
    callback is ever invoked. *)
Theorem unconfigured_subscribe_is_inert :
  forall (T C : Type) (callback : RealtimeDb.Payload T -> C -> C)
         (userId : option string) (w : RealtimeDb.World T C),
    (fst (RealtimeDb.subscribeToProducts false callback w) = w /\
     forall w', snd (RealtimeDb.subscribeToProducts false callback w) w' = w') /\
    (fst (RealtimeDb.subscribeToOrders false callback userId w) = w /\
     forall w', snd (RealtimeDb.subscribeToOrders false callback userId w) w' = w') /\
    (fst (RealtimeDb.subscribeToInquiries false callback userId w) = w /\
     forall w', snd (RealtimeDb.subscribeToInquiries false callback userId w) w' = w') /\
    forall (ops : list (RealtimeDb.Op T C)) (c : C),
      let p := RealtimeDb.exec false ops (RealtimeDb.start c) in
      RealtimeDb.view (RealtimeDb.world p) = c /\
      RealtimeDb.joined (RealtimeDb.world p) = ∅ /\
      Forall (fun unsubscribe => forall w', unsubscribe w' = w') (RealtimeDb.returned p).
Proof.
  intros T C callback userId w.
  split; [split; [reflexivity | intros; reflexivity]|].
  split; [split; [reflexivity | intros; reflexivity]|].
  split; [split; [reflexivity | intros; reflexivity]|].
  intros ops c p.
  destruct (exec_inert c ops (RealtimeDb.start c) (start_inert c)) as (Hv & Hj & _ & Hr).
  auto.
Qed.

(** Why the client matters to [unsubscribeAll].  With [channel_subscribe],
    the client that opens a new channel on every call, two subscriptions to
    the product feed followed by [unsubscribeAll] leave the registry empty
    and the second channel closed, but the first channel, whose registry
    entry the second subscription overwrote, is still open and still reaches
    its callback. *)
Lemma unsubscribeAll_leaves_overwritten_channel_open :
  forall (T C : Type) (cb1 cb2 : RealtimeDb.Payload T -> C -> C) (c : C)
         (payload : RealtimeDb.Payload T),
    let p := RealtimeDb.exec true
               [RealtimeDb.SubscribeToProducts cb1;
                RealtimeDb.SubscribeToProducts cb2;
                RealtimeDb.UnsubscribeAll]
               (RealtimeDb.start c) in
    RealtimeDb.channels (RealtimeDb.world p) = ∅ /\
    RealtimeDb.joined (RealtimeDb.world p) !! 1%nat = None /\
    RealtimeDb.joined (RealtimeDb.world p) !! 0%nat
    = Some {| RealtimeDb.topic := "products_realtime";
              RealtimeDb.table := "products";
              RealtimeDb.filter := None;
              RealtimeDb.listener := RealtimeDb.forward cb1 |} /\
    RealtimeDb.view (RealtimeDb.notify 0%nat payload (RealtimeDb.world p))
    = RealtimeDb.forward cb1 payload c.
Proof.
  intros T C cb1 cb2 c payload p.
  assert (H1 : RealtimeDb.joined (RealtimeDb.world p) !! 1%nat = None).
  { apply (unsubscribeAll_closes_registered _ "products_realtime").
    cbn. apply lookup_insert_eq. }
  assert (H0 : RealtimeDb.joined (RealtimeDb.world p) !! 0%nat
               = Some {| RealtimeDb.topic := "products_realtime";
                         RealtimeDb.table := "products";
                         RealtimeDb.filter := None;
                         RealtimeDb.listener := RealtimeDb.forward cb1 |}).
  { unfold p, RealtimeDb.exec; cbn [fold_left RealtimeDb.step RealtimeDb.world].
    rewrite unsubscribeAll_skips_unregistered.
    - cbn. rewrite lookup_insert_ne by lia. apply lookup_insert_eq.
    - intros name. cbn. rewrite insert_insert_eq.
      destruct (decide (name = "products_realtime")) as [-> | Hne].
      + rewrite lookup_insert_eq. congruence.
      + rewrite lookup_insert_ne, lookup_empty by congruence. congruence. }
  split; [reflexivity|]. split; [exact H1|]. split; [exact H0|].
  unfold RealtimeDb.notify. rewrite H0. reflexivity.
Qed.

Section AnyClientFacts.

Import RealtimeDb Registry.

Context {T C : Type}.

Implicit Types (w : World T C) (p : Process T C).

(** The methods over the client that opens a new channel on every call are
    the methods of the manager as modelled above. *)
Lemma independent_client_step (isSupabaseConfigured : bool) p (op : Op T C) :
  AnyClient.step channel_subscribe isSupabaseConfigured p op
  = step isSupabaseConfigured p op.
Proof. destruct op; reflexivity. Qed.

Lemma unsubscribeAll_closes_all_registered w :
  registered w -> joined (unsubscribeAll w) = ∅.
Proof.
  intros Hreg. apply map_empty. intros ch.
  unfold unsubscribeAll; cbn [joined]. rewrite close_entries_joined.
  destruct (decide (ch ∈ (map_to_list (channels w)).*2)) as [Hin | Hout]; [reflexivity|].
  destruct (joined w !! ch) as [j|] eqn:Hj; [|reflexivity].
  destruct Hout. apply list_elem_of_fmap. exists (topic T C j, ch).
  split; [reflexivity|]. apply elem_of_map_to_list. now apply Hreg.
Qed.

Lemma sharing_one_channel_per_topic : one_channel_per_topic (sharing (T := T) (C := C)).
Proof.
  intros j w. unfold sharing.
  destruct (List.find _ (map_to_list (joined w))) as [[ch j']|] eqn:Hfind.
  - apply List.find_some in Hfind as [Hin Htopic].
    apply list_elem_of_In, elem_of_map_to_list in Hin.
    apply String.eqb_eq in Htopic. cbn [fst snd] in *.
    split; [reflexivity|]. split; [eauto|]. split; [reflexivity|]. eauto.
  - cbn [channel_subscribe fst snd channels joined].
    split; [reflexivity|]. split; [exists j; now rewrite lookup_insert_eq|].
    split; [intros ch Hne; now rewrite lookup_insert_ne by congruence|].
    intros ch0 j0 Hj0 Htopic. exfalso.
    pose proof (List.find_none _ _ Hfind (ch0, j0)) as Hnone.
    cbn [snd] in Hnone. rewrite Htopic, String.eqb_refl in Hnone.
    assert (Hin : In (ch0, j0) (map_to_list (joined w)))
      by now apply list_elem_of_In, elem_of_map_to_list.
    specialize (Hnone Hin). discriminate.
Qed.

Section PerTopic.

Variable client_subscribe : Joined T C -> World T C -> nat * World T C.
Hypothesis one_per_topic : one_channel_per_topic client_subscribe.

Lemma subscribe_on_registered (channelName tbl : string) (flt : option string)
    (callback : SubscriptionCallback T C) w :
  registered w ->
  registered (fst (AnyClient.subscribe_on client_subscribe channelName tbl flt callback w)).
Proof.
  intros Hreg. unfold AnyClient.subscribe_on.
  set (j := {| topic := channelName; table := tbl; filter := flt;
               listener := forward callback |}).
  destruct (one_per_topic j w) as (Hchannels & (j1 & Hopen & Htopic) & Hrest & Hshared).
  destruct (client_subscribe j w) as [channel w1] eqn:Hcall. cbn [fst snd] in *.
  intros ch j' Hj'. cbn [channels_set channels joined] in *.
  destruct (decide (ch = channel)) as [-> | Hne].
  - rewrite Hopen in Hj'. injection Hj' as <-. rewrite Htopic. apply lookup_insert_eq.
  - rewrite (Hrest ch Hne) in Hj'.
    assert (Hother : topic T C j' <> channelName).
    { intros Hsame. destruct (Hshared ch j' Hj' Hsame) as (j0 & Hj0 & Htopic0).
      apply Hreg in Hj', Hj0. rewrite Hsame in Hj'. cbn [topic j] in Htopic0.
      rewrite Htopic0 in Hj0. congruence. }
    rewrite lookup_insert_ne by congruence. rewrite Hchannels. now apply Hreg.
Qed.

Lemma subscribe_step_registered (isSupabaseConfigured : bool) p (op : Op T C) :
  is_Some (channelName op) ->
  registered (world p) ->
  registered (world (AnyClient.step client_subscribe isSupabaseConfigured p op)).
Proof.
  intros [name Hname] Hreg.
  destruct op as [cb|cb u|cb u|k| |ch payload]; try discriminate Hname;
    cbn [AnyClient.step subscribed world];
    unfold AnyClient.subscribeToProducts, AnyClient.subscribeToOrders,
      AnyClient.subscribeToInquiries;
    destruct isSupabaseConfigured; cbn [negb fst]; try exact Hreg;
    now apply subscribe_on_registered.
Qed.

Lemma subscribe_exec_registered (isSupabaseConfigured : bool) (ops : list (Op T C)) :
  forall p,
    Forall (fun op => is_Some (channelName op)) ops ->
    registered (world p) ->
    registered (world (AnyClient.exec client_subscribe isSupabaseConfigured ops p)).
Proof.
  induction ops as [|op ops IH]; intros p Hall Hreg; cbn; [exact Hreg|].
  apply Forall_cons in Hall as [Hop Hall].
  apply IH; [exact Hall|]. now apply subscribe_step_registered.
Qed.

End PerTopic.

End AnyClientFacts.



(** ** The product list of the [Products] page *)

Section ProductList.

Import RealtimeDb Feed.

Lemma filter_absent (i : string) (prev : list Product.t) :
  (forall q, In q prev -> Product.id q <> i) ->
  List.filter (fun q => negb (String.eqb (Product.id q) i)) prev = prev.
Proof.
  induction prev as [|q prev IH]; intros H; cbn [List.filter]; [reflexivity|].
  assert (Hq : String.eqb (Product.id q) i = false)
    by (apply String.eqb_neq, H; left; reflexivity).
  rewrite Hq; cbn [negb]. f_equal. apply IH.
  intros q' Hin. apply H. right; exact Hin.
Qed.

(** A deletion leaves no element with the deleted id, whatever was there. *)
Lemma deleted_leaves_none (gone : Product.t) (img : option Product.t)
    (prev : list Product.t) (q : Product.t) :
  In q (Products.onProductChange (deleted gone img) prev) ->
  Product.id q <> Product.id gone.
Proof.
  unfold Products.onProductChange, deleted; cbn [eventType new old].
  intros Hin. apply filter_In in Hin as [_ Hq].
  apply negb_true_iff in Hq. now apply String.eqb_neq.
Qed.

End ProductList.

(** C9.  On a product list with no element of row [r]'s id, the handler run
    on the insertion of [r] and then on a deletion whose old image has [r]'s
    id gives a list with no element of that id; it is the list from before
    the insertion. *)
Theorem insert_then_delete_leaves_no_trace :
  forall (prev : list RealtimeDb.Product.t) (r gone : RealtimeDb.Product.t)
         (old_image new_image : option RealtimeDb.Product.t),
    RealtimeDb.Product.id gone = RealtimeDb.Product.id r ->
    (forall q, In q prev -> RealtimeDb.Product.id q <> RealtimeDb.Product.id r) ->
    let after :=
      Products.onProductChange (Feed.deleted gone new_image)
        (Products.onProductChange (Feed.inserted r old_image) prev) in
    (forall q, In q after -> RealtimeDb.Product.id q <> RealtimeDb.Product.id r) /\
    after = prev.
Proof.
  intros prev r gone old_image new_image Hid Hfresh after. split.
  - intros q Hin. rewrite <- Hid. exact (deleted_leaves_none gone new_image _ q Hin).
  - unfold after, Products.onProductChange, Feed.deleted, Feed.inserted.
    cbn [RealtimeDb.eventType RealtimeDb.new RealtimeDb.old List.filter].
    rewrite Hid, String.eqb_refl. cbn [negb].
    now apply filter_absent.
Qed.

Lemma insert_then_delete_leaves_no_trace_witness :
  let prev := [Samples.wire "p1" "FR PVC Insulated Wire 1.5 sq mm";
               Samples.wire "p2" "HRFR Cable 4 sq mm"] in
  let r := Samples.wire "p3" "Coaxial Cable RG6" in
  let gone := Samples.wire "p3" "" in
  let after :=
    Products.onProductChange (Feed.deleted gone None)
      (Products.onProductChange (Feed.inserted r None) prev) in
  (forall q, In q after -> RealtimeDb.Product.id q <> "p3") /\ after = prev.
Proof.
  intros prev r gone.
  apply (insert_then_delete_leaves_no_trace prev r gone None None).
  - reflexivity.
  - intros q [<- | [<- | []]]; discriminate.
Defined.

(* ===================================================================== *)
(** * Further properties of the code *)
(* ===================================================================== *)

(** ** Matching by derivatives is matching the pattern *)

Section Derivatives.

Import Regex Grammar.

Local Open Scope list_scope.

Lemma nullable_Lang (r : re) : nullable r = true <-> Lang r [].
Proof.
  induction r as [| |f|r1 IH1 r2 IH2|r1 IH1 r2 IH2|r1 IH1]; cbn [nullable].
  - split; [discriminate | intros H; invert H].
  - split; [constructor | reflexivity].
  - split; [discriminate | intros H; invert H].
  - rewrite andb_true_iff, IH1, IH2. split.
    + intros [H1 H2]. exact (LangCat r1 r2 [] [] H1 H2).
    + intros H; invert H.
      match goal with E : (_ ++ _)%list = [] |- _ => apply app_eq_nil in E as [-> ->] end.
      auto.
  - rewrite orb_true_iff, IH1, IH2. split.
    + intros [H | H]; [apply LangAltL | apply LangAltR]; exact H.
    + intros H; invert H; auto.
  - split; [constructor | reflexivity].
Qed.

Lemma deriv_sound (a : ascii) (r : re) :
  forall l, Lang (deriv a r) l -> Lang r (a :: l).
Proof.
  induction r as [| |f|r1 IH1 r2 IH2|r1 IH1 r2 IH2|r1 IH1]; intros l; cbn [deriv].
  - intros H; invert H.
  - intros H; invert H.
  - destruct (f a) eqn:Hf; intros H; invert H. now constructor.
  - destruct (nullable r1) eqn:Hn.
    + intros H; invert H.
      * match goal with H : Lang (Cat _ _) _ |- _ => invert H end.
        match goal with
        | H1 : Lang (deriv a r1) ?l1, H2 : Lang r2 ?l2 |- _ =>
            exact (LangCat r1 r2 (a :: l1) l2 (IH1 _ H1) H2)
        end.
      * apply nullable_Lang in Hn.
        match goal with
        | H2 : Lang (deriv a r2) _ |- _ => exact (LangCat r1 r2 [] (a :: l) Hn (IH2 _ H2))
        end.
    + intros H; invert H.
      match goal with
      | H1 : Lang (deriv a r1) ?l1, H2 : Lang r2 ?l2 |- _ =>
          exact (LangCat r1 r2 (a :: l1) l2 (IH1 _ H1) H2)
      end.
  - intros H; invert H; [apply LangAltL | apply LangAltR]; auto.
  - intros H; invert H.
    match goal with
    | H1 : Lang (deriv a r1) ?l1, H2 : Lang (Star r1) ?l2 |- _ =>
        exact (LangStarApp r1 (a :: l1) l2 (IH1 _ H1) H2)
    end.
Qed.

Lemma deriv_complete_gen (r : re) (s : list ascii) :
  Lang r s -> forall a l, s = a :: l -> Lang (deriv a r) l.
Proof.
  induction 1 as [|f b Hf|r1 r2 l1 l2 H1 IH1 H2 IH2|r1 r2 s H IH|r1 r2 s H IH
                 |r|r l1 l2 H1 IH1 H2 IH2]; intros a l Heq; cbn [deriv].
  - discriminate.
  - injection Heq as -> <-. rewrite Hf. constructor.
  - destruct l1 as [|b l1']; cbn in Heq.
    + subst l2. apply nullable_Lang in H1. rewrite H1.
      apply LangAltR. now apply IH2.
    + injection Heq as -> <-.
      destruct (nullable r1).
      * apply LangAltL. constructor; auto.
      * constructor; auto.
  - apply LangAltL; auto.
  - apply LangAltR; auto.
  - discriminate.
  - destruct l1 as [|b l1']; cbn in Heq.
    + subst l2. exact (IH2 a l eq_refl).
    + injection Heq as -> <-. constructor; auto.
Qed.

Lemma deriv_Lang (a : ascii) (r : re) (l : list ascii) :
  Lang (deriv a r) l <-> Lang r (a :: l).
Proof.
  split; [apply deriv_sound | intros H; exact (deriv_complete_gen r _ H a l eq_refl)].
Qed.

(** The matcher accepts exactly the strings of the pattern. *)
Lemma matches_Lang (r : re) (l : list ascii) : matches r l = true <-> Lang r l.
Proof.
  revert r; induction l as [|a l IH]; intros r; cbn [matches].
  - apply nullable_Lang.
  - rewrite IH. apply deriv_Lang.
Qed.

Lemma Lang_Class (f : ascii -> bool) (l : list ascii) :
  Lang (Class f) l <-> exists a, l = [a] /\ f a = true.
Proof.
  split.
  - intros H; invert H; eauto.
  - intros (a & -> & H). now constructor.
Qed.

Lemma Lang_Cat (r1 r2 : re) (l : list ascii) :
  Lang (Cat r1 r2) l <-> exists l1 l2, l = l1 ++ l2 /\ Lang r1 l1 /\ Lang r2 l2.
Proof.
  split.
  - intros H; invert H; eauto.
  - intros (l1 & l2 & -> & H1 & H2). now constructor.
Qed.

(** A starred pattern stands for the concatenations of its strings. *)
Lemma Lang_Star (r : re) (l : list ascii) :
  Lang (Star r) l <-> exists pieces, l = List.concat pieces /\ Forall (Lang r) pieces.
Proof.
  split.
  - intros H. remember (Star r) as sr eqn:Hsr.
    induction H as [| | | | | r0 | r0 l1 l2 H1 _ H2 IH2]; try discriminate.
    + exists []. split; [reflexivity | constructor].
    + injection Hsr as ->. destruct (IH2 eq_refl) as (pieces & -> & Hall).
      exists (l1 :: pieces). split; [reflexivity | now constructor].
  - intros (pieces & -> & Hall). induction Hall as [|p pieces Hp _ IH]; cbn.
    + constructor.
    + now constructor.
Qed.

Lemma Lang_Star_Class (f : ascii -> bool) (l : list ascii) :
  Lang (Star (Class f)) l <-> forallb f l = true.
Proof.
  rewrite Lang_Star. split.
  - intros (pieces & -> & Hall). induction Hall as [|p pieces Hp _ IH]; [reflexivity|].
    apply Lang_Class in Hp as (a & -> & Ha). cbn. now rewrite Ha.
  - induction l as [|a l IH]; intros H.
    + exists []. split; [reflexivity | constructor].
    + cbn in H. apply andb_true_iff in H as [Ha Hl].
      destruct (IH Hl) as (pieces & -> & Hall).
      exists ([a] :: pieces). split; [reflexivity|].
      constructor; [now constructor | exact Hall].
Qed.

Lemma Lang_Plus_Class (f : ascii -> bool) (l : list ascii) :
  Lang (Plus (Class f)) l <-> l <> [] /\ forallb f l = true.
Proof.
  unfold Plus. rewrite Lang_Cat. split.
  - intros (l1 & l2 & -> & H1 & H2).
    apply Lang_Class in H1 as (a & -> & Ha). apply Lang_Star_Class in H2.
    split; [discriminate | cbn; now rewrite Ha].
  - intros [Hne H]. destruct l as [|a l]; [congruence|].
    cbn in H. apply andb_true_iff in H as [Ha Hl].
    exists [a], l. split; [reflexivity|]. split.
    + now constructor.
    + now apply Lang_Star_Class.
Qed.

Lemma Lang_Rep_Class (f : ascii -> bool) (n : nat) (l : list ascii) :
  Lang (Rep n (Class f)) l <-> length l = n /\ forallb f l = true.
Proof.
  rewrite <- matches_Lang, matches_Rep_Class, andb_true_iff, Nat.eqb_eq. reflexivity.
Qed.

Lemma Lang_AtLeast_Class (f : ascii -> bool) (n : nat) (l : list ascii) :
  Lang (AtLeast n (Class f)) l <-> (n <= length l)%nat /\ forallb f l = true.
Proof.
  unfold AtLeast. rewrite Lang_Cat. split.
  - intros (l1 & l2 & -> & H1 & H2).
    apply Lang_Rep_Class in H1 as [<- H1]. apply Lang_Star_Class in H2.
    rewrite length_app, forallb_app, H1, H2. split; [lia | reflexivity].
  - intros [Hn H]. exists (firstn n l), (skipn n l).
    rewrite <- (firstn_skipn n l) in H. rewrite forallb_app in H.
    apply andb_true_iff in H as [H1 H2].
    split; [symmetry; apply firstn_skipn|]. split.
    + apply Lang_Rep_Class. split; [apply firstn_length_le; exact Hn | exact H1].
    + now apply Lang_Star_Class.
Qed.

End Derivatives.

(** ** The contact patterns *)

Section Contacts.

Import JsString Regex Grammar UserAuth.

Local Open Scope list_scope.

Lemma matches_Cat_Class (f : ascii -> bool) (r : re) (l : list ascii) :
  matches (Cat (Class f) r) l
  = match l with
    | a :: l' => f a && matches r l'
    | [] => false
    end.
Proof.
  destruct l as [|a l]; cbn; [reflexivity|].
  destruct (f a); [apply matches_Cat_Eps | apply matches_Cat_Void].
Qed.

Lemma phone_re_shape (l : list ascii) : matches phone_re l = phone_shape l.
Proof.
  unfold phone_re, phone_shape. rewrite matches_Cat_Class.
  destruct l as [|a l]; [reflexivity|].
  now rewrite matches_Rep_Class, andb_assoc.
Qed.

Lemma Lang_dotted_labels (l : list ascii) :
  Lang (Plus (Cat (Plus (Class email_label)) (Lit "."))) l <->
  exists labels,
    l = List.concat (map dotted labels) /\ labels <> [] /\
    Forall (fun label => label <> [] /\ forallb email_label label = true) labels.
Proof.
  assert (Hone : forall p,
    Lang (Cat (Plus (Class email_label)) (Lit ".")) p <->
    exists label, p = dotted label /\ label <> [] /\ forallb email_label label = true).
  { intros p. rewrite Lang_Cat. split.
    - intros (l1 & l2 & -> & H1 & H2).
      apply Lang_Plus_Class in H1 as [Hne H1].
      apply Lang_Class in H2 as (a & -> & Ha).
      apply Ascii.eqb_eq in Ha as <-. exists l1. auto.
    - intros (label & -> & Hne & H). exists label, ["."%char].
      split; [reflexivity|]. split.
      + now apply Lang_Plus_Class.
      + apply Lang_Class. exists "."%char. split; [reflexivity | apply Ascii.eqb_refl]. }
  assert (Hmany : forall pieces,
    Forall (Lang (Cat (Plus (Class email_label)) (Lit "."))) pieces <->
    exists labels, pieces = map dotted labels /\
      Forall (fun label => label <> [] /\ forallb email_label label = true) labels).
  { intros pieces. split.
    - induction 1 as [|p pieces Hp _ (labels & -> & Hall)].
      + exists []. split; [reflexivity | constructor].
      + apply Hone in Hp as (label & -> & H1 & H2).
        exists (label :: labels). split; [reflexivity | constructor; auto].
    - intros (labels & -> & Hall). induction Hall as [|label labels [H1 H2] _ IH]; cbn.
      + constructor.
      + constructor; [|exact IH]. apply Hone. eauto. }
  unfold Plus at 1. rewrite Lang_Cat. split.
  - intros (l1 & l2 & -> & H1 & H2).
    apply Hone in H1 as (label & -> & Hne & Hl).
    apply Lang_Star in H2 as (pieces & -> & Hp).
    apply Hmany in Hp as (labels & -> & Hall).
    exists (label :: labels). split; [reflexivity|]. split; [discriminate|].
    constructor; auto.
  - intros (labels & -> & Hne & Hall).
    destruct labels as [|label labels]; [congruence|].
    apply Forall_cons in Hall as [[H1 H2] Hall].
    exists (dotted label), (List.concat (map dotted labels)).
    split; [reflexivity|]. split.
    + apply Hone. eauto.
    + apply Lang_Star. exists (map dotted labels). split; [reflexivity|].
      apply Hmany. eauto.
Qed.

Lemma email_re_shape (l : list ascii) : matches email_re l = true <-> email_shape l.
Proof.
  rewrite matches_Lang. unfold email_re, email_shape.
  rewrite Lang_Cat. split.
  - intros (local & rest & -> & Hlocal & Hrest).
    apply Lang_Plus_Class in Hlocal as [Hne Hlocal].
    apply Lang_Cat in Hrest as (at_ & rest' & -> & Hat & Hrest).
    apply Lang_Class in Hat as (a & -> & Ha). apply Ascii.eqb_eq in Ha as <-.
    apply Lang_Cat in Hrest as (dom & tld & -> & Hdom & Htld).
    apply Lang_dotted_labels in Hdom as (labels & -> & Hlne & Hall).
    apply Lang_AtLeast_Class in Htld as [Hlen Htld].
    exists local, labels, tld. auto 10.
  - intros (local & labels & tld & -> & Hne & Hlocal & Hlne & Hall & Hlen & Htld).
    exists local, ("@"%char :: List.concat (map dotted labels) ++ tld).
    split; [reflexivity|]. split; [now apply Lang_Plus_Class|].
    apply Lang_Cat. exists ["@"%char], (List.concat (map dotted labels) ++ tld).
    split; [reflexivity|]. split.
    + apply Lang_Class. exists "@"%char. split; [reflexivity | apply Ascii.eqb_refl].
    + apply Lang_Cat. exists (List.concat (map dotted labels)), tld.
      split; [reflexivity|]. split.
      * apply Lang_dotted_labels. eauto.
      * now apply Lang_AtLeast_Class.
Qed.

Lemma chars_strip_separators (s : string) :
  list_ascii_of_string (strip_separators s)
  = List.filter (fun c => negb (is_space c || one_of "-" c)) (list_ascii_of_string s).
Proof. unfold strip_separators. apply list_ascii_of_string_of_list_ascii. Qed.

Lemma phone_shape_digits (l : list ascii) :
  phone_shape l = true -> forallb digit l = true.
Proof.
  destruct l as [|a l]; [discriminate|]. cbn [phone_shape forallb].
  intros H. apply andb_true_iff in H as [H Hl]. apply andb_true_iff in H as [Ha _].
  rewrite Hl, andb_true_r. unfold digit, between in *.
  apply andb_true_iff in Ha as [H1 H2]. apply Z.leb_le in H1, H2.
  apply andb_true_iff; split; apply Z.leb_le; lia.
Qed.

(** A valid phone number has no "at" sign; a valid email address has one. *)
Lemma phone_without_at (value : string) :
  isValidPhone value = true -> ~ In "@"%char (list_ascii_of_string (trim value)).
Proof.
  unfold isValidPhone, test. rewrite phone_re_shape, chars_strip_separators.
  intros H Hin. apply phone_shape_digits in H.
  rewrite forallb_forall in H.
  assert (Hd : digit "@"%char = true)
    by (apply H, filter_In; split; [exact Hin | reflexivity]).
  vm_compute in Hd. discriminate.
Qed.

Lemma email_with_at (value : string) :
  isValidEmail value = true -> In "@"%char (list_ascii_of_string (trim value)).
Proof.
  unfold isValidEmail, test. rewrite email_re_shape.
  intros (local & labels & tld & -> & _). apply in_or_app. right. left. reflexivity.
Qed.

Lemma email_phone_disjoint (value : string) :
  isValidEmail value && isValidPhone value = false.
Proof.
  destruct (isValidEmail value) eqn:He, (isValidPhone value) eqn:Hp; try reflexivity.
  exfalso. exact (phone_without_at value Hp (email_with_at value He)).
Qed.

End Contacts.

(** [isValidPhone] accepts exactly the values that, once trimmed and freed of
    every white-space character and hyphen, are ten decimal digits the first
    of which is 6, 7, 8 or 9. *)
Theorem isValidPhone_accepts_ten_digit_mobile_numbers :
  forall value : string,
    UserAuth.isValidPhone value
    = phone_shape
        (List.filter
           (fun c => negb (JsString.is_space c || Regex.one_of "-" c))
           (list_ascii_of_string (JsString.trim value))).
Proof.
  intros value. unfold UserAuth.isValidPhone, Regex.test.
  now rewrite phone_re_shape, chars_strip_separators.
Qed.

(** [isValidEmail] accepts exactly the values whose trimmed form is a
    non-empty local part of the allowed characters, an "at" sign, one or more
    non-empty labels of letters, digits and hyphens each followed by a dot,
    and a last part of at least two letters. *)
Theorem isValidEmail_accepts_the_address_shape :
  forall value : string,
    UserAuth.isValidEmail value = true
    <-> email_shape (list_ascii_of_string (JsString.trim value)).
Proof. intros value. apply email_re_shape. Qed.

(** No value is accepted both as an email address and as a phone number. *)
Theorem no_contact_is_both_email_and_phone :
  forall value : string,
    UserAuth.isValidEmail value && UserAuth.isValidPhone value = false.
Proof. exact email_phone_disjoint. Qed.

(** ** Trimming and lower-casing *)

Section Trimming.

Import JsString.

Local Open Scope list_scope.

Lemma trimStart_cases (l : list ascii) :
  trimStart l = [] \/ exists c r, trimStart l = c :: r /\ is_space c = false.
Proof.
  induction l as [|a l IH]; [left; reflexivity|].
  cbn [trimStart]. destruct (is_space a) eqn:Ha; [exact IH|].
  right. eauto.
Qed.

Lemma trimStart_app_clean (m : list ascii) (c : ascii) :
  is_space c = false -> trimStart (m ++ [c]) = trimStart m ++ [c].
Proof.
  intros Hc. induction m as [|a m IH]; cbn [trimStart app].
  - now rewrite Hc.
  - destruct (is_space a); [exact IH | reflexivity].
Qed.

Lemma trimEnd_cons_clean (c : ascii) (l : list ascii) :
  is_space c = false -> trimEnd (c :: l) = c :: trimEnd l.
Proof.
  intros Hc. unfold trimEnd. cbn [rev].
  rewrite trimStart_app_clean by exact Hc.
  now rewrite rev_app_distr.
Qed.

Lemma trimStart_idempotent (l : list ascii) : trimStart (trimStart l) = trimStart l.
Proof.
  destruct (trimStart_cases l) as [-> | (c & r & -> & Hc)]; [reflexivity|].
  cbn [trimStart]. now rewrite Hc.
Qed.

Lemma trimEnd_idempotent (l : list ascii) : trimEnd (trimEnd l) = trimEnd l.
Proof. unfold trimEnd. now rewrite rev_involutive, trimStart_idempotent. Qed.

(** Trimming the two ends of a list of code units, as [trim] does. *)
Lemma trim_chars_idempotent (l : list ascii) :
  trimEnd (trimStart (trimEnd (trimStart l))) = trimEnd (trimStart l).
Proof.
  destruct (trimStart_cases l) as [-> | (c & r & -> & Hc)]; [reflexivity|].
  rewrite (trimEnd_cons_clean c r Hc).
  cbn [trimStart]. rewrite Hc.
  rewrite <- (trimEnd_cons_clean c r Hc). apply trimEnd_idempotent.
Qed.

Lemma trim_idempotent (s : string) : trim (trim s) = trim s.
Proof.
  unfold trim. rewrite list_ascii_of_string_of_list_ascii.
  now rewrite trim_chars_idempotent.
Qed.

Lemma lower_char_space (c : ascii) : is_space (lower_char c) = is_space c.
Proof.
  destruct c as [b0 b1 b2 b3 b4 b5 b6 b7].
  destruct b0, b1, b2, b3, b4, b5, b6, b7; reflexivity.
Qed.

Lemma trimStart_lower (l : list ascii) :
  trimStart (map lower_char l) = map lower_char (trimStart l).
Proof.
  induction l as [|a l IH]; [reflexivity|].
  cbn [map trimStart]. rewrite lower_char_space.
  destruct (is_space a); [exact IH | reflexivity].
Qed.

Lemma trimEnd_lower (l : list ascii) :
  trimEnd (map lower_char l) = map lower_char (trimEnd l).
Proof. unfold trimEnd. now rewrite <- map_rev, trimStart_lower, map_rev. Qed.

Lemma toLowerCase_trim (s : string) : toLowerCase (trim s) = trim (toLowerCase s).
Proof.
  unfold toLowerCase, trim. rewrite !list_ascii_of_string_of_list_ascii.
  now rewrite trimStart_lower, trimEnd_lower.
Qed.

End Trimming.

(** The digest depends on the contact only through its trimmed form. *)
Lemma hashOtp_trim (otp contact : string) :
  UserAuth.hashOtp otp (JsString.trim contact) = UserAuth.hashOtp otp contact.
Proof.
  unfold UserAuth.hashOtp. now rewrite toLowerCase_trim, trim_idempotent.
Qed.

(** [requestOtp] and [verifyOtp] see their string arguments only through
    their trimmed forms: surrounding white space in the contact or in the
    code changes neither the outcome nor the state updates nor the writes. *)
Theorem surrounding_white_space_is_ignored :
  forall (backend : UserAuth.Backend) (clock : UserAuth.Clock)
         (pending : option UserAuth.PendingVerification.t) (contact otp : string),
    UserAuth.requestOtp clock (JsString.trim contact) = UserAuth.requestOtp clock contact /\
    UserAuth.verifyOtp backend clock pending (JsString.trim contact) (JsString.trim otp)
    = UserAuth.verifyOtp backend clock pending contact otp.
Proof.
  intros backend clock pending contact otp.
  unfold UserAuth.requestOtp, UserAuth.verifyOtp.
  now rewrite !trim_idempotent.
Qed.

(** ** Every way a [verifyOtp] call can go *)

Section VerifyOtpShape.

Import UserAuth Login Session.

(** The part after the digest comparison either rejects without touching
    the state, or resolves and signs in a profile for the contact. *)
Lemma establish_cases (backend : Backend) (clock : Clock) (c : string) :
  (exists message ws,
     establish backend clock c
     = {| outcome := Rejected message; update := fun st => st; writes := ws |} /\
     is_incorrect (Rejected message) = false) \/
  (exists userId authUser ws,
     isSupabaseConfigured backend = true /\
     establish backend clock c
     = {| outcome := Resolved;
          update := fun st =>
            setPending (fun _ => None)
              (setItem USER_AUTH_STORAGE_KEY
                 {| UserProfile.id := userId;
                    UserProfile.email := if isValidEmail c then Some c else None;
                    UserProfile.phone := if isValidPhone c then Some c else None;
                    UserProfile.contact := c;
                    UserProfile.lastLoginAt := toISOString clock;
                    UserProfile.authUser := Some authUser |}
                 (setUser
                    (Some {| UserProfile.id := userId;
                             UserProfile.email := if isValidEmail c then Some c else None;
                             UserProfile.phone := if isValidPhone c then Some c else None;
                             UserProfile.contact := c;
                             UserProfile.lastLoginAt := toISOString clock;
                             UserProfile.authUser := Some authUser |}) st));
          writes := ws |}).
Proof.
  unfold establish.
  destruct (isSupabaseConfigured backend); cbn [negb];
    [|left; do 2 eexists; split; reflexivity].
  destruct (getSession backend) as [u|].
  - destruct (selectUser backend (SupabaseUser.id u)) as [row|].
    + right. do 3 eexists. split; reflexivity.
    + match goal with
      | |- context [insertUser backend ?r] =>
          destruct (insert_error (insertUser backend r)),
                   (insert_data (insertUser backend r))
      end;
        try (left; do 2 eexists; split; reflexivity).
      right. do 3 eexists. split; reflexivity.
  - destruct (signin_error (signInAnonymously backend)),
             (signin_user (signInAnonymously backend)) as [u|];
      try (left; do 2 eexists; split; reflexivity).
    destruct (selectUser backend (SupabaseUser.id u)) as [row|].
    + right. do 3 eexists. split; reflexivity.
    + match goal with
      | |- context [insertUser backend ?r] =>
          destruct (insert_error (insertUser backend r)),
                   (insert_data (insertUser backend r))
      end;
        try (left; do 2 eexists; split; reflexivity).
      right. do 3 eexists. split; reflexivity.
Qed.

Lemma verifyOtp_way (backend : Backend) (clock : Clock)
    (pd : option PendingVerification.t) (contact otp : string) :
  Way backend clock pd contact otp (verifyOtp backend clock pd contact otp).
Proof.
  destruct pd as [p|]; [|rewrite verifyOtp_none; constructor; auto].
  destruct (string_dec (PendingVerification.contact p) (JsString.trim contact)) as [Hc | Hc].
  2: { rewrite verifyOtp_other_contact by exact Hc. constructor. eauto. }
  destruct (Z.lt_ge_cases (PendingVerification.expiresAt p) (now clock)) as [Hlate | Ht].
  { rewrite (verifyOtp_expired backend clock p contact otp Hc Hlate). econstructor; eauto. }
  destruct (Z.lt_ge_cases (PendingVerification.attempts p) 4) as [Ha | Ha].
  2: { rewrite (verifyOtp_exhausted backend clock p contact otp Hc Ht Ha).
       econstructor; eauto. }
  destruct (six_digits (JsString.trim otp)) eqn:Hsix.
  2: { rewrite <- otp_re_six_digits in Hsix.
       rewrite (verifyOtp_malformed backend clock p contact otp Hc Ht Ha Hsix).
       econstructor; eauto. now rewrite <- otp_re_six_digits. }
  pose proof Hsix as Hre. rewrite <- otp_re_six_digits in Hre.
  destruct (string_dec (hashOtp (JsString.trim otp) (JsString.trim contact))
              (PendingVerification.otpHash p)) as [Hh | Hh].
  - rewrite (verifyOtp_correct backend clock p contact otp Hc Ht Ha Hre Hh).
    econstructor; eauto.
  - rewrite (verifyOtp_incorrect backend clock p contact otp Hc Ht Ha Hre Hh).
    econstructor; eauto.
Qed.

Lemma setPending_user f st : user (setPending f st) = user st.
Proof. reflexivity. Qed.

(** What a call does to the state, whatever its way. *)
Lemma callVerifyOtp_effect (backend : Backend) (clock : Clock) (contact otp : string)
    (st : State) :
  let r := callVerifyOtp backend clock contact otp st in
  let c := JsString.trim contact in
  (exists message,
     snd r = Rejected message /\ is_incorrect (snd r) = false /\
     user (fst r) = user st /\ localStorage (fst r) = localStorage st /\
     (pending (fst r) = pending st \/ pending (fst r) = None)) \/
  (snd r = Rejected "Incorrect OTP. Please try again." /\
   user (fst r) = user st /\ localStorage (fst r) = localStorage st /\
   exists p, pending st = Some p /\ PendingVerification.attempts p < 4 /\
             PendingVerification.contact p = c /\
             pending (fst r)
             = Some (with_attempts p (PendingVerification.attempts p + 1))) \/
  (snd r = Resolved /\ pending (fst r) = None /\
   exists p profile,
     pending st = Some p /\
     PendingVerification.contact p = c /\
     now clock <= PendingVerification.expiresAt p /\
     PendingVerification.attempts p < 4 /\
     six_digits (JsString.trim otp) = true /\
     hashOtp (JsString.trim otp) c = PendingVerification.otpHash p /\
     isSupabaseConfigured backend = true /\
     user (fst r) = Some profile /\
     localStorage (fst r) = <[USER_AUTH_STORAGE_KEY := profile]> (localStorage st) /\
     UserProfile.contact profile = c /\
     UserProfile.email profile = (if isValidEmail c then Some c else None) /\
     UserProfile.phone profile = (if isValidPhone c then Some c else None)).
Proof.
  unfold callVerifyOtp, run. cbn [fst snd].
  destruct (verifyOtp_way backend clock (pending st) contact otp)
    as [H | p Hp Hc Hlate | p Hp Hc Ht Ha | p Hp Hc Ht Ha Hsix | p Hp Hc Ht Ha Hsix Hh
       | p Hp Hc Ht Ha Hsix Hh].
  - left. eexists. split; [reflexivity|]. cbn. auto 6.
  - left. eexists. split; [reflexivity|]. cbn. auto 6.
  - left. eexists. split; [reflexivity|]. cbn. auto 6.
  - left. eexists. split; [reflexivity|]. cbn. auto 6.
  - right. left. cbn [update outcome reject_after setPending user localStorage pending].
    split; [reflexivity|]. split; [reflexivity|]. split; [reflexivity|].
    rewrite Hp. cbn [bump]. exists p. auto.
  - destruct (establish_cases backend clock (JsString.trim contact))
      as [(message & ws & -> & Hm) | (userId & authUser & ws & Hcfg & ->)].
    + left. exists message. cbn [update outcome]. auto 6.
    + right. right. cbn [update outcome]. split; [reflexivity|]. split; [reflexivity|].
      exists p. eexists.
      split; [exact Hp|]. split; [exact Hc|]. split; [exact Ht|]. split; [exact Ha|].
      split; [exact Hsix|]. split; [exact Hh|]. split; [exact Hcfg|].
      cbn. auto 10.
Qed.

End VerifyOtpShape.

(** ** What a [verifyOtp] call can and cannot do *)

(** A call resolves only against a matching pending verification that has
    not expired and has attempts left, with a code that is six digits after
    trimming and whose digest is the stored one, and with the backend
    configured. *)
Theorem verifyOtp_resolves_only_on_the_stored_digest :
  forall (backend : UserAuth.Backend) (clock : UserAuth.Clock) (contact otp : string)
         (st : UserAuth.State),
    snd (UserAuth.callVerifyOtp backend clock contact otp st) = UserAuth.Resolved ->
    exists p,
      UserAuth.pending st = Some p /\
      UserAuth.PendingVerification.contact p = JsString.trim contact /\
      UserAuth.now clock <= UserAuth.PendingVerification.expiresAt p /\
      UserAuth.PendingVerification.attempts p < 4 /\
      six_digits (JsString.trim otp) = true /\
      UserAuth.hashOtp (JsString.trim otp) (JsString.trim contact)
      = UserAuth.PendingVerification.otpHash p /\
      UserAuth.isSupabaseConfigured backend = true.
Proof.
  intros backend clock contact otp st Hres.
  destruct (callVerifyOtp_effect backend clock contact otp st)
    as [(message & Hrej & _) | [(Hrej & _) | (_ & _ & p & profile & H)]].
  - rewrite Hrej in Hres. discriminate.
  - rewrite Hrej in Hres. discriminate.
  - exists p. tauto.
Qed.

Lemma verifyOtp_resolves_only_on_the_stored_digest_witness :
  exists p,
    UserAuth.pending (fst (UserAuth.callRequestOtp (Login.at_ms 0) "9876543210"
                             Login.signed_out)) = Some p /\
    UserAuth.PendingVerification.contact p = JsString.trim " 9876543210" /\
    UserAuth.now (Login.at_ms 1000) <= UserAuth.PendingVerification.expiresAt p /\
    UserAuth.PendingVerification.attempts p < 4 /\
    six_digits (JsString.trim "123456 ") = true /\
    UserAuth.hashOtp (JsString.trim "123456 ") (JsString.trim " 9876543210")
    = UserAuth.PendingVerification.otpHash p /\
    UserAuth.isSupabaseConfigured Login.online = true.
Proof.
  apply (verifyOtp_resolves_only_on_the_stored_digest Login.online (Login.at_ms 1000)
           " 9876543210" "123456 ").
  vm_compute. reflexivity.
Defined.

(** A call that resolves signs the contact in: the user state and the stored
    snapshot are the same profile, whose contact is the trimmed contact; the
    pending verification is gone; and for a contact that [requestOtp] accepts
    the profile carries the contact as its email or as its phone, never as
    both. *)
Theorem resolved_verifyOtp_signs_the_contact_in :
  forall (backend : UserAuth.Backend) (clock : UserAuth.Clock) (contact otp : string)
         (st : UserAuth.State),
    snd (UserAuth.callVerifyOtp backend clock contact otp st) = UserAuth.Resolved ->
    let st' := fst (UserAuth.callVerifyOtp backend clock contact otp st) in
    let c := JsString.trim contact in
    exists profile,
      UserAuth.user st' = Some profile /\
      UserAuth.localStorage st'
      = <[UserAuth.USER_AUTH_STORAGE_KEY := profile]> (UserAuth.localStorage st) /\
      UserAuth.pending st' = None /\
      UserAuth.UserProfile.contact profile = c /\
      (UserAuth.isValidEmail c || UserAuth.isValidPhone c = true ->
       (UserAuth.UserProfile.email profile = Some c /\
        UserAuth.UserProfile.phone profile = None) \/
       (UserAuth.UserProfile.email profile = None /\
        UserAuth.UserProfile.phone profile = Some c)).
Proof.
  intros backend clock contact otp st Hres st' c.
  destruct (callVerifyOtp_effect backend clock contact otp st)
    as [(message & Hrej & _) | [(Hrej & _)
       | (_ & Hpd & p & profile & Hp & Hc & _ & _ & _ & _ & _ & Hu & Hls & Hpc & He & Hph)]].
  - rewrite Hrej in Hres. discriminate.
  - rewrite Hrej in Hres. discriminate.
  - exists profile. fold st' in Hu, Hls, Hpd. fold c in Hpc, He, Hph.
    split; [exact Hu|]. split; [exact Hls|]. split; [exact Hpd|]. split; [exact Hpc|].
    intros Hvalid. rewrite He, Hph.
    pose proof (email_phone_disjoint c) as Hdis.
    destruct (UserAuth.isValidEmail c), (UserAuth.isValidPhone c);
      try discriminate; auto.
Qed.

Lemma resolved_verifyOtp_signs_the_contact_in_witness :
  let st := fst (UserAuth.callRequestOtp (Login.at_ms 0) "9876543210" Login.signed_out) in
  let st' := fst (UserAuth.callVerifyOtp Login.online (Login.at_ms 1000)
                    "9876543210" "123456" st) in
  let c := JsString.trim "9876543210" in
  exists profile,
    UserAuth.user st' = Some profile /\
    UserAuth.localStorage st'
    = <[UserAuth.USER_AUTH_STORAGE_KEY := profile]> (UserAuth.localStorage st) /\
    UserAuth.pending st' = None /\
    UserAuth.UserProfile.contact profile = c /\
    ((UserAuth.UserProfile.email profile = Some c /\
      UserAuth.UserProfile.phone profile = None) \/
     (UserAuth.UserProfile.email profile = None /\
      UserAuth.UserProfile.phone profile = Some c)).
Proof.
  intros st st' c.
  destruct (resolved_verifyOtp_signs_the_contact_in Login.online (Login.at_ms 1000)
              "9876543210" "123456" st) as (profile & Hu & Hls & Hpd & Hc & Hone).
  - vm_compute. reflexivity.
  - exists profile.
    split; [exact Hu|]. split; [exact Hls|]. split; [exact Hpd|]. split; [exact Hc|].
    apply Hone. vm_compute. reflexivity.
Defined.

(** A call that is rejected leaves the user state and the local storage as
    they were; the pending verification is kept, or cleared, or (exactly when
    the error is the incorrect-code one) kept with its counter one higher. *)
Theorem rejected_verifyOtp_touches_only_the_pending_verification :
  forall (backend : UserAuth.Backend) (clock : UserAuth.Clock) (contact otp : string)
         (st : UserAuth.State) (message : string),
    snd (UserAuth.callVerifyOtp backend clock contact otp st) = UserAuth.Rejected message ->
    let st' := fst (UserAuth.callVerifyOtp backend clock contact otp st) in
    UserAuth.user st' = UserAuth.user st /\
    UserAuth.localStorage st' = UserAuth.localStorage st /\
    (UserAuth.pending st' = UserAuth.pending st \/
     UserAuth.pending st' = None \/
     exists p,
       UserAuth.pending st = Some p /\
       UserAuth.pending st'
       = Some (Login.with_attempts p (UserAuth.PendingVerification.attempts p + 1))) /\
    (message = "Incorrect OTP. Please try again." <->
     exists p,
       UserAuth.pending st = Some p /\
       UserAuth.pending st'
       = Some (Login.with_attempts p (UserAuth.PendingVerification.attempts p + 1))).
Proof.
  intros backend clock contact otp st message Hrej st'.
  destruct (callVerifyOtp_effect backend clock contact otp st)
    as [(m & Hm & Hinc & Hu & Hls & Hpd) | [(Hm & Hu & Hls & p & Hp & _ & _ & Hpd)
       | (Hres & _)]].
  - fold st' in Hu, Hls, Hpd. rewrite Hm in Hinc. rewrite Hm in Hrej. injection Hrej as ->.
    split; [exact Hu|]. split; [exact Hls|]. split; [tauto|]. split.
    + intros ->. discriminate Hinc.
    + intros (p & Hp & H). exfalso. destruct Hpd as [E | E]; rewrite E in H.
      * rewrite Hp in H.
        apply (f_equal (option_map UserAuth.PendingVerification.attempts)) in H.
        cbn in H. injection H as H. lia.
      * discriminate.
  - fold st' in Hu, Hls, Hpd. rewrite Hm in Hrej. injection Hrej as <-.
    split; [exact Hu|]. split; [exact Hls|]. split; [eauto|].
    split; [eauto | reflexivity].
  - rewrite Hres in Hrej. discriminate.
Qed.

Lemma rejected_verifyOtp_touches_only_the_pending_verification_witness :
  let st := fst (UserAuth.callRequestOtp (Login.at_ms 0) "user@example.com"
                   Login.signed_out) in
  let st' := fst (UserAuth.callVerifyOtp Login.online (Login.at_ms 1000)
                    "user@example.com" "654321" st) in
  UserAuth.user st' = UserAuth.user st /\
  UserAuth.localStorage st' = UserAuth.localStorage st /\
  exists p,
    UserAuth.pending st = Some p /\
    UserAuth.pending st'
    = Some (Login.with_attempts p (UserAuth.PendingVerification.attempts p + 1)).
Proof.
  intros st st'.
  destruct (rejected_verifyOtp_touches_only_the_pending_verification Login.online
              (Login.at_ms 1000) "user@example.com" "654321" st
              "Incorrect OTP. Please try again.") as (Hu & Hls & _ & Hinc).
  - vm_compute. reflexivity.
  - split; [exact Hu|]. split; [exact Hls|]. apply Hinc. reflexivity.
Defined.

(** ** Histories of the login flow *)

Section Histories.

Import UserAuth UserAuthEffect Login Session.

(** What a call through the callback of a render that captured [captured]
    does to the state of the moment. *)
Lemma callVerifyOtpFrom_effect (captured : option PendingVerification.t)
    (backend : Backend) (clock : Clock) (contact otp : string) (st : State) :
  let r := callVerifyOtpFrom captured backend clock contact otp st in
  (exists message,
     snd r = Rejected message /\
     user (fst r) = user st /\ localStorage (fst r) = localStorage st /\
     (pending (fst r) = pending st \/ pending (fst r) = None
      \/ pending (fst r) = bump (pending st))) \/
  (snd r = Resolved /\ pending (fst r) = None /\
   exists profile,
     user (fst r) = Some profile /\
     localStorage (fst r) = <[USER_AUTH_STORAGE_KEY := profile]> (localStorage st)).
Proof.
  unfold callVerifyOtpFrom, run. cbn [fst snd].
  destruct (verifyOtp_way backend clock captured contact otp)
    as [H | p Hp Hc Hlate | p Hp Hc Ht Ha | p Hp Hc Ht Ha Hsix | p Hp Hc Ht Ha Hsix Hh
       | p Hp Hc Ht Ha Hsix Hh].
  - left. eexists. split; [reflexivity|]. cbn. auto.
  - left. eexists. split; [reflexivity|]. cbn. auto.
  - left. eexists. split; [reflexivity|]. cbn. auto.
  - left. eexists. split; [reflexivity|]. cbn. auto.
  - left. eexists. split; [reflexivity|]. cbn. auto.
  - destruct (establish_cases backend clock (JsString.trim contact))
      as [(message & ws & -> & Hm) | (userId & authUser & ws & Hcfg & ->)].
    + left. exists message. cbn [update outcome]. auto.
    + right. cbn [update outcome]. split; [reflexivity|]. split; [reflexivity|].
      eexists. split; reflexivity.
Qed.

Lemma outcomes_nothing_pending (calls : list Call) (st : State) :
  Forall through_latest calls ->
  pending st = None -> List.filter is_incorrect (outcomes calls st) = [].
Proof.
  revert st;
    induction calls as [|[[[render backend] clock] [contact otp]] calls IH];
    intros st Hall Hp.
  - reflexivity.
  - apply Forall_cons in Hall as [Hr Hall]. cbv in Hr. subst render.
    cbn [outcomes call_through]. unfold callVerifyOtp at 1 2.
    rewrite Hp, verifyOtp_none, run_reject.
    cbn [fst snd List.filter is_incorrect String.eqb Ascii.eqb Bool.eqb].
    now apply IH.
Qed.

(** The counter bounds the incorrect-code rejections still to come, as long
    as every call goes through the callback of the latest render. *)
Lemma incorrect_rejections_bounded (calls : list Call) :
  forall (st : State) (p : PendingVerification.t),
    pending st = Some p ->
    0 <= PendingVerification.attempts p <= 4 ->
    Forall through_latest calls ->
    Z.of_nat (length (List.filter is_incorrect (outcomes calls st)))
    <= 4 - PendingVerification.attempts p.
Proof.
  induction calls as [|[[[render backend] clock] [contact otp]] calls IH];
    intros st p Hp Ha Hall.
  - cbn. lia.
  - apply Forall_cons in Hall as [Hr Hall]. cbv in Hr. subst render.
    cbn [outcomes call_through].
    destruct (callVerifyOtp_effect backend clock contact otp st)
      as [(m & Hm & Hinc & _ & _ & [Hpd | Hpd])
         | [(Hm & _ & _ & q & Hq & Hqa & _ & Hpd) | (Hres & Hpd & _)]].
    + cbn [List.filter]. rewrite Hinc. apply (IH _ p); [congruence | exact Ha | exact Hall].
    + cbn [List.filter].
      rewrite Hinc, outcomes_nothing_pending by (exact Hall || exact Hpd). cbn. lia.
    + cbn [List.filter]. rewrite Hm at 1.
      cbn [is_incorrect String.eqb Ascii.eqb Bool.eqb]. cbn [length].
      assert (q = p) by congruence. subst q.
      assert (Hnext : 0 <= PendingVerification.attempts
                            (with_attempts p (PendingVerification.attempts p + 1)) <= 4)
        by (cbn [with_attempts PendingVerification.attempts]; lia).
      specialize (IH _ _ Hpd Hnext Hall).
      cbn [with_attempts PendingVerification.attempts] in IH. lia.
    + cbn [List.filter]. rewrite Hres at 1. cbn [is_incorrect].
      rewrite outcomes_nothing_pending by (exact Hall || exact Hpd). cbn. lia.
Qed.

(** One wrong code through the callback of a render that captured [p]: the
    call is rejected as incorrect whatever the state of the moment is, and
    bumps the counter of the moment. *)
Lemma wrong_attempt_from (backend : Backend) (p : PendingVerification.t) (c : string)
    (t : Clock * string) (st : State) :
  JsString.trim c = PendingVerification.contact p ->
  PendingVerification.attempts p < 4 ->
  wrong_code p t ->
  callVerifyOtpFrom (Some p) backend (fst t) c (snd t) st
  = (setPending bump st, Rejected "Incorrect OTP. Please try again.").
Proof.
  intros Hc Ha (Ht & Hsix & Hdigest). unfold callVerifyOtpFrom.
  pose proof (trim_six_digits _ Hsix) as Htrim.
  rewrite (verifyOtp_incorrect backend (fst t) p c (snd t) (eq_sym Hc) Ht Ha).
  - reflexivity.
  - now rewrite otp_re_six_digits, Htrim.
  - now rewrite Htrim, Hc.
Qed.

(** The limit of four guesses is a limit per render.  Wrong codes sent
    through the callback of one render, which captured [p] with fewer than
    four attempts, are all rejected as incorrect, however many they are, and
    each adds one to the counter of the moment. *)
Lemma guesses_through_one_render_are_not_bounded (backend : Backend)
    (p : PendingVerification.t) (c : string) (tries : list (Clock * string)) :
  JsString.trim c = PendingVerification.contact p ->
  PendingVerification.attempts p < 4 ->
  Forall (wrong_code p) tries ->
  forall (st : State) (q : PendingVerification.t),
    pending st = Some q ->
    let calls := map (fun t => (Earlier (Some p), backend, fst t, (c, snd t))) tries in
    outcomes calls st
    = repeat (Rejected "Incorrect OTP. Please try again.") (length tries) /\
    pending (after_calls calls st)
    = Some (with_attempts q (PendingVerification.attempts q + Z.of_nat (length tries))).
Proof.
  intros Hc Ha Hall. induction Hall as [|t tries Ht Hall IH]; intros st q Hq.
  - cbn. rewrite Z.add_0_r, with_attempts_same. auto.
  - cbn [map outcomes after_calls call_through fst snd].
    rewrite (wrong_attempt_from backend p c t st Hc Ha Ht). cbn [fst snd].
    destruct (IH (setPending bump st)
                (with_attempts q (PendingVerification.attempts q + 1))) as [Ho Hp].
    { cbn [setPending pending]. rewrite Hq. reflexivity. }
    cbv zeta in Ho, Hp. rewrite Ho, Hp. split; [reflexivity|].
    cbn [with_attempts PendingVerification.attempts PendingVerification.contact
         PendingVerification.otpHash PendingVerification.expiresAt length].
    unfold with_attempts. cbn. do 2 f_equal. lia.
Qed.

Lemma requestOtp_cases (clock : Clock) (contact : string) (st : State) :
  (isValidEmail (JsString.trim contact) || isValidPhone (JsString.trim contact) = false /\
   callRequestOtp clock contact st
   = (st, Rejected "Enter a valid mobile number or email address.")) \/
  (isValidEmail (JsString.trim contact) || isValidPhone (JsString.trim contact) = true /\
   callRequestOtp clock contact st
   = (setPending (fun _ =>
        Some {| PendingVerification.contact := JsString.trim contact;
                PendingVerification.otpHash := hashOtp TEST_OTP (JsString.trim contact);
                PendingVerification.expiresAt := now clock + 5 * 60 * 1000;
                PendingVerification.attempts := 0 |}) st, Resolved)).
Proof.
  destruct (isValidEmail (JsString.trim contact) || isValidPhone (JsString.trim contact))
    eqn:Hv.
  - right. split; [reflexivity|]. unfold callRequestOtp.
    now rewrite (requestOtp_valid clock contact Hv).
  - left. split; [reflexivity|]. unfold callRequestOtp, requestOtp.
    now rewrite <- negb_orb, Hv.
Qed.

Lemma well_formed_requested (p : PendingVerification.t) : well_formed p -> requested p.
Proof. intros (H1 & H2 & H3 & H4). repeat split; try assumption. lia. Qed.

(** Through the callbacks of the latest render the counter stays within 4. *)
Lemma act_pending_ok (st : State) (a : Action) :
  up_to_date a -> pending_ok st -> pending_ok (act st a).
Proof.
  intros Hup Hok.
  destruct a as [clock contact|backend clock contact otp| |backend|session
                |captured backend clock contact otp];
    cbn [act]; [| | | | |destruct Hup].
  - destruct (requestOtp_cases clock contact st) as [[_ ->] | [Hv ->]]; [exact Hok|].
    intros p [= <-]. unfold well_formed.
    cbn [pending setPending PendingVerification.contact PendingVerification.otpHash
         PendingVerification.attempts].
    rewrite trim_idempotent. split; [reflexivity|]. split; [exact Hv|].
    split; [reflexivity | lia].
  - destruct (callVerifyOtp_effect backend clock contact otp st)
      as [(m & _ & _ & _ & _ & [Hpd | Hpd])
         | [(_ & _ & _ & q & Hq & Hqa & _ & Hpd) | (_ & Hpd & _)]];
      intros p Hp; rewrite Hpd in Hp; try discriminate.
    + now apply Hok.
    + injection Hp as <-. destruct (Hok q Hq) as (H1 & H2 & H3 & H4).
      unfold well_formed.
      cbn [with_attempts PendingVerification.contact PendingVerification.otpHash
           PendingVerification.attempts].
      split; [exact H1|]. split; [exact H2|]. split; [exact H3 | lia].
  - exact Hok.
  - unfold restoreSession.
    destruct (isSupabaseConfigured backend), (getSession backend) as [u|]; cbn [negb];
      try exact Hok.
    destruct (selectUser backend (SupabaseUser.id u)); exact Hok.
  - destruct session; exact Hok.
Qed.

(** Whatever render a call goes through, a pending verification keeps its
    contact and its digest, and its counter only grows. *)
Lemma act_pending_requested (st : State) (a : Action) :
  pending_requested st -> pending_requested (act st a).
Proof.
  intros Hok.
  assert (Hbump : forall p, bump (pending st) = Some p -> requested p).
  { intros p Hp. destruct (pending st) as [q|] eqn:Hq; [|discriminate].
    injection Hp as <-. destruct (Hok q Hq) as (H1 & H2 & H3 & H4).
    unfold requested.
    cbn [PendingVerification.contact PendingVerification.otpHash
         PendingVerification.attempts].
    split; [exact H1|]. split; [exact H2|]. split; [exact H3 | lia]. }
  destruct a as [clock contact|backend clock contact otp| |backend|session
                |captured backend clock contact otp];
    cbn [act].
  - destruct (requestOtp_cases clock contact st) as [[_ ->] | [Hv ->]]; [exact Hok|].
    intros p [= <-]. unfold requested.
    cbn [pending setPending PendingVerification.contact PendingVerification.otpHash
         PendingVerification.attempts].
    rewrite trim_idempotent. split; [reflexivity|]. split; [exact Hv|].
    split; [reflexivity | lia].
  - destruct (callVerifyOtpFrom_effect (pending st) backend clock contact otp st)
      as [(m & _ & _ & _ & [Hpd | [Hpd | Hpd]]) | (_ & Hpd & _)];
      unfold callVerifyOtpFrom in Hpd; unfold callVerifyOtp;
      intros p Hp; rewrite Hpd in Hp; try discriminate.
    + now apply Hok.
    + now apply Hbump.
  - exact Hok.
  - unfold restoreSession.
    destruct (isSupabaseConfigured backend), (getSession backend) as [u|]; cbn [negb];
      try exact Hok.
    destruct (selectUser backend (SupabaseUser.id u)); exact Hok.
  - destruct session; exact Hok.
  - destruct (callVerifyOtpFrom_effect captured backend clock contact otp st)
      as [(m & _ & _ & _ & [Hpd | [Hpd | Hpd]]) | (_ & Hpd & _)];
      intros p Hp; rewrite Hpd in Hp; try discriminate.
    + now apply Hok.
    + now apply Hbump.
Qed.

Lemma act_user_stored (st : State) (a : Action) : user_stored st -> user_stored (act st a).
Proof.
  intros Hok.
  assert (Hcall : forall captured backend clock contact otp,
             user_stored (fst (callVerifyOtpFrom captured backend clock contact otp st))).
  { intros captured backend clock contact otp.
    destruct (callVerifyOtpFrom_effect captured backend clock contact otp st)
      as [(m & _ & Hu & Hls & _) | (_ & _ & profile & Hu & Hls)];
      intros u Hus.
    - rewrite Hls. apply Hok. congruence.
    - rewrite Hls. rewrite Hu in Hus. injection Hus as <-. apply lookup_insert_eq. }
  destruct a as [clock contact|backend clock contact otp| |backend|session
                |captured backend clock contact otp];
    cbn [act].
  - destruct (requestOtp_cases clock contact st) as [[_ ->] | [_ ->]]; exact Hok.
  - exact (Hcall (pending st) backend clock contact otp).
  - intros u Hu. discriminate Hu.
  - unfold restoreSession.
    destruct (isSupabaseConfigured backend), (getSession backend) as [su|]; cbn [negb];
      try exact Hok.
    destruct (selectUser backend (SupabaseUser.id su)); [|exact Hok].
    intros u [= <-]. apply lookup_insert_eq.
  - destruct session; [exact Hok|]. intros u Hu. discriminate Hu.
  - exact (Hcall captured backend clock contact otp).
Qed.

Lemma after_invariant (P : State -> Prop) :
  (forall st a, P st -> P (act st a)) ->
  forall actions st, P st -> P (after actions st).
Proof.
  intros Hstep actions. induction actions as [|a actions IH]; intros st H; cbn.
  - exact H.
  - apply IH, Hstep, H.
Qed.

Lemma after_invariant_on (Q : Action -> Prop) (P : State -> Prop) :
  (forall st a, Q a -> P st -> P (act st a)) ->
  forall actions st, Forall Q actions -> P st -> P (after actions st).
Proof.
  intros Hstep actions. induction actions as [|a actions IH]; intros st Hall H; cbn.
  - exact H.
  - apply Forall_cons in Hall as [Ha Hall]. apply IH; [exact Hall|]. now apply Hstep.
Qed.

End Histories.

(** When every [verifyOtp] call goes through the callback of the latest
    render, so that it tests the pending verification the call before it
    left, at most [4 - attempts] of the calls are rejected as incorrect,
    whatever their contacts, codes, clocks and backends.  (Calls through the
    callback of one earlier render are not bounded:
    [guesses_through_one_render_are_not_bounded].) *)
Theorem at_most_four_incorrect_guesses :
  forall (calls : list Session.Call) (st : UserAuth.State)
         (p : UserAuth.PendingVerification.t),
    UserAuth.pending st = Some p ->
    0 <= UserAuth.PendingVerification.attempts p <= 4 ->
    Forall Session.through_latest calls ->
    Z.of_nat (length (List.filter Session.is_incorrect (Session.outcomes calls st)))
    <= 4 - UserAuth.PendingVerification.attempts p.
Proof. exact incorrect_rejections_bounded. Qed.

Lemma at_most_four_incorrect_guesses_witness :
  let st := fst (UserAuth.callRequestOtp (Login.at_ms 0) "user@example.com"
                   Login.signed_out) in
  let guess (otp : string) : Session.Call :=
        (Session.Latest, Login.online, Login.at_ms 1000, ("user@example.com", otp)) in
  Z.of_nat (length (List.filter Session.is_incorrect
                      (Session.outcomes
                         [guess "000000"; guess "000001"; guess "000002";
                          guess "000003"; guess "000004"; guess "123456"] st)))
  <= 4 - 0.
Proof.
  intros st guess.
  apply (at_most_four_incorrect_guesses _ st
           {| UserAuth.PendingVerification.contact := "user@example.com";
              UserAuth.PendingVerification.otpHash :=
                UserAuth.hashOtp UserAuth.TEST_OTP "user@example.com";
              UserAuth.PendingVerification.expiresAt := 300000;
              UserAuth.PendingVerification.attempts := 0 |}).
  - vm_compute. reflexivity.
  - cbn. lia.
  - repeat constructor.
Defined.

(** Over any history of a mounted provider (OTP requests, verifications
    through the callback of any render, logouts, session restorations and
    auth-state changes) a pending verification always has a trimmed contact
    that [requestOtp] accepts, the digest of the generated code for that
    contact, and an attempt counter that is not negative.  When every
    verification went through the callback of the latest render, the counter
    is at most 4 as well. *)
Theorem pending_verification_stays_well_formed :
  forall (actions : list Session.Action) (storage : gmap string UserAuth.UserProfile.t)
         (p : UserAuth.PendingVerification.t),
    UserAuth.pending (Session.after actions (UserAuthEffect.mounted storage)) = Some p ->
    Session.requested p /\
    (Forall Session.up_to_date actions -> Session.well_formed p).
Proof.
  intros actions storage p Hp. split.
  - revert p Hp. apply (after_invariant Session.pending_requested act_pending_requested).
    intros p Hp. discriminate Hp.
  - intros Hall. revert p Hp.
    apply (after_invariant_on Session.up_to_date Session.pending_ok act_pending_ok);
      [exact Hall|].
    intros p Hp. discriminate Hp.
Qed.

Lemma pending_verification_stays_well_formed_witness :
  Session.requested
    {| UserAuth.PendingVerification.contact := "user@example.com";
       UserAuth.PendingVerification.otpHash :=
         UserAuth.hashOtp UserAuth.TEST_OTP "user@example.com";
       UserAuth.PendingVerification.expiresAt := 300000;
       UserAuth.PendingVerification.attempts := 2 |}
  /\ Session.well_formed
       {| UserAuth.PendingVerification.contact := "user@example.com";
          UserAuth.PendingVerification.otpHash :=
            UserAuth.hashOtp UserAuth.TEST_OTP "user@example.com";
          UserAuth.PendingVerification.expiresAt := 300000;
          UserAuth.PendingVerification.attempts := 2 |}.
Proof.
  destruct (pending_verification_stays_well_formed
              [Session.RequestOtp (Login.at_ms 0) " user@example.com ";
               Session.VerifyOtp Login.online (Login.at_ms 1000) "user@example.com" "000000";
               Session.Logout;
               Session.VerifyOtp Login.offline (Login.at_ms 2000) "user@example.com" "111111"]
              ∅
              {| UserAuth.PendingVerification.contact := "user@example.com";
                 UserAuth.PendingVerification.otpHash :=
                   UserAuth.hashOtp UserAuth.TEST_OTP "user@example.com";
                 UserAuth.PendingVerification.expiresAt := 300000;
                 UserAuth.PendingVerification.attempts := 2 |}) as [Hreq Hwf].
  - vm_compute. reflexivity.
  - split; [exact Hreq|]. apply Hwf. repeat constructor.
Defined.

(** Over any history of a mounted provider, whatever the local storage held
    at mount, a signed-in user is the profile stored under the provider's
    storage key. *)
Theorem signed_in_user_is_the_stored_profile :
  forall (actions : list Session.Action) (storage : gmap string UserAuth.UserProfile.t)
         (u : UserAuth.UserProfile.t),
    UserAuth.user (Session.after actions (UserAuthEffect.mounted storage)) = Some u ->
    UserAuth.localStorage (Session.after actions (UserAuthEffect.mounted storage))
      !! UserAuth.USER_AUTH_STORAGE_KEY = Some u.
Proof.
  intros actions storage.
  apply (after_invariant Session.user_stored act_user_stored).
  intros u Hu. discriminate Hu.
Qed.

Lemma signed_in_user_is_the_stored_profile_witness :
  let u :=
    {| UserAuth.UserProfile.id := "anon-1";
       UserAuth.UserProfile.email := Some "user@example.com";
       UserAuth.UserProfile.phone := None;
       UserAuth.UserProfile.contact := "user@example.com";
       UserAuth.UserProfile.lastLoginAt := "2025-10-19T15:36:44.000Z";
       UserAuth.UserProfile.authUser := Some {| UserAuth.SupabaseUser.id := "anon-1" |} |} in
  let actions :=
    [Session.RequestOtp (Login.at_ms 0) "user@example.com";
     Session.VerifyOtp Login.online (Login.at_ms 1000) "user@example.com" "123456"] in
  UserAuth.localStorage (Session.after actions (UserAuthEffect.mounted ∅))
    !! UserAuth.USER_AUTH_STORAGE_KEY = Some u.
Proof.
  intros u actions.
  apply (signed_in_user_is_the_stored_profile actions ∅ u).
  vm_compute. reflexivity.
Defined.

(** ** The generated code *)

(** The generated code is the same for every contact: after [requestOtp] of
    any contact it accepts, a [verifyOtp] call within five minutes with that
    contact and the code 123456 resolves, given a backend that is configured,
    yields a session and has or accepts the user's row. *)
Theorem code_123456_verifies_every_contact :
  forall (backend : UserAuth.Backend) (u : UserAuth.SupabaseUser.t)
         (clock0 clock1 : UserAuth.Clock) (contact : string) (st : UserAuth.State),
    UserAuth.isValidEmail (JsString.trim contact)
      || UserAuth.isValidPhone (JsString.trim contact) = true ->
    UserAuth.isSupabaseConfigured backend = true ->
    Login.has_session backend u ->
    Login.can_store_user backend u ->
    UserAuth.now clock1 <= UserAuth.now clock0 + 300000 ->
    let st1 := fst (UserAuth.callRequestOtp clock0 contact st) in
    snd (UserAuth.callVerifyOtp backend clock1 contact "123456" st1) = UserAuth.Resolved.
Proof.
  intros backend u clock0 clock1 contact st Hvalid Hcfg Hs Hrow Htime st1.
  assert (Hotp : JsString.trim "123456" = UserAuth.TEST_OTP) by (vm_compute; reflexivity).
  assert (Hp : UserAuth.pending st1
               = Some {| UserAuth.PendingVerification.contact := JsString.trim contact;
                         UserAuth.PendingVerification.otpHash :=
                           UserAuth.hashOtp UserAuth.TEST_OTP (JsString.trim contact);
                         UserAuth.PendingVerification.expiresAt :=
                           UserAuth.now clock0 + 5 * 60 * 1000;
                         UserAuth.PendingVerification.attempts := 0 |}).
  { unfold st1, UserAuth.callRequestOtp.
    rewrite (requestOtp_valid clock0 contact Hvalid). reflexivity. }
  unfold UserAuth.callVerifyOtp. rewrite Hp.
  rewrite verifyOtp_correct.
  - destruct (establish_resolves backend clock1 (JsString.trim contact) u Hcfg Hs Hrow)
      as (profile & ws & -> & _). reflexivity.
  - reflexivity.
  - cbn [UserAuth.PendingVerification.expiresAt]. lia.
  - cbn [UserAuth.PendingVerification.attempts]. lia.
  - rewrite Hotp. vm_compute. reflexivity.
  - cbn [UserAuth.PendingVerification.otpHash]. now rewrite Hotp.
Qed.

Lemma code_123456_verifies_every_contact_witness :
  let st1 := fst (UserAuth.callRequestOtp (Login.at_ms 0) "98765-43210" Login.signed_out) in
  snd (UserAuth.callVerifyOtp Login.online (Login.at_ms 299999) "98765-43210" "123456" st1)
  = UserAuth.Resolved.
Proof.
  apply (code_123456_verifies_every_contact Login.online
           {| UserAuth.SupabaseUser.id := "anon-1" |} (Login.at_ms 0) (Login.at_ms 299999)
           "98765-43210" Login.signed_out).
  - vm_compute. reflexivity.
  - reflexivity.
  - right. repeat split.
  - right. split; [reflexivity|]. intros row. split; [reflexivity | eexists; reflexivity].
  - vm_compute. discriminate.
Defined.

(** ** The digest as a string *)

Section Digest.

Import Sha256.

Local Open Scope list_scope.

Lemma round_length (st : list Z) (kw : Z * Z) : length st = 8%nat -> length (round st kw) = 8%nat.
Proof.
  intros H. do 9 (destruct st as [|? st]; try discriminate H). reflexivity.
Qed.

Lemma rounds_length (kws : list (Z * Z)) (st : list Z) :
  length st = 8%nat -> length (fold_left round kws st) = 8%nat.
Proof.
  revert st; induction kws as [|kw kws IH]; intros st H; cbn [fold_left]; [exact H|].
  apply IH, round_length, H.
Qed.

Lemma compress_length (h block : list Z) :
  length h = 8%nat -> length (compress h block) = 8%nat.
Proof.
  intros H. unfold compress, zip.
  rewrite length_map, length_combine, rounds_length by exact H. rewrite H. reflexivity.
Qed.

Lemma blocks_length (blocks : list (list Z)) (h : list Z) :
  length h = 8%nat -> length (fold_left compress blocks h) = 8%nat.
Proof.
  revert h; induction blocks as [|b blocks IH]; intros h H; cbn [fold_left]; [exact H|].
  apply IH, compress_length, H.
Qed.

Lemma be_bytes_length (n : nat) (x : Z) : length (be_bytes n x) = n.
Proof. induction n as [|n IH]; cbn [be_bytes length]; [reflexivity | now rewrite IH]. Qed.

Lemma be_bytes_range (n : nat) (x b : Z) : In b (be_bytes n x) -> 0 <= b < 256.
Proof.
  induction n as [|n IH]; cbn [be_bytes]; [intros [] | intros [<- | H]; auto].
  apply Z.mod_pos_bound. lia.
Qed.

Lemma words_bytes_length (ws : list Z) :
  length (flat_map (be_bytes 4) ws) = (4 * length ws)%nat.
Proof.
  induction ws as [|w ws IH]; [reflexivity|].
  cbn [flat_map]. rewrite length_app, be_bytes_length, IH. cbn [length]. lia.
Qed.

(** The digest is 32 bytes, each from 0 to 255. *)
Lemma digest_length (msg : list Z) : length (digest msg) = 32%nat.
Proof.
  unfold digest. rewrite words_bytes_length, blocks_length; reflexivity.
Qed.

Lemma digest_range (msg : list Z) (b : Z) : In b (digest msg) -> 0 <= b < 256.
Proof.
  unfold digest. intros H. apply in_flat_map in H as (w & _ & H).
  exact (be_bytes_range 4 w b H).
Qed.

End Digest.

Section Hex.

Import UserAuth.

Lemma append_empty (s : string) : (s ++ "")%string = s.
Proof.
  induction s as [|c s IH]; [reflexivity|].
  change (String c (s ++ "")%string = String c s). now rewrite IH.
Qed.

Lemma concat_empty_cons (x : string) (xs : list string) :
  String.concat "" (x :: xs) = (x ++ String.concat "" xs)%string.
Proof.
  destruct xs as [|y ys]; cbn [String.concat].
  - now rewrite append_empty.
  - reflexivity.
Qed.

Lemma chars_append (s t : string) :
  list_ascii_of_string (s ++ t) = (list_ascii_of_string s ++ list_ascii_of_string t)%list.
Proof.
  induction s as [|c s IH]; [reflexivity|].
  change (list_ascii_of_string (String c (s ++ t)%string)
          = (c :: list_ascii_of_string s ++ list_ascii_of_string t)%list).
  cbn [list_ascii_of_string]. now rewrite IH.
Qed.

Lemma chars_bufferToHex (buffer : list Z) :
  list_ascii_of_string (bufferToHex buffer)
  = flat_map (fun byte => [hex_digit (byte / 16); hex_digit (byte mod 16)]) buffer.
Proof.
  unfold bufferToHex. induction buffer as [|b buffer IH]; [reflexivity|].
  cbn [map flat_map]. rewrite concat_empty_cons, chars_append, IH. reflexivity.
Qed.

Lemma hex_digit_is_hex (n : Z) : 0 <= n < 16 -> is_hex (hex_digit n) = true.
Proof.
  intros H. unfold hex_digit.
  assert (Hk : (Z.to_nat n < 16)%nat) by lia.
  destruct (Z.to_nat n) as [|k]; [reflexivity|].
  do 15 (destruct k as [|k]; [reflexivity|]). lia.
Qed.

End Hex.

(** Whatever the code and the contact, [hashOtp] returns 64 characters, each
    a decimal digit or a letter from a to f. *)
Theorem hashOtp_is_64_lowercase_hex_digits :
  forall otp contact : string,
    let h := list_ascii_of_string (UserAuth.hashOtp otp contact) in
    length h = 64%nat /\ forallb is_hex h = true.
Proof.
  intros otp contact h. unfold h, UserAuth.hashOtp.
  rewrite chars_bufferToHex.
  set (d := Sha256.digest _).
  assert (Hlen : length d = 32%nat) by apply digest_length.
  assert (Hrange : forall b, In b d -> 0 <= b < 256) by apply digest_range.
  clearbody d. split.
  - assert (forall l : list Z,
              length (flat_map (fun byte => [UserAuth.hex_digit (byte / 16);
                                             UserAuth.hex_digit (byte mod 16)]) l)
              = (2 * length l)%nat) as Hl.
    { induction l as [|b l IH]; [reflexivity|]. cbn [flat_map length app]. rewrite IH. lia. }
    rewrite Hl, Hlen. reflexivity.
  - apply forallb_forall. intros c Hc.
    apply in_flat_map in Hc as (b & Hb & Hc).
    specialize (Hrange b Hb).
    destruct Hc as [<- | [<- | []]]; apply hex_digit_is_hex.
    + split; [apply Z.div_pos; lia | apply Z.div_lt_upper_bound; lia].
    + apply Z.mod_pos_bound. lia.
Qed.

(** ** The facade in both modes *)

Section FacadeRuns.

Import RealtimeDb Facade.

Lemma field_put_eq (k : string) (v : Json) (o : Fields) : field k (put k v o) = Some v.
Proof.
  induction o as [|[k' v'] o IH]; cbn [put field].
  - now rewrite String.eqb_refl.
  - destruct (String.eqb k' k) eqn:Hk; cbn [field]; rewrite Hk; [reflexivity | exact IH].
Qed.

Lemma field_put_ne (k k' : string) (v : Json) (o : Fields) :
  k' <> k -> field k' (put k v o) = field k' o.
Proof.
  intros Hne. induction o as [|[k0 v0] o IH]; cbn [put field].
  - apply String.eqb_neq in Hne. rewrite String.eqb_sym in Hne. now rewrite Hne.
  - destruct (String.eqb k0 k) eqn:Hk; cbn [field].
    + apply String.eqb_eq in Hk as ->.
      apply String.eqb_neq in Hne. rewrite String.eqb_sym in Hne. now rewrite Hne.
    + destruct (String.eqb k0 k'); [reflexivity | exact IH].
Qed.

(** In a spread, a field of the second object wins over the first's. *)
Lemma field_spread (k : string) (a b : Fields) :
  NoDup (map fst b) ->
  field k (spread a b) = match field k b with Some v => Some v | None => field k a end.
Proof.
  unfold spread. revert a. induction b as [|[k' v'] b IH]; intros a Hnd; cbn [fold_left].
  - reflexivity.
  - cbn [map fst] in Hnd. apply NoDup_cons in Hnd as [Hnotin Hnd].
    cbn [fst snd]. rewrite IH by exact Hnd. cbn [field].
    destruct (String.eqb k' k) eqn:Hk.
    + apply String.eqb_eq in Hk as ->. rewrite field_put_eq.
      assert (Hb : field k b = None).
      { clear -Hnotin. induction b as [|[k0 v0] b IH]; [reflexivity|].
        cbn [field]. cbn [map fst] in Hnotin.
        destruct (String.eqb k0 k) eqn:Hk.
        - apply String.eqb_eq in Hk as ->. exfalso. apply Hnotin. now left.
        - apply IH. intros Hin. apply Hnotin. now right. }
      now rewrite Hb.
    + apply String.eqb_neq in Hk.
      rewrite field_put_ne by congruence. reflexivity.
Qed.

End FacadeRuns.

(** No read of the facade ever throws, whatever the store answers and
    whether or not the backend is configured. *)
Theorem reads_never_throw :
  forall (isSupabaseConfigured : bool) (supabase : RealtimeDb.Store)
         (id : string) (userId : option string),
    Facade.returns (RealtimeDb.getProducts isSupabaseConfigured supabase) /\
    Facade.returns (RealtimeDb.getProductById isSupabaseConfigured supabase id) /\
    Facade.returns (RealtimeDb.getOrders isSupabaseConfigured supabase userId) /\
    Facade.returns (RealtimeDb.getOrderById isSupabaseConfigured supabase id) /\
    Facade.returns (RealtimeDb.getInquiries isSupabaseConfigured supabase userId) /\
    Facade.returns (RealtimeDb.getUserProfile isSupabaseConfigured supabase id).
Proof.
  intros cfg supabase id userId. unfold Facade.returns.
  unfold RealtimeDb.getProducts, RealtimeDb.getProductById, RealtimeDb.getOrders,
    RealtimeDb.getOrderById, RealtimeDb.getInquiries, RealtimeDb.getUserProfile.
  destruct cfg; cbn [negb]; conjuncts;
    repeat match goal with
           | |- context [match RealtimeDb.error ?r with _ => _ end] =>
               destruct (RealtimeDb.error r)
           | |- context [if negb (String.eqb ?a ?b) then _ else _] =>
               destruct (String.eqb a b); cbn [negb]
           end;
    eexists; reflexivity.
Qed.

(** Every write of the facade logs exactly the error it throws, once and
    under its own label, and logs nothing when it returns. *)
Theorem writes_log_exactly_what_they_throw :
  forall (isSupabaseConfigured : bool) (supabase : RealtimeDb.Store)
         (id userId status : string) (paymentStatus : option string)
         (fields : RealtimeDb.Fields),
    Facade.logs_what_it_throws "Error creating product:"
      (RealtimeDb.createProduct isSupabaseConfigured supabase fields) /\
    Facade.logs_what_it_throws "Error updating product:"
      (RealtimeDb.updateProduct isSupabaseConfigured supabase id fields) /\
    Facade.logs_what_it_throws "Error deleting product:"
      (RealtimeDb.deleteProduct isSupabaseConfigured supabase id) /\
    Facade.logs_what_it_throws "Error creating order:"
      (RealtimeDb.createOrder isSupabaseConfigured supabase fields) /\
    Facade.logs_what_it_throws "Error updating order status:"
      (RealtimeDb.updateOrderStatus isSupabaseConfigured supabase id status paymentStatus) /\
    Facade.logs_what_it_throws "Error creating inquiry:"
      (RealtimeDb.createInquiry isSupabaseConfigured supabase fields) /\
    Facade.logs_what_it_throws "Error updating inquiry status:"
      (RealtimeDb.updateInquiryStatus isSupabaseConfigured supabase id status) /\
    Facade.logs_what_it_throws "Error upserting user profile:"
      (RealtimeDb.upsertUserProfile isSupabaseConfigured supabase userId fields).
Proof.
  intros cfg supabase id userId status paymentStatus fields.
  unfold Facade.logs_what_it_throws.
  unfold RealtimeDb.createProduct, RealtimeDb.updateProduct, RealtimeDb.deleteProduct,
    RealtimeDb.createOrder, RealtimeDb.updateOrderStatus, RealtimeDb.createInquiry,
    RealtimeDb.updateInquiryStatus, RealtimeDb.upsertUserProfile.
  destruct cfg; cbn [negb]; conjuncts;
    repeat match goal with
           | |- context [match RealtimeDb.error ?r with _ => _ end] =>
               destruct (RealtimeDb.error r)
           end;
    reflexivity.
Qed.

(** [createInquiry] sends the inquiry with its status set to pending,
    whatever status the caller put in, and with every other field as given;
    its result is what the store answers to that row. *)
Theorem createInquiry_forces_pending_status :
  forall (supabase : RealtimeDb.Store) (inquiry : RealtimeDb.Fields),
    exists row,
      Facade.field "status" row = Some (RealtimeDb.JString "pending") /\
      (forall k, k <> "status" -> Facade.field k row = Facade.field k inquiry) /\
      RealtimeDb.createInquiry true supabase inquiry
      = Facade.written "Error creating inquiry:" (RealtimeDb.insertInquiry supabase row).
Proof.
  intros supabase inquiry.
  exists (RealtimeDb.put "status" (RealtimeDb.JString "pending") inquiry).
  split; [apply field_put_eq|]. split; [intros k Hk; now apply field_put_ne|].
  reflexivity.
Qed.

(** [upsertUserProfile] sends a row whose [profile_completed] is true whatever
    the profile says, and whose [user_id] is the profile's own [user_id] when
    it has one (the argument is then overridden) and the argument otherwise;
    the other fields are the profile's. *)
Theorem upsertUserProfile_row :
  forall (supabase : RealtimeDb.Store) (userId : string) (profile : RealtimeDb.Fields),
    NoDup (map fst profile) ->
    exists row,
      Facade.field "profile_completed" row = Some (RealtimeDb.JBool true) /\
      Facade.field "user_id" row
      = Some (match Facade.field "user_id" profile with
              | Some v => v
              | None => RealtimeDb.JString userId
              end) /\
      (forall k, k <> "profile_completed" -> k <> "user_id" ->
                 Facade.field k row = Facade.field k profile) /\
      RealtimeDb.upsertUserProfile true supabase userId profile
      = Facade.written "Error upserting user profile:"
          (RealtimeDb.upsertUserProfileRow supabase row).
Proof.
  intros supabase userId profile Hnd.
  eexists. split; [|split; [|split; [|reflexivity]]].
  - apply field_put_eq.
  - rewrite field_put_ne by discriminate. rewrite field_spread by exact Hnd.
    cbn [Facade.field String.eqb Ascii.eqb Bool.eqb].
    destruct (Facade.field "user_id" profile); reflexivity.
  - intros k Hk1 Hk2. rewrite field_put_ne by exact Hk1.
    rewrite field_spread by exact Hnd. cbn [Facade.field].
    apply String.eqb_neq in Hk2. rewrite String.eqb_sym in Hk2. rewrite Hk2.
    destruct (Facade.field k profile); reflexivity.
Qed.

Lemma upsertUserProfile_row_witness :
  exists row,
    Facade.field "profile_completed" row = Some (RealtimeDb.JBool true) /\
    Facade.field "user_id" row = Some (RealtimeDb.JString "u2") /\
    Facade.field "city" row = Some (RealtimeDb.JString "Pune").
Proof.
  destruct (upsertUserProfile_row (Samples.failing_store Samples.transport_error) "u1"
              [("city", RealtimeDb.JString "Pune");
               ("user_id", RealtimeDb.JString "u2");
               ("profile_completed", RealtimeDb.JBool false)])
    as (row & H1 & H2 & H3 & _).
  - cbn [map fst].
    repeat (apply NoDup_cons_2;
            [rewrite ?elem_of_cons, ?elem_of_nil; intuition discriminate|]).
    apply NoDup_nil_2.
  - exists row. split; [exact H1|]. split; [exact H2|].
    rewrite H3 by discriminate. reflexivity.
Defined.

(** ** The registry over histories *)

Section RegistryHistories.

Import RealtimeDb Registry.

Context {T C : Type}.

Implicit Types (w : World T C) (p : Process T C) (op : Op T C).

Local Open Scope list_scope.

(** The world after a configured subscribe call, by its registry key. *)
Lemma subscribe_world p op (name : string) :
  channelName op = Some name ->
  exists j,
    topic T C j = name /\
    channels (world (step true p op)) = <[name := fresh (world p)]> (channels (world p)) /\
    joined (world (step true p op)) = <[fresh (world p) := j]> (joined (world p)) /\
    fresh (world (step true p op)) = S (fresh (world p)) /\
    view (world (step true p op)) = view (world p) /\
    returned (step true p op) = returned p ++ [teardown (fresh (world p)) name].
Proof.
  destruct op as [cb|cb u|cb u| | |]; cbn [channelName]; intros [= <-];
    cbn [step subscribed world returned];
    unfold subscribeToProducts, subscribeToOrders, subscribeToInquiries, subscribe_on;
    cbn [negb channel_subscribe channels_set fst snd channels joined fresh view];
    eexists; repeat split; reflexivity.
Qed.

Lemma unconfigured_subscribe_world p op (name : string) :
  channelName op = Some name ->
  world (step false p op) = world p /\
  exists f, returned (step false p op) = returned p ++ [f] /\ forall w', f w' = w'.
Proof.
  destruct op as [cb|cb u|cb u| | |]; cbn [channelName]; intros [= <-];
    (split; [reflexivity|]); eexists; split; reflexivity.
Qed.

Lemma handed_out_mono w1 w2 (f : World T C -> World T C) :
  (fresh w1 <= fresh w2)%nat ->
  (forall ch j, (ch < fresh w1)%nat -> joined w2 !! ch = Some j -> joined w1 !! ch = Some j) ->
  handed_out w1 f -> handed_out w2 f.
Proof.
  intros Hfresh Hsub [Hid | (ch & name & Hf & Hlt & Htopic)]; [left; exact Hid|].
  right. exists ch, name. split; [exact Hf|]. split; [lia|].
  intros j Hj. apply Htopic. now apply Hsub.
Qed.

Lemma teardown_joined (ch : nat) (name : string) w :
  joined (teardown ch name w) = delete ch (joined w).
Proof. reflexivity. Qed.

Lemma teardown_channels (ch : nat) (name : string) w :
  channels (teardown ch name w) = delete name (channels w).
Proof. reflexivity. Qed.

Lemma unsubscribeAll_joined_sub w (ch : nat) (j : Joined T C) :
  joined (unsubscribeAll w) !! ch = Some j -> joined w !! ch = Some j.
Proof.
  unfold unsubscribeAll; cbn [joined]. rewrite close_entries_joined.
  destruct (decide _); [discriminate | auto].
Qed.

Lemma unsubscribeAll_fresh w : fresh (unsubscribeAll w) = fresh w.
Proof.
  unfold unsubscribeAll; cbn [fresh].
  now destruct (close_entries_rest (map_to_list (channels w)) w) as (_ & -> & _).
Qed.

Lemma notify_same (ch : nat) (payload : Payload T) w :
  channels (notify ch payload w) = channels w /\
  joined (notify ch payload w) = joined w /\
  fresh (notify ch payload w) = fresh w.
Proof. unfold notify. destruct (joined w !! ch); auto. Qed.

(** One step keeps the process sound, in either mode. *)
Lemma step_sound (cfg : bool) p op : sound p -> sound (step cfg p op).
Proof.
  intros [[Hreg Hlt] Hret].
  destruct (channelName op) as [name|] eqn:Hname.
  - destruct cfg.
    + destruct (subscribe_world p op name Hname) as (j & Hj & Hc & Hjn & Hf & _ & Hr).
      split; [split|].
      * intros n ch. rewrite Hc, Hjn. destruct (decide (n = name)) as [-> | Hne].
        -- rewrite lookup_insert_eq. intros [= <-]. exists j.
           now rewrite lookup_insert_eq.
        -- rewrite lookup_insert_ne by congruence. intros Hn.
           destruct (Hreg n ch Hn) as (j' & Hj' & Ht). exists j'. split; [|exact Ht].
           rewrite lookup_insert_ne; [exact Hj'|].
           assert (ch < fresh (world p))%nat by (apply Hlt; eauto). lia.
      * intros ch. rewrite Hjn, Hf. destruct (decide (ch = fresh (world p))) as [-> | Hne].
        -- lia.
        -- rewrite lookup_insert_ne by congruence. intros H. apply Hlt in H. lia.
      * rewrite Hr. apply Forall_app. split.
        -- eapply Forall_impl; [exact Hret|]. intros f. apply handed_out_mono.
           ++ rewrite Hf. lia.
           ++ intros ch j' Hch. rewrite Hjn, lookup_insert_ne by lia. auto.
        -- constructor; [|constructor]. right. exists (fresh (world p)), name.
           split; [reflexivity|]. split; [rewrite Hf; lia|].
           intros j'. rewrite Hjn, lookup_insert_eq. now intros [= <-].
    + destruct (unconfigured_subscribe_world p op name Hname) as (Hw & f & Hr & Hid).
      unfold sound. rewrite Hw, Hr. split; [split; assumption|].
      apply Forall_app. split; [exact Hret|]. constructor; [now left | constructor].
  - destruct op as [cb|cb u|cb u|k| |ch payload]; try discriminate Hname; cbn [step].
    + destruct (returned p !! k) as [f|] eqn:Hk; [|split; [split|]; assumption].
      pose proof (Forall_lookup_1 _ _ _ _ Hret Hk) as [Hid | (ch & name & Hf & Hch & Htopic)].
      { unfold sound; cbn [world returned]. rewrite Hid. split; [split|]; assumption. }
      unfold sound; cbn [world returned]. rewrite Hf. split; [split|].
      * intros n c. rewrite teardown_channels, teardown_joined.
        destruct (decide (n = name)) as [-> | Hne]; [now rewrite lookup_delete_eq|].
        rewrite lookup_delete_ne by congruence. intros Hn.
        destruct (Hreg n c Hn) as (j & Hj & Ht). exists j. split; [|exact Ht].
        rewrite lookup_delete_ne; [exact Hj|].
        intros ->. apply Hne. rewrite <- Ht. now apply Htopic.
      * intros c. rewrite teardown_joined. intros [j Hj].
        destruct (decide (ch = c)) as [-> | Hne]; [now rewrite lookup_delete_eq in Hj|].
        rewrite lookup_delete_ne in Hj by exact Hne. apply Hlt. eauto.
      * eapply Forall_impl; [exact Hret|]. intros g. apply handed_out_mono; [reflexivity|].
        intros c j _. rewrite teardown_joined.
        destruct (decide (ch = c)) as [-> | Hne]; [now rewrite lookup_delete_eq|].
        now rewrite lookup_delete_ne by exact Hne.
    + unfold sound; cbn [world returned]. split; [split|].
      * intros n c. rewrite unsubscribeAll_clears, lookup_empty. discriminate.
      * intros c [j Hj]. rewrite unsubscribeAll_fresh. apply Hlt.
        apply unsubscribeAll_joined_sub in Hj. eauto.
      * eapply Forall_impl; [exact Hret|]. intros g. apply handed_out_mono.
        -- now rewrite unsubscribeAll_fresh.
        -- intros c j _. apply unsubscribeAll_joined_sub.
    + unfold sound; cbn [world returned].
      destruct (notify_same ch payload (world p)) as (Hc & Hj & Hf).
      split; [split|].
      * intros n c. rewrite Hc, Hj. apply Hreg.
      * intros c. rewrite Hj, Hf. apply Hlt.
      * eapply Forall_impl; [exact Hret|]. intros g. apply handed_out_mono.
        -- now rewrite Hf.
        -- intros c j _. now rewrite Hj.
Qed.

Lemma exec_sound (cfg : bool) (ops : list (Op T C)) p : sound p -> sound (exec cfg ops p).
Proof.
  revert p; induction ops as [|op ops IH]; intros p H; cbn; [exact H|].
  apply IH, step_sound, H.
Qed.

Lemma start_sound (c : C) : sound (start (T := T) c).
Proof.
  split; [split|].
  - intros n ch. cbn. rewrite lookup_empty. discriminate.
  - intros ch [j Hj]. cbn in Hj. rewrite lookup_empty in Hj. discriminate.
  - constructor.
Qed.

(** A closed handle below the fresh one stays closed and below it. *)
Lemma step_keeps_closed (cfg : bool) p op (ch : nat) :
  sound p -> (ch < fresh (world p))%nat -> joined (world p) !! ch = None ->
  (ch < fresh (world (step cfg p op)))%nat /\ joined (world (step cfg p op)) !! ch = None.
Proof.
  intros [[Hreg Hlt] Hret] Hch Hclosed.
  destruct (channelName op) as [name|] eqn:Hname.
  - destruct cfg.
    + destruct (subscribe_world p op name Hname) as (j & _ & _ & Hjn & Hf & _).
      rewrite Hf, Hjn. split; [lia|]. rewrite lookup_insert_ne by lia. exact Hclosed.
    + destruct (unconfigured_subscribe_world p op name Hname) as (-> & _). auto.
  - destruct op as [cb|cb u|cb u|k| |c payload]; try discriminate Hname; cbn [step world].
    + destruct (returned p !! k) as [f|] eqn:Hk; [|auto].
      pose proof (Forall_lookup_1 _ _ _ _ Hret Hk) as [Hid | (c & name & Hf & _)].
      * rewrite Hid. auto.
      * rewrite Hf. cbn [world]. split; [exact Hch|]. rewrite teardown_joined.
        destruct (decide (c = ch)) as [-> | Hne]; [apply lookup_delete_eq|].
        now rewrite lookup_delete_ne by exact Hne.
    + rewrite unsubscribeAll_fresh. split; [exact Hch|].
      destruct (joined (unsubscribeAll (world p)) !! ch) as [j|] eqn:Hj; [|reflexivity].
      apply unsubscribeAll_joined_sub in Hj. congruence.
    + destruct (notify_same c payload (world p)) as (_ & -> & ->). auto.
Qed.

Lemma exec_keeps_closed (cfg : bool) (ops : list (Op T C)) p (ch : nat) :
  sound p -> (ch < fresh (world p))%nat -> joined (world p) !! ch = None ->
  joined (world (exec cfg ops p)) !! ch = None.
Proof.
  revert p; induction ops as [|op ops IH]; intros p Hs Hch Hclosed; cbn; [exact Hclosed|].
  destruct (step_keeps_closed cfg p op ch Hs Hch Hclosed) as [H1 H2].
  apply IH; [apply step_sound, Hs | exact H1 | exact H2].
Qed.

Lemma exec_app (cfg : bool) (ops1 ops2 : list (Op T C)) p :
  exec cfg (ops1 ++ ops2) p = exec cfg ops2 (exec cfg ops1 p).
Proof. unfold exec. apply fold_left_app. Qed.

(** Subscribe calls with pairwise different registry keys leave every open
    channel registered. *)
Lemma subscribes_all_registered (ops : list (Op T C)) (c : C) :
  Forall (fun op => is_Some (channelName op)) ops ->
  NoDup (omap channelName ops) ->
  all_registered (omap channelName ops) (world (exec true ops (start c))).
Proof.
  induction ops as [|op ops IH] using rev_ind; intros Hsub Hnd.
  - split.
    + intros ch j. cbn. rewrite lookup_empty. discriminate.
    + intros ch [j Hj]. cbn in Hj. rewrite lookup_empty in Hj. discriminate.
  - apply Forall_app in Hsub as [Hsub Hop].
    apply Forall_cons in Hop as [[name Hname] _].
    assert (Hone : omap channelName [op] = [name]) by (cbn; now rewrite Hname).
    rewrite omap_app, Hone in Hnd |- *.
    apply NoDup_app in Hnd as (Hnd & Hfresh & _).
    specialize (IH Hsub Hnd). destruct IH as [Hreg Hlt].
    rewrite exec_app. set (p := exec true ops (start c)) in *.
    change (exec true [op] p) with (step true p op).
    destruct (subscribe_world p op name Hname) as (j & Hj & Hc & Hjn & Hf & _).
    split.
    + intros ch j'. rewrite Hjn, Hc.
      destruct (decide (ch = fresh (world p))) as [-> | Hne].
      * rewrite lookup_insert_eq. intros [= <-]. rewrite Hj, lookup_insert_eq.
        split; [reflexivity|]. apply elem_of_app. right. now left.
      * rewrite lookup_insert_ne by congruence. intros Hch.
        destruct (Hreg ch j' Hch) as [Hr Hu]. split.
        -- rewrite lookup_insert_ne; [exact Hr|].
           intros Heq. apply (Hfresh name); [rewrite Heq; exact Hu | now left].
        -- apply elem_of_app. now left.
    + intros ch. rewrite Hjn, Hf. destruct (decide (ch = fresh (world p))) as [-> | Hne].
      * lia.
      * rewrite lookup_insert_ne by congruence. intros H. apply Hlt in H. lia.
Qed.

Lemma unsubscribeAll_all_registered (used : list string) w :
  all_registered used w -> joined (unsubscribeAll w) = ∅.
Proof.
  intros [Hreg _]. apply map_eq. intros ch. rewrite lookup_empty.
  destruct (joined (unsubscribeAll w) !! ch) as [j|] eqn:Hj; [|reflexivity].
  apply unsubscribeAll_joined_sub in Hj as Hj'.
  destruct (Hreg ch j Hj') as [Hr _].
  rewrite (unsubscribeAll_closes_registered w _ ch Hr) in Hj. discriminate.
Qed.

End RegistryHistories.

(** Over any history, in either mode, every handle in the registry is an
    open channel of the topic it is registered under, and every open channel
    has a handle below the next fresh one. *)
Theorem registry_holds_open_channels_of_its_keys :
  forall (T C : Type) (isSupabaseConfigured : bool) (ops : list (RealtimeDb.Op T C)) (c : C),
    let w := RealtimeDb.world (RealtimeDb.exec isSupabaseConfigured ops (RealtimeDb.start c)) in
    (forall (name : string) (ch : nat),
       RealtimeDb.channels w !! name = Some ch ->
       exists j, RealtimeDb.joined w !! ch = Some j /\ RealtimeDb.topic T C j = name) /\
    (forall ch : nat,
       is_Some (RealtimeDb.joined w !! ch) -> (ch < RealtimeDb.fresh w)%nat).
Proof.
  intros T C cfg ops c w.
  destruct (exec_sound cfg ops (RealtimeDb.start c) (start_sound c)) as [H _]. exact H.
Qed.

(** A channel that has been closed is never open again: whatever happens
    later, its handle stays closed, and a change pushed on it reaches no
    callback. *)
Theorem closed_channels_stay_closed :
  forall (T C : Type) (isSupabaseConfigured : bool) (ops1 ops2 : list (RealtimeDb.Op T C))
         (c : C) (ch : nat) (payload : RealtimeDb.Payload T),
    let p1 := RealtimeDb.exec isSupabaseConfigured ops1 (RealtimeDb.start c) in
    let w2 := RealtimeDb.world (RealtimeDb.exec isSupabaseConfigured ops2 p1) in
    (ch < RealtimeDb.fresh (RealtimeDb.world p1))%nat ->
    RealtimeDb.joined (RealtimeDb.world p1) !! ch = None ->
    RealtimeDb.joined w2 !! ch = None /\ RealtimeDb.notify ch payload w2 = w2.
Proof.
  intros T C cfg ops1 ops2 c ch payload p1 w2 Hch Hclosed.
  assert (H : RealtimeDb.joined w2 !! ch = None).
  { apply exec_keeps_closed; [|exact Hch | exact Hclosed].
    apply exec_sound, start_sound. }
  split; [exact H|]. unfold RealtimeDb.notify. now rewrite H.
Qed.

Lemma closed_channels_stay_closed_witness :
  let payload : RealtimeDb.Payload unit :=
    {| RealtimeDb.eventType := RealtimeDb.INSERT;
       RealtimeDb.new := Some tt; RealtimeDb.old := None |} in
  let p1 := RealtimeDb.exec true
              [RealtimeDb.SubscribeToProducts Samples.counting; RealtimeDb.Unsubscribe 0%nat]
              (RealtimeDb.start 0%nat) in
  let w2 := RealtimeDb.world
              (RealtimeDb.exec true
                 [RealtimeDb.SubscribeToProducts Samples.counting;
                  RealtimeDb.Notify 0%nat payload] p1) in
  RealtimeDb.joined w2 !! 0%nat = None /\ RealtimeDb.notify 0%nat payload w2 = w2.
Proof.
  intros payload.
  apply (closed_channels_stay_closed unit nat true
           [RealtimeDb.SubscribeToProducts Samples.counting; RealtimeDb.Unsubscribe 0%nat]
           [RealtimeDb.SubscribeToProducts Samples.counting; RealtimeDb.Notify 0%nat payload]
           0%nat 0%nat payload).
  - cbn. lia.
  - cbn. apply lookup_delete_eq.
Defined.

(** After subscribe calls with pairwise different registry keys,
    [unsubscribeAll] leaves no channel open and the registry empty. *)
Theorem unsubscribeAll_closes_everything_under_distinct_keys :
  forall (T C : Type) (ops : list (RealtimeDb.Op T C)) (c : C),
    Forall (fun op => is_Some (Registry.channelName op)) ops ->
    NoDup (omap Registry.channelName ops) ->
    let w := RealtimeDb.world
               (RealtimeDb.exec true (ops ++ [RealtimeDb.UnsubscribeAll])
                  (RealtimeDb.start c)) in
    RealtimeDb.joined w = ∅ /\ RealtimeDb.channels w = ∅.
Proof.
  intros T C ops c Hsub Hnd w. unfold w. rewrite exec_app.
  cbn [RealtimeDb.exec fold_left RealtimeDb.step RealtimeDb.world].
  split; [|reflexivity].
  eapply unsubscribeAll_all_registered, subscribes_all_registered; eassumption.
Qed.

Lemma unsubscribeAll_closes_everything_under_distinct_keys_witness :
  let ops : list (RealtimeDb.Op unit nat) :=
    [RealtimeDb.SubscribeToProducts Samples.counting;
     RealtimeDb.SubscribeToOrders Samples.counting (Some "u1");
     RealtimeDb.SubscribeToOrders Samples.counting None;
     RealtimeDb.SubscribeToInquiries Samples.counting (Some "u1")] in
  let w := RealtimeDb.world
             (RealtimeDb.exec true (ops ++ [RealtimeDb.UnsubscribeAll])
                (RealtimeDb.start 0%nat)) in
  RealtimeDb.joined w = ∅ /\ RealtimeDb.channels w = ∅.
Proof.
  intros ops.
  apply (unsubscribeAll_closes_everything_under_distinct_keys unit nat ops 0%nat).
  - repeat constructor; eexists; reflexivity.
  - cbn.
    repeat (apply NoDup_cons_2;
            [rewrite ?elem_of_cons, ?elem_of_nil; intuition discriminate|]).
    apply NoDup_nil_2.
Defined.

(** The unsubscribe function a configured subscribe call returns closes the
    channel that call opened and removes the registry entry of its key,
    whenever it is called and whatever else has happened; it leaves every
    other channel and entry, the handle counter and the consumers' state as
    they are, and calling it a second time changes nothing. *)
Theorem unsubscribe_closes_its_own_channel :
  forall (T C : Type) (op : RealtimeDb.Op T C) (name : string)
         (p : RealtimeDb.Process T C) (w' : RealtimeDb.World T C),
    Registry.channelName op = Some name ->
    exists unsubscribe,
      RealtimeDb.returned (RealtimeDb.step true p op)
      = (RealtimeDb.returned p ++ [unsubscribe])%list /\
      is_Some (RealtimeDb.joined (RealtimeDb.world (RealtimeDb.step true p op))
                 !! RealtimeDb.fresh (RealtimeDb.world p)) /\
      RealtimeDb.joined (unsubscribe w')
      = delete (RealtimeDb.fresh (RealtimeDb.world p)) (RealtimeDb.joined w') /\
      RealtimeDb.channels (unsubscribe w') = delete name (RealtimeDb.channels w') /\
      RealtimeDb.fresh (unsubscribe w') = RealtimeDb.fresh w' /\
      RealtimeDb.view (unsubscribe w') = RealtimeDb.view w' /\
      unsubscribe (unsubscribe w') = unsubscribe w'.
Proof.
  intros T C op name p w' Hname.
  destruct (subscribe_world p op name Hname) as (j & _ & _ & Hjn & _ & _ & Hr).
  exists (Registry.teardown (RealtimeDb.fresh (RealtimeDb.world p)) name).
  split; [exact Hr|]. split; [rewrite Hjn, lookup_insert_eq; eauto|].
  split; [reflexivity|]. split; [reflexivity|]. split; [reflexivity|].
  split; [reflexivity|].
  unfold Registry.teardown, RealtimeDb.channels_delete, RealtimeDb.channel_unsubscribe.
  cbn. now rewrite !delete_delete_eq.
Qed.

Lemma unsubscribe_closes_its_own_channel_witness :
  exists unsubscribe : RealtimeDb.World unit nat -> RealtimeDb.World unit nat,
    RealtimeDb.returned
      (RealtimeDb.step true (RealtimeDb.start 0%nat)
         (RealtimeDb.SubscribeToOrders Samples.counting (Some "u1")))
    = [unsubscribe] /\
    RealtimeDb.channels
      (unsubscribe
         (RealtimeDb.world
            (RealtimeDb.step true (RealtimeDb.start 0%nat)
               (RealtimeDb.SubscribeToOrders Samples.counting (Some "u1")))))
    = delete "orders_u1" (<["orders_u1" := 0%nat]> ∅).
Proof.
  destruct (unsubscribe_closes_its_own_channel unit nat
              (RealtimeDb.SubscribeToOrders Samples.counting (Some "u1")) "orders_u1"
              (RealtimeDb.start 0%nat)
              (RealtimeDb.world
                 (RealtimeDb.step true (RealtimeDb.start 0%nat)
                    (RealtimeDb.SubscribeToOrders Samples.counting (Some "u1")))))
    as (unsubscribe & Hr & _ & _ & Hc & _).
  - reflexivity.
  - exists unsubscribe. split; [exact Hr | exact Hc].
Defined.

(** ** The catalogue under notifications and filters *)

Section CatalogueFacts.

Import RealtimeDb ProductsPage Catalogue.

Local Open Scope list_scope.

Lemma ids_filter (i : string) (prev : list Product.t) :
  ids (List.filter (fun p => negb (String.eqb (Product.id p) i)) prev)
  = List.filter (fun j => negb (String.eqb j i)) (ids prev).
Proof.
  unfold ids. induction prev as [|p prev IH]; [reflexivity|].
  cbn [List.filter map]. destruct (negb (String.eqb (Product.id p) i)); cbn [map]; now rewrite IH.
Qed.

Lemma ids_replace (row : Product.t) (prev : list Product.t) :
  ids (map (fun p => if String.eqb (Product.id p) (Product.id row) then row else p) prev)
  = ids prev.
Proof.
  unfold ids. induction prev as [|p prev IH]; [reflexivity|].
  cbn [map]. rewrite IH. f_equal.
  destruct (String.eqb (Product.id p) (Product.id row)) eqn:H; [|reflexivity].
  now apply String.eqb_eq in H.
Qed.

Lemma includes_empty (s : string) : includes s "" = true.
Proof. destruct s; reflexivity. Qed.

Lemma keeps_cases (q b c : string) (p : Product.t) :
  keeps q b c p = if breaks_search q p then TypeError else Value (shown q b c p).
Proof.
  unfold keeps, matchesSearch, breaks_search, shown.
  destruct (Product.is_active p); cbn [negb andb]; [|reflexivity].
  destruct (includes (JsString.toLowerCase (Product.name p)) (JsString.toLowerCase q));
    cbn [negb andb orb]; [reflexivity|].
  destruct (includes (JsString.toLowerCase (Product.brand p)) (JsString.toLowerCase q));
    cbn [negb andb orb]; [reflexivity|].
  destruct (Product.description p); reflexivity.
Qed.

Lemma filter_throwing_cases {A : Type} (f : A -> Evaluated bool) (broken : A -> bool)
    (kept : A -> bool) (l : list A) :
  (forall x, f x = if broken x then TypeError else Value (kept x)) ->
  filter_throwing f l
  = if existsb broken l then TypeError else Value (List.filter kept l).
Proof.
  intros Hf. induction l as [|x l IH]; [reflexivity|].
  cbn [filter_throwing existsb List.filter]. rewrite Hf, IH.
  destruct (broken x); cbn [orb]; [reflexivity|].
  destruct (existsb broken l); reflexivity.
Qed.

End CatalogueFacts.

(** On the ids of the list: an INSERT puts the row's id in front, whether or
    not it is already listed; an UPDATE leaves the ids and their order as they
    are; a DELETE removes every occurrence of the id.  A notification without
    the image it needs (an INSERT or an UPDATE without the new row, a DELETE
    without the old one) changes nothing, whatever its other image is. *)
Theorem notifications_on_the_listed_ids :
  forall (prev : list RealtimeDb.Product.t) (row : RealtimeDb.Product.t)
         (image : option RealtimeDb.Product.t),
    Catalogue.ids
      (Products.onProductChange
         {| RealtimeDb.eventType := RealtimeDb.INSERT;
            RealtimeDb.new := Some row; RealtimeDb.old := image |} prev)
    = RealtimeDb.Product.id row :: Catalogue.ids prev /\
    Catalogue.ids
      (Products.onProductChange
         {| RealtimeDb.eventType := RealtimeDb.UPDATE;
            RealtimeDb.new := Some row; RealtimeDb.old := image |} prev)
    = Catalogue.ids prev /\
    Catalogue.ids
      (Products.onProductChange
         {| RealtimeDb.eventType := RealtimeDb.DELETE;
            RealtimeDb.new := image; RealtimeDb.old := Some row |} prev)
    = List.filter (fun i => negb (String.eqb i (RealtimeDb.Product.id row)))
        (Catalogue.ids prev) /\
    Products.onProductChange
      {| RealtimeDb.eventType := RealtimeDb.INSERT;
         RealtimeDb.new := None; RealtimeDb.old := image |} prev
    = prev /\
    Products.onProductChange
      {| RealtimeDb.eventType := RealtimeDb.UPDATE;
         RealtimeDb.new := None; RealtimeDb.old := image |} prev
    = prev /\
    Products.onProductChange
      {| RealtimeDb.eventType := RealtimeDb.DELETE;
         RealtimeDb.new := image; RealtimeDb.old := None |} prev
    = prev.
Proof.
  intros prev row image. unfold Products.onProductChange.
  cbn [RealtimeDb.eventType RealtimeDb.new RealtimeDb.old].
  split; [reflexivity|]. split; [apply ids_replace|]. split; [apply ids_filter|].
  split; [reflexivity|]. split; [reflexivity|]. now destruct image.
Qed.

(** A list with pairwise distinct ids keeps them distinct under an UPDATE
    and under a DELETE; under an INSERT it does exactly when the row's id is
    not yet listed: the handler does not remove duplicates. *)
Theorem distinct_ids_survive_all_but_a_repeated_insert :
  forall (prev : list RealtimeDb.Product.t) (row : RealtimeDb.Product.t)
         (image : option RealtimeDb.Product.t),
    NoDup (Catalogue.ids prev) ->
    (NoDup (Catalogue.ids
              (Products.onProductChange
                 {| RealtimeDb.eventType := RealtimeDb.INSERT;
                    RealtimeDb.new := Some row; RealtimeDb.old := image |} prev))
     <-> RealtimeDb.Product.id row ∉ Catalogue.ids prev) /\
    NoDup (Catalogue.ids
             (Products.onProductChange
                {| RealtimeDb.eventType := RealtimeDb.UPDATE;
                   RealtimeDb.new := Some row; RealtimeDb.old := image |} prev)) /\
    NoDup (Catalogue.ids
             (Products.onProductChange
                {| RealtimeDb.eventType := RealtimeDb.DELETE;
                   RealtimeDb.new := image; RealtimeDb.old := Some row |} prev)).
Proof.
  intros prev row image Hnd. unfold Products.onProductChange.
  cbn [RealtimeDb.eventType RealtimeDb.new RealtimeDb.old].
  split; [|split].
  - change (Catalogue.ids (row :: prev))
      with (RealtimeDb.Product.id row :: Catalogue.ids prev).
    rewrite NoDup_cons. tauto.
  - now rewrite ids_replace.
  - rewrite ids_filter. apply NoDup_ListNoDup, List.NoDup_filter, NoDup_ListNoDup, Hnd.
Qed.

Lemma distinct_ids_survive_all_but_a_repeated_insert_witness :
  let prev := [Samples.wire "p1" "FR PVC Insulated Wire 1.5 sq mm";
               Samples.wire "p2" "HRFR Cable 4 sq mm"] in
  ~ NoDup (Catalogue.ids
             (Products.onProductChange
                {| RealtimeDb.eventType := RealtimeDb.INSERT;
                   RealtimeDb.new := Some (Samples.wire "p2" "HRFR Cable 4 sq mm");
                   RealtimeDb.old := None |} prev)) /\
  NoDup (Catalogue.ids
           (Products.onProductChange
              {| RealtimeDb.eventType := RealtimeDb.DELETE;
                 RealtimeDb.new := None;
                 RealtimeDb.old := Some (Samples.wire "p2" "") |} prev)).
Proof.
  intros prev.
  destruct (distinct_ids_survive_all_but_a_repeated_insert prev
              (Samples.wire "p2" "HRFR Cable 4 sq mm") None) as (Hins & _ & _).
  { cbn. repeat (apply NoDup_cons_2;
                 [rewrite ?elem_of_cons, ?elem_of_nil; intuition discriminate|]).
    apply NoDup_nil_2. }
  destruct (distinct_ids_survive_all_but_a_repeated_insert prev
              (Samples.wire "p2" "") None) as (_ & _ & Hdel).
  { cbn. repeat (apply NoDup_cons_2;
                 [rewrite ?elem_of_cons, ?elem_of_nil; intuition discriminate|]).
    apply NoDup_nil_2. }
  split; [|exact Hdel].
  intros H. apply Hins in H. apply H. cbn. rewrite !elem_of_cons. auto.
Defined.

(** [filteredProducts] throws exactly when the list holds an active product
    without description whose name and brand do not contain the query (case
    ignored); otherwise it is the list of the active products that contain
    the query in name, brand or description and have the selected brand and
    category, in their order. *)
Theorem filteredProducts_throws_or_filters :
  forall (products : list RealtimeDb.Product.t)
         (searchQuery selectedBrand selectedCategory : string),
    ProductsPage.filteredProducts products searchQuery selectedBrand selectedCategory
    = if existsb (Catalogue.breaks_search searchQuery) products
      then ProductsPage.TypeError
      else ProductsPage.Value
             (List.filter (Catalogue.shown searchQuery selectedBrand selectedCategory)
                products).
Proof.
  intros products q b c. unfold ProductsPage.filteredProducts.
  apply filter_throwing_cases. intros p. apply keeps_cases.
Qed.

(** With an empty search box [filteredProducts] never throws: it is the list
    of the active products of the selected brand and category. *)
Theorem filteredProducts_with_empty_query :
  forall (products : list RealtimeDb.Product.t) (selectedBrand selectedCategory : string),
    ProductsPage.filteredProducts products "" selectedBrand selectedCategory
    = ProductsPage.Value
        (List.filter
           (fun p =>
              RealtimeDb.Product.is_active p &&
              (String.eqb selectedBrand "all"
               || String.eqb (RealtimeDb.Product.brand p) selectedBrand) &&
              (String.eqb selectedCategory "all"
               || String.eqb (RealtimeDb.Product.category p) selectedCategory))
           products).
Proof.
  intros products b c. unfold ProductsPage.filteredProducts.
  rewrite (filter_throwing_cases _ (fun _ => false)
             (fun p =>
                RealtimeDb.Product.is_active p &&
                (String.eqb b "all" || String.eqb (RealtimeDb.Product.brand p) b) &&
                (String.eqb c "all" || String.eqb (RealtimeDb.Product.category p) c))).
  - assert (H : existsb (fun _ : RealtimeDb.Product.t => false) products = false)
      by (induction products; auto).
    now rewrite H.
  - intros p. unfold ProductsPage.keeps, ProductsPage.matchesSearch.
    change (JsString.toLowerCase "") with "".
    rewrite includes_empty.
    destruct (RealtimeDb.Product.is_active p); reflexivity.
Qed.

(* ===================================================================== *)
(** ** The owner's login *)
(* ===================================================================== *)

Section OwnerLogin.

Import OwnerAuth OwnerSession.

Lemma flag_set_signed_in (st : State) : flag_set (localStorage (signed_in st)) = true.
Proof.
  unfold flag_set, signed_in; cbn [localStorage].
  now rewrite lookup_insert_eq.
Qed.

Lemma flag_set_signed_off (st : State) : flag_set (localStorage (signed_off st)) = false.
Proof.
  unfold flag_set, signed_off; cbn [localStorage].
  now rewrite lookup_delete_eq.
Qed.

Lemma login_cases (cfg : bool) (signIn : SignIn) (email password : string) (st : State) :
  (owner_credentials email password /\ sign_in_passes cfg signIn
   /\ result (login cfg signIn email password st) = true
   /\ state (login cfg signIn email password st) = signed_in st)
  \/ (~ (owner_credentials email password /\ sign_in_passes cfg signIn)
      /\ result (login cfg signIn email password st) = false
      /\ state (login cfg signIn email password st) = st
      /\ exists m, toasts (login cfg signIn email password st) = [ToastError m]).
Proof.
  unfold login, owner_credentials, sign_in_passes.
  destruct (String.eqb_spec (JsString.toLowerCase (JsString.trim email)) OWNER_EMAIL) as [He|He];
    destruct (String.eqb_spec (JsString.trim password) OWNER_PASSWORD) as [Hp|Hp];
    cbn [negb orb].
  - destruct cfg.
    + destruct signIn; cbn [state result toasts].
      * left; auto.
      * right; conjuncts; eauto. intros (_ & H); specialize (H eq_refl); discriminate.
      * right; conjuncts; eauto. intros (_ & H); specialize (H eq_refl); discriminate.
    + left; cbn [state result toasts]; conjuncts; auto. discriminate.
  - right; cbn [state result toasts]; conjuncts; eauto. tauto.
  - right; cbn [state result toasts]; conjuncts; eauto. tauto.
  - right; cbn [state result toasts]; conjuncts; eauto. tauto.
Qed.

Lemma act_mirrors (cfg : bool) (st : State) (a : Action) :
  isAuthenticated st = flag_set (localStorage st) ->
  isAuthenticated (act cfg st a) = flag_set (localStorage (act cfg st a)).
Proof.
  intros Hst. destruct a as [signIn email password| |session]; cbn [act].
  - destruct (login_cases cfg signIn email password st) as [(_ & _ & _ & ->)|(_ & _ & -> & _)].
    + now rewrite flag_set_signed_in.
    + exact Hst.
  - unfold logout. now rewrite flag_set_signed_off.
  - unfold checkSession. destruct cfg; cbn [negb]; [|exact Hst].
    destruct (flag_set (localStorage st)) eqn:Hflag; [|now rewrite Hflag].
    destruct session; cbn [negb]; [now rewrite Hflag|].
    now rewrite flag_set_signed_off.
Qed.

End OwnerLogin.

(** [login] returns [true] exactly when the email, trimmed and lower-cased,
    and the password, trimmed, are the owner's and the anonymous sign-in,
    where the backend is configured, resolves without an error.  It then
    marks the owner as signed in; in every other case it leaves the state and
    the storage as they were and shows one error toast. *)
Theorem owner_login_needs_the_owner_credentials
    (isSupabaseConfigured : bool) (signIn : OwnerAuth.SignIn) (email password : string)
    (st : OwnerAuth.State) :
  (OwnerAuth.result (OwnerAuth.login isSupabaseConfigured signIn email password st) = true
   <-> OwnerSession.owner_credentials email password
       /\ OwnerSession.sign_in_passes isSupabaseConfigured signIn)
  /\ (OwnerAuth.result (OwnerAuth.login isSupabaseConfigured signIn email password st) = true
      /\ OwnerAuth.state (OwnerAuth.login isSupabaseConfigured signIn email password st)
         = OwnerAuth.signed_in st
      \/ OwnerAuth.result (OwnerAuth.login isSupabaseConfigured signIn email password st) = false
         /\ OwnerAuth.state (OwnerAuth.login isSupabaseConfigured signIn email password st) = st
         /\ exists m,
              OwnerAuth.toasts (OwnerAuth.login isSupabaseConfigured signIn email password st)
              = [OwnerAuth.ToastError m]).
Proof.
  destruct (login_cases isSupabaseConfigured signIn email password st)
    as [(Hc & Hs & Hr & Hst)|(Hn & Hr & Hst & Ht)].
  - split; [split; auto|left; auto].
  - split; [|right; auto].
    split; [rewrite Hr; discriminate|intros H; now destruct Hn].
Qed.

(** Whatever the sequence of logins, logouts and session checks since the
    provider was mounted, [isAuthenticated] is true exactly when the storage
    holds ["true"] under the owner's key. *)
Theorem owner_flag_mirrors_the_storage
    (isSupabaseConfigured : bool) (storage : gmap string string)
    (actions : list OwnerSession.Action) :
  OwnerAuth.isAuthenticated (OwnerSession.after isSupabaseConfigured storage actions)
  = OwnerAuth.flag_set
      (OwnerAuth.localStorage (OwnerSession.after isSupabaseConfigured storage actions)).
Proof.
  unfold OwnerSession.after.
  assert (H0 : OwnerAuth.isAuthenticated (OwnerAuth.initial storage)
               = OwnerAuth.flag_set (OwnerAuth.localStorage (OwnerAuth.initial storage)))
    by reflexivity.
  revert H0. generalize (OwnerAuth.initial storage) as st.
  induction actions as [|a actions IH]; intros st Hst; cbn [fold_left]; [exact Hst|].
  apply IH, act_mirrors, Hst.
Qed.

(* ===================================================================== *)
(** ** The product form of the dashboard *)
(* ===================================================================== *)

Section FormFacts.

Import RealtimeDb ProductsManagement Form.

Lemma split_not_nil (sep : ascii) (s : string) : split sep s <> [].
Proof.
  destruct s as [|c s]; cbn [split]; [discriminate|].
  destruct (Ascii.eqb c sep); [discriminate|].
  destruct (split sep s); discriminate.
Qed.

Lemma split_comma_free (s : string) : comma_free s = true -> split ","%char s = [s].
Proof.
  unfold comma_free. induction s as [|c s IH]; cbn [list_ascii_of_string forallb split]; [easy|].
  intros [Hc Hs]%andb_prop. apply negb_true_iff in Hc. rewrite Hc, (IH Hs). reflexivity.
Qed.

Lemma split_comma_app (s rest : string) :
  comma_free s = true ->
  split ","%char (String.append s (String ","%char rest)) = s :: split ","%char rest.
Proof.
  unfold comma_free. induction s as [|c s IH]; cbn [list_ascii_of_string forallb split String.append].
  - intros _. reflexivity.
  - intros [Hc Hs]%andb_prop. apply negb_true_iff in Hc.
    change (String.append (String c s) (String ","%char rest))
      with (String c (String.append s (String ","%char rest))).
    cbn [split]. rewrite Hc, (IH Hs). reflexivity.
Qed.

Lemma trim_after_space (p : string) : JsString.trim (String " "%char p) = JsString.trim p.
Proof. reflexivity. Qed.

Lemma map_trim_split_space (s : string) :
  map JsString.trim (split ","%char (String " "%char s))
  = map JsString.trim (split ","%char s).
Proof.
  cbn [split]. change (Ascii.eqb " "%char ","%char) with false. cbv iota.
  destruct (split ","%char s) as [|p ps] eqn:Hs; [now apply split_not_nil in Hs|].
  cbn [map]. now rewrite trim_after_space.
Qed.

Lemma nonempty_true (s : string) : s <> "" -> nonempty s = true.
Proof.
  intros Hs. unfold nonempty. now destruct (String.eqb_spec s "").
Qed.

Lemma parseColors_join (colors : list string) :
  Forall plain colors -> parseColors (join ", " colors) = colors.
Proof.
  unfold parseColors, join.
  induction colors as [|c colors IH]; intros Hall; [reflexivity|].
  apply Forall_cons in Hall as [(Hfree & Htrim & Hne) Hall].
  destruct colors as [|c' colors].
  - cbn [String.concat]. rewrite (split_comma_free _ Hfree). cbn [map List.filter].
    now rewrite Htrim, (nonempty_true _ Hne).
  - change (String.concat ", " (c :: c' :: colors))
      with (String.append c (String ","%char (String " "%char (String.concat ", " (c' :: colors))))).
    rewrite (split_comma_app _ _ Hfree). cbn [map List.filter].
    rewrite Htrim, (nonempty_true _ Hne), map_trim_split_space.
    f_equal. exact (IH Hall).
Qed.

Section Submit.

Variable JSON_parse : string -> option Json.
Variable parseFloat : string -> option number.
Variable parseInt : string -> option Z.
Variables brands categories : list string.
Variable isSupabaseConfigured : bool.
Variable supabase : Store.

Lemma complete_cases (f : ProductFormState) :
  (complete f
   /\ negb (nonempty (name f)) || negb (nonempty (brand f))
      || negb (nonempty (category f)) || negb (nonempty (base_price f)) = false)
  \/ (~ complete f
      /\ negb (nonempty (name f)) || negb (nonempty (brand f))
         || negb (nonempty (category f)) || negb (nonempty (base_price f)) = true).
Proof.
  unfold complete, nonempty.
  destruct (String.eqb_spec (name f) ""), (String.eqb_spec (brand f) ""),
    (String.eqb_spec (category f) ""), (String.eqb_spec (base_price f) "");
    cbn [negb orb]; tauto.
Qed.

(** The ways [handleSubmit] ends. *)
Lemma handleSubmit_cases (st : State) :
  (~ complete (formData st)
   /\ handleSubmit JSON_parse parseFloat parseInt brands categories isSupabaseConfigured
        supabase st = toast (ToastError "Please fill in all required fields") st)
  \/ (complete (formData st)
      /\ exists m, handleSubmit JSON_parse parseFloat parseInt brands categories isSupabaseConfigured
        supabase st = setIsSaving false (toast (ToastError m) st))
  \/ (complete (formData st)
      /\ exists m, handleSubmit JSON_parse parseFloat parseInt brands categories isSupabaseConfigured
        supabase st
           = setIsSaving false
               (setDialog false (emptyForm brands categories) None
                  (toast (ToastSuccess m) st))).
Proof.
  unfold handleSubmit.
  destruct (complete_cases (formData st)) as [(Hc & ->)|(Hc & ->)]; [|left; auto].
  right.
  destruct (if nonempty (specifications (formData st))
            then JSON_parse (specifications (formData st))
            else Some (JObject [])) as [specs|]; [|left; eauto].
  destruct (editingProduct st) as [editing|]; cbn [fst snd].
  - destruct (completion (updateProduct _ _ _ _)); [right|left]; eauto.
  - destruct (completion (createProduct _ _ _)); [right|left]; eauto.
Qed.

End Submit.

End FormFacts.

(** Opening a product in the edit dialog and submitting it with the colour
    field untouched sends the product's own colours, provided each of them
    is free of commas and of surrounding white space and is not empty. *)
Theorem edited_colours_are_sent_back
    (JSON_stringify : RealtimeDb.Json -> string)
    (number_toString : RealtimeDb.number -> string)
    (parseFloat : string -> option RealtimeDb.number) (parseInt : string -> option Z)
    (product : RealtimeDb.Product.t) (specs : RealtimeDb.Json)
    (st : ProductsManagement.State) :
  Forall Form.plain (RealtimeDb.Product.color product) ->
  Facade.field "color"
    (ProductsManagement.productData parseFloat parseInt
       (ProductsManagement.formData
          (ProductsManagement.handleEdit JSON_stringify number_toString product st))
       specs)
  = Some (RealtimeDb.JArray (map RealtimeDb.JString (RealtimeDb.Product.color product))).
Proof.
  intros Hplain.
  unfold ProductsManagement.handleEdit, ProductsManagement.setDialog,
    ProductsManagement.productData.
  cbn [ProductsManagement.formData ProductsManagement.color Facade.field].
  change (String.eqb "name" "color") with false.
  change (String.eqb "brand" "color") with false.
  change (String.eqb "category" "color") with false.
  change (String.eqb "color" "color") with true.
  cbv iota. now rewrite parseColors_join.
Qed.

Lemma edited_colours_are_sent_back_witness :
  Forall Form.plain (RealtimeDb.Product.color (Samples.wire "p1" "FR wire"))
  /\ Facade.field "color"
       (ProductsManagement.productData (fun _ => None) (fun _ => None)
          (ProductsManagement.formData
             (ProductsManagement.handleEdit (fun _ => "{}") (fun _ => "1")
                (Samples.wire "p1" "FR wire")
                {| ProductsManagement.products := [];
                   ProductsManagement.isLoading := false;
                   ProductsManagement.formData := ProductsManagement.emptyForm [] [];
                   ProductsManagement.editingProduct := None;
                   ProductsManagement.isDialogOpen := false;
                   ProductsManagement.isSaving := false;
                   ProductsManagement.toasts := [] |}))
          (RealtimeDb.JObject []))
     = Some (RealtimeDb.JArray [RealtimeDb.JString "Red"; RealtimeDb.JString "Blue"]).
Proof.
  assert (H : Forall Form.plain (RealtimeDb.Product.color (Samples.wire "p1" "FR wire"))).
  { repeat constructor; try reflexivity; discriminate. }
  split; [exact H|].
  exact (edited_colours_are_sent_back (fun _ => "{}") (fun _ => "1") (fun _ => None)
           (fun _ => None) (Samples.wire "p1" "FR wire") (RealtimeDb.JObject []) _ H).
Defined.

(** [handleSubmit] shows exactly one toast and never touches the product
    list.  Only after a success toast is the dialog closed, the form reset
    and the edited product forgotten; after an error toast the dialog, the
    form and the edited product are as they were, so that nothing typed is
    lost.  [isSaving] ends [false], except that an incomplete form leaves it
    as it was. *)
Theorem handleSubmit_keeps_the_form_unless_saved
    (JSON_parse : string -> option RealtimeDb.Json)
    (parseFloat : string -> option RealtimeDb.number) (parseInt : string -> option Z)
    (brands categories : list string) (isSupabaseConfigured : bool)
    (supabase : RealtimeDb.Store) (st : ProductsManagement.State) :
  exists t,
    ProductsManagement.toasts
      (ProductsManagement.handleSubmit JSON_parse parseFloat parseInt brands categories
         isSupabaseConfigured supabase st)
    = (ProductsManagement.toasts st ++ [t])%list
    /\ ProductsManagement.products
         (ProductsManagement.handleSubmit JSON_parse parseFloat parseInt brands categories
            isSupabaseConfigured supabase st)
       = ProductsManagement.products st
    /\ match t with
       | ProductsManagement.ToastSuccess _ =>
           Form.dialog
             (ProductsManagement.handleSubmit JSON_parse parseFloat parseInt brands
                categories isSupabaseConfigured supabase st)
           = (ProductsManagement.emptyForm brands categories, None, false)
           /\ ProductsManagement.isSaving
                (ProductsManagement.handleSubmit JSON_parse parseFloat parseInt brands
                   categories isSupabaseConfigured supabase st)
              = false
       | ProductsManagement.ToastError _ =>
           Form.dialog
             (ProductsManagement.handleSubmit JSON_parse parseFloat parseInt brands
                categories isSupabaseConfigured supabase st)
           = Form.dialog st
           /\ ProductsManagement.isSaving
                (ProductsManagement.handleSubmit JSON_parse parseFloat parseInt brands
                   categories isSupabaseConfigured supabase st)
              = (if decide (Form.complete (ProductsManagement.formData st)) then false
                 else ProductsManagement.isSaving st)
       | ProductsManagement.ToastInfo _ => False
       end.
Proof.
  destruct (handleSubmit_cases JSON_parse parseFloat parseInt brands categories
              isSupabaseConfigured supabase st)
    as [(Hc & ->)|[(Hc & m & ->)|(Hc & m & ->)]].
  - exists (ProductsManagement.ToastError "Please fill in all required fields").
    conjuncts; try reflexivity. cbn. now destruct (decide _).
  - exists (ProductsManagement.ToastError m).
    conjuncts; try reflexivity. cbn. now destruct (decide _).
  - exists (ProductsManagement.ToastSuccess m). conjuncts; reflexivity.
Qed.

(** Without a configured backend, submitting a complete form whose
    specifications parse shows a success toast and resets the form, whatever
    the store would have answered: no request is made. *)
Theorem unconfigured_submit_reports_success
    (JSON_parse : string -> option RealtimeDb.Json)
    (parseFloat : string -> option RealtimeDb.number) (parseInt : string -> option Z)
    (brands categories : list string)
    (supabase : RealtimeDb.Store) (st : ProductsManagement.State) :
  Form.complete (ProductsManagement.formData st) ->
  (ProductsManagement.specifications (ProductsManagement.formData st) = ""
   \/ JSON_parse (ProductsManagement.specifications (ProductsManagement.formData st)) <> None) ->
  exists m,
    ProductsManagement.toasts
      (ProductsManagement.handleSubmit JSON_parse parseFloat parseInt brands categories
         false supabase st)
    = (ProductsManagement.toasts st ++ [ProductsManagement.ToastSuccess m])%list
    /\ Form.dialog
         (ProductsManagement.handleSubmit JSON_parse parseFloat parseInt brands categories
            false supabase st)
       = (ProductsManagement.emptyForm brands categories, None, false).
Proof.
  intros Hc Hspecs. unfold ProductsManagement.handleSubmit.
  destruct (complete_cases (ProductsManagement.formData st)) as [(_ & ->)|(Hn & _)];
    [|now destruct Hn].
  assert (Hparsed : exists specs,
             (if ProductsManagement.nonempty
                   (ProductsManagement.specifications (ProductsManagement.formData st))
              then JSON_parse
                     (ProductsManagement.specifications (ProductsManagement.formData st))
              else Some (RealtimeDb.JObject [])) = Some specs).
  { destruct Hspecs as [->|Hp]; [now eexists|].
    destruct (ProductsManagement.nonempty _); [|now eexists].
    destruct (JSON_parse _) as [specs|]; [now eexists|now destruct Hp]. }
  destruct Hparsed as (specs & ->).
  destruct (ProductsManagement.editingProduct st) as [editing|]; cbn; eauto.
Qed.

Lemma unconfigured_submit_reports_success_witness :
  exists m,
    ProductsManagement.toasts
      (ProductsManagement.handleSubmit (fun _ => None) (fun _ => None) (fun _ => None)
         ["Polycab"] ["House Wires"] false (Samples.failing_store Samples.transport_error)
         {| ProductsManagement.products := [];
            ProductsManagement.isLoading := false;
            ProductsManagement.formData :=
              {| ProductsManagement.name := "FR wire";
                 ProductsManagement.brand := "Polycab";
                 ProductsManagement.category := "House Wires";
                 ProductsManagement.color := "Red";
                 ProductsManagement.description := "";
                 ProductsManagement.base_price := "28.5";
                 ProductsManagement.unit_type := "metres";
                 ProductsManagement.stock_quantity := "0";
                 ProductsManagement.image_url := "";
                 ProductsManagement.specifications := "";
                 ProductsManagement.is_active := true |};
            ProductsManagement.editingProduct := None;
            ProductsManagement.isDialogOpen := true;
            ProductsManagement.isSaving := false;
            ProductsManagement.toasts := [] |})
    = [ProductsManagement.ToastSuccess m].
Proof.
  edestruct (unconfigured_submit_reports_success (fun _ => None) (fun _ => None)
               (fun _ => None) ["Polycab"] ["House Wires"]
               (Samples.failing_store Samples.transport_error)) as (m & Ht & _);
    [| |exists m; exact Ht].
  - cbn. repeat split; discriminate.
  - left; reflexivity.
Defined.

(** [loadProducts] never shows its failure toast: [getProducts] swallows the
    store's error, so a failed load empties the list without a word.  The
    loading flag is always cleared. *)
Theorem loadProducts_fails_silently
    (isSupabaseConfigured : bool) (supabase : RealtimeDb.Store)
    (st : ProductsManagement.State) :
  ProductsManagement.toasts (ProductsManagement.loadProducts isSupabaseConfigured supabase st)
  = ProductsManagement.toasts st
  /\ ProductsManagement.isLoading
       (ProductsManagement.loadProducts isSupabaseConfigured supabase st) = false
  /\ Form.dialog (ProductsManagement.loadProducts isSupabaseConfigured supabase st)
     = Form.dialog st
  /\ ProductsManagement.products
       (ProductsManagement.loadProducts isSupabaseConfigured supabase st)
     = (if isSupabaseConfigured
        then match RealtimeDb.error (RealtimeDb.selectProducts supabase) with
             | Some _ => []
             | None => RealtimeDb.or_empty (RealtimeDb.data (RealtimeDb.selectProducts supabase))
             end
        else []).
Proof.
  unfold ProductsManagement.loadProducts, RealtimeDb.getProducts.
  destruct isSupabaseConfigured; cbn [negb].
  - destruct (RealtimeDb.error (RealtimeDb.selectProducts supabase)); conjuncts; reflexivity.
  - conjuncts; reflexivity.
Qed.
